(** * Strategic video frame sampling ([src/utils/video_processor.py])

    A shallow embedding of [extract_strategic_frames] and of the
    scene-change scan it contains, with the properties of the sampler
    proved or refuted on it.

    Modelling conventions.
    - Python floats are idealised as exact rationals ([Q]); equality of
      timestamps is [Qeq] (written [==]).  [max_frames] is a Python [int],
      hence a [Z] that may be zero or negative.  Double precision departs
      from this where a subtraction absorbs an operand (durations below
      about 1e-16 or from 2^53 on) and where a comparison is an exact tie:
      there the code and the model can keep different candidates.  The
      statements below are about order, spacing, counts and membership,
      which do not depend on it; the ones about concrete values bound the
      duration.
    - The video decoder, the re-encoder and OpenCV are external: a [Video]
      carries what they answer ([get_frame] may raise, [write_videofile]
      may raise, the capture delivers a finite list of frames).
    - The function mutates its local lists [frames] and [timestamps] inside
      a [try] block, creates and deletes a temporary file and calls the
      decoder; all of this lives in an explicit [State] threaded by a small
      state-and-exception monad in which the state survives a raise, as
      Python's heap does. *)

From Stdlib Require Import String Ascii.
From Stdlib Require Import ZArith QArith Qabs Qminmax Lqa Lia.
From Stdlib Require Import List Bool Sorted.
Import ListNotations.

Local Open Scope Q_scope.

(** ** Python built-ins on floats and lists *)

Module Py.

(** [a < b] on floats. *)
Definition lt (a b : Q) : bool := negb (Qle_bool b a).

(** [min(a, b)]: the first argument unless the second is smaller. *)
Definition min (a b : Q) : Q := if lt b a then b else a.

(** [max(a, b)]: the first argument unless the second is larger. *)
Definition max (a b : Q) : Q := if lt a b then b else a.

(** [abs(x)]. *)
Definition abs (x : Q) : Q := Qabs x.

(** [any(p(t) for t in l)]. *)
Definition any {A : Type} (p : A -> bool) (l : list A) : bool := existsb p l.

(** [x in s] for a collection of floats. *)
Definition mem (x : Q) (s : list Q) : bool := existsb (Qeq_bool x) s.

(** [s.add(x)] on a set of floats, kept as a duplicate-free list. *)
Definition set_add (x : Q) (s : list Q) : list Q :=
  if mem x s then s else s ++ [x].

(** [set(l)]. *)
Definition set (l : list Q) : list Q :=
  fold_left (fun s x => set_add x s) l [].

(** [sorted(l, key=key)]: a stable sort, here by insertion. *)
Fixpoint insert_by {A : Type} (key : A -> Q) (x : A) (l : list A) : list A :=
  match l with
  | [] => [x]
  | y :: l' =>
      if Qle_bool (key x) (key y) then x :: y :: l'
      else y :: insert_by key x l'
  end.

Definition sorted_by {A : Type} (key : A -> Q) (l : list A) : list A :=
  fold_right (insert_by key) [] l.

Definition sorted (l : list Q) : list Q := sorted_by (fun x => x) l.

(** [range(1, n + 1)]. *)
Definition range1 (n : Z) : list Z := map Z.of_nat (seq 1 (Z.to_nat n)).

(** [len(l)]. *)
Definition len {A : Type} (l : list A) : Z := Z.of_nat (length l).

(** [l[-1]] on a list known to be non-empty. *)
Definition last (l : list Q) : Q := List.last l 0.

(** [l[:n]]. *)
Definition take {A : Type} (n : Z) (l : list A) : list A :=
  if (n <? 0)%Z then firstn (length l - Z.to_nat (- n)) l
  else firstn (Z.to_nat n) l.

End Py.

(** ** Exceptions and outcomes *)

Inductive Exn : Type :=
| DecodeError (t : Q)      (* video.get_frame(t) raised *)
| EncodeError              (* write_videofile raised *)
| ZeroDivisionError        (* frame_count / 0.0 *)
| CvError.                 (* cv2.cvtColor or cv2.absdiff raised *)

Inductive Outcome (A : Type) : Type :=
| Ok (a : A)
| Raise (e : Exn).
Arguments Ok {A} a.
Arguments Raise {A} e.

(** ** The sampler *)

Section Sampler.

(** Decoded frames (numpy arrays), frames read by the OpenCV capture, and
    the grayscale conversion [cv2.cvtColor(_, cv2.COLOR_BGR2GRAY)], which
    raises on a frame it cannot convert. *)
Variable Frame : Type.
Variable CapFrame : Type.
Variable cvtColor_gray : CapFrame -> option (list Z).

(** What [cv2.VideoCapture] finds in the re-encoded file. *)
Record Capture : Type := mkCapture {
  cap_fps : Q;                       (* cap.get(cv2.CAP_PROP_FPS) *)
  cap_frames : list CapFrame         (* the frames read until ret is False *)
}.

(** A MoviePy clip.  [write_videofile clip] is what re-encoding leaves in
    the temporary file, [None] when it raises; [clip] is [true] for
    [video.subclip(0, 60)] and [false] for the whole video. *)
Record Video : Type := mkVideo {
  duration : Q;
  get_frame : Q -> option Frame;
  write_videofile : bool -> option Capture
}.

(** The mutable part of a call: the two local lists that are appended to
    in place, the decoder calls made so far, and the temporary files that
    exist on disk. *)
Record State : Type := mkState {
  frames : list Frame;
  timestamps : list Q;
  decode_log : list Q;
  temp_files : list nat
}.

Definition M (A : Type) : Type := State -> Outcome A * State.

Definition ret {A : Type} (a : A) : M A := fun s => (Ok a, s).

Definition bind {A B : Type} (m : M A) (k : A -> M B) : M B :=
  fun s => match m s with
           | (Ok a, s') => k a s'
           | (Raise e, s') => (Raise e, s')
           end.

Definition raise {A : Type} (e : Exn) : M A := fun s => (Raise e, s).

(** [try: m except Exception: h]. *)
Definition try_except {A : Type} (m : M A) (h : Exn -> M A) : M A :=
  fun s => match m s with
           | (Ok a, s') => (Ok a, s')
           | (Raise e, s') => h e s'
           end.

Definition get_state : M State := fun s => (Ok s, s).

Definition lift {A : Type} (r : Outcome A) : M A := fun s => (r, s).

Notation "x <- m ;; k" := (bind m (fun x => k))
  (at level 61, m at next level, right associativity).
Notation "m ;;; k" := (bind m (fun _ => k))
  (at level 61, right associativity).

(** [for x in l: body(x)]. *)
Fixpoint for_each {A : Type} (l : list A) (body : A -> M unit) : M unit :=
  match l with
  | [] => ret tt
  | x :: l' => body x ;;; for_each l' body
  end.

(** *** Effects *)

(** [np.array(video.get_frame(t))]. *)
Definition video_get_frame (video : Video) (t : Q) : M Frame :=
  fun s =>
    let s' := mkState (frames s) (timestamps s)
                      (decode_log s ++ [t]) (temp_files s) in
    match get_frame video t with
    | Some f => (Ok f, s')
    | None => (Raise (DecodeError t), s')
    end.

(** [frames.append(f)]. *)
Definition frames_append (f : Frame) : M unit :=
  fun s => (Ok tt, mkState (frames s ++ [f]) (timestamps s)
                           (decode_log s) (temp_files s)).

(** [timestamps.append(t)]. *)
Definition timestamps_append (t : Q) : M unit :=
  fun s => (Ok tt, mkState (frames s) (timestamps s ++ [t])
                           (decode_log s) (temp_files s)).

(** The pair of statements
    [frames.append(np.array(video.get_frame(t)))] and
    [timestamps.append(t)], which the function executes for every
    timestamp it accepts: nothing is appended when the decoder raises. *)
Definition append_frame_at (video : Video) (t : Q) : M unit :=
  f <- video_get_frame video t ;;
  frames_append f ;;;
  timestamps_append t.

(** A path that no existing temporary file has. *)
Definition fresh_path (files : list nat) : nat := S (list_max files).

(** [tempfile.NamedTemporaryFile(suffix='.mp4', delete=False)]: the file
    is created and stays on disk when the [with] block is left. *)
Definition NamedTemporaryFile : M nat :=
  fun s =>
    let p := fresh_path (temp_files s) in
    (Ok p, mkState (frames s) (timestamps s) (decode_log s)
                   (temp_files s ++ [p])).

(** [os.remove(path)]. *)
Definition os_remove (path : nat) : M unit :=
  fun s => (Ok tt, mkState (frames s) (timestamps s) (decode_log s)
                           (filter (fun p => negb (Nat.eqb p path))
                                   (temp_files s))).

(** [clip.write_videofile(temp_video_path, ...)] followed by
    [cv2.VideoCapture(temp_video_path)]. *)
Definition write_and_open (video : Video) (clip : bool) : M Capture :=
  match write_videofile video clip with
  | Some c => ret c
  | None => raise EncodeError
  end.

(** *** The scene-change scan (lines 192-234) *)

(** [cv2.absdiff] of two grayscale images; raises when the sizes differ. *)
Definition absdiff (a b : list Z) : Outcome (list Z) :=
  if Nat.eqb (length a) (length b)
  then Ok (map (fun p => Z.abs (fst p - snd p)) (combine a b))
  else Raise CvError.

(** [np.mean]. *)
Definition np_mean (l : list Z) : Q :=
  inject_Z (fold_right Z.add 0%Z l) / inject_Z (Z.of_nat (length l)).

(** The mean absolute difference of lines 214-219. *)
Definition mean_diff (prev_frame frame : CapFrame) : Outcome Q :=
  match cvtColor_gray prev_frame with
  | None => Raise CvError
  | Some prev_gray =>
      match cvtColor_gray frame with
      | None => Raise CvError
      | Some curr_gray =>
          match absdiff prev_gray curr_gray with
          | Ok frame_diff => Ok (np_mean frame_diff)
          | Raise e => Raise e
          end
      end
  end.

Definition threshold : Q := 30.

(** The loop variables of the scan. *)
Record Scan : Type := mkScan {
  prev_frame : option CapFrame;
  scene_timestamps : list Q;
  frame_count : Z
}.

Definition scan_init : Scan := mkScan None [] 0.

(** How one iteration ends: the loop goes on, or [break] is executed. *)
Inductive Flow : Type := Continue | Break.

Section Scan.

Variable video_duration : Q.
Variable fps : Q.
Variable first_time : Q.
Variable min_scene_length : Q.
Variable middle_frames : Z.

(** [frame_count / cap.get(cv2.CAP_PROP_FPS)]. *)
Definition frame_time_of (count : Z) : Q := inject_Z count / fps.

(** Lines 223-226. *)
Definition original_time_of (frame_time : Q) : Q :=
  if Py.lt 60 video_duration then Py.min frame_time video_duration
  else frame_time.

(** One iteration of the [while] loop, for a frame that was read. *)
Definition scan_step (st : Scan) (frame : CapFrame) : Outcome (Scan * Flow) :=
  if Qeq_bool fps 0 then Raise ZeroDivisionError else
  let frame_time := frame_time_of (frame_count st) in
  let count := (frame_count st + 1)%Z in
  if Py.lt frame_time first_time then
    Ok (mkScan (prev_frame st) (scene_timestamps st) count, Continue)
  else if negb (Nat.eqb (length (scene_timestamps st)) 0)
          && Py.lt (frame_time - Py.last (scene_timestamps st))
                   min_scene_length then
    Ok (mkScan (prev_frame st) (scene_timestamps st) count, Continue)
  else
    match prev_frame st with
    | None => Ok (mkScan (Some frame) (scene_timestamps st) count, Continue)
    | Some prev =>
        match mean_diff prev frame with
        | Raise e => Raise e
        | Ok d =>
            if Py.lt threshold d then
              let scenes :=
                scene_timestamps st ++ [original_time_of frame_time] in
              if (middle_frames <=? Py.len scenes)%Z then
                Ok (mkScan (prev_frame st) scenes count, Break)
              else
                Ok (mkScan (Some frame) scenes count, Continue)
            else
              Ok (mkScan (Some frame) (scene_timestamps st) count, Continue)
        end
    end.

(** The whole loop over the frames the capture delivers. *)
Fixpoint scan_loop (fs : list CapFrame) (st : Scan) : Outcome Scan :=
  match fs with
  | [] => Ok st
  | frame :: rest =>
      match scan_step st frame with
      | Raise e => Raise e
      | Ok (st', Break) => Ok st'
      | Ok (st', Continue) => scan_loop rest st'
      end
  end.

End Scan.

(** *** Scene detection (lines 171-252) *)

(** Lines 177-183. *)
Definition subclip_duration (d : Q) : Q := if Py.lt 60 d then 60 else d.

(** Line 190. *)
Definition min_scene_length_of (d : Q) (middle_frames : Z) : Q :=
  Py.max 1 (subclip_duration d / inject_Z (middle_frames * 2)).

(** Lines 244-252, the body of the loop over the detected scenes. *)
Definition accept_scene (video : Video) (first_time : Q) (time : Q) : M unit :=
  if Py.lt (Py.abs (time - first_time)) 1 then ret tt
  else if Py.lt (duration video - time) 1 then ret tt
  else append_frame_at video time.

Definition scene_detection (video : Video) (first_time : Q)
           (middle_frames : Z) : M unit :=
  let d := duration video in
  temp_video_path <- NamedTemporaryFile ;;
  cap <- write_and_open video (Py.lt 60 d) ;;
  let min_scene_length := min_scene_length_of d middle_frames in
  st <- lift (scan_loop d (cap_fps cap) first_time min_scene_length
                        middle_frames (cap_frames cap) scan_init) ;;
  os_remove temp_video_path ;;;
  match scene_timestamps st with
  | [] => ret tt
  | _ :: _ =>
      let scenes := Py.sorted (Py.set (scene_timestamps st)) in
      for_each (Py.take middle_frames scenes) (accept_scene video first_time)
  end.

(** *** Uniform fallback (lines 260-279) *)

Fixpoint uniform_loop (video : Video) (first_time step : Q)
         (idxs : list Z) (existing_timestamps : list Q) : M unit :=
  match idxs with
  | [] => ret tt
  | i :: rest =>
      let time :=
        Py.min (first_time + inject_Z i * step) (duration video - 1) in
      if Py.any (fun t => Py.lt (Py.abs (time - t)) 1) existing_timestamps
      then uniform_loop video first_time step rest existing_timestamps
      else
        append_frame_at video time ;;;
        uniform_loop video first_time step rest
                     (Py.set_add time existing_timestamps)
  end.

Definition uniform_fallback (video : Video) (first_time : Q)
           (max_frames : Z) : M unit :=
  s <- get_state ;;
  if (Py.len (frames s) <? max_frames - 1)%Z then
    let remaining_frames := (max_frames - 1 - Py.len (frames s))%Z in
    if (0 <? remaining_frames)%Z then
      let existing_timestamps := Py.set (timestamps s) in
      let step := duration video / inject_Z (remaining_frames + 2) in
      uniform_loop video first_time step (Py.range1 remaining_frames)
                   existing_timestamps
    else ret tt
  else ret tt.

(** *** The whole function (lines 138-294) *)

Definition first_time_of (d : Q) : Q := Py.min (1 # 2) (d * (1 # 10)).

Definition last_time_of (d : Q) : Q := Py.max (d - (1 # 2)) (d * (9 # 10)).

(** Lines 169-257: scene detection is tried on videos longer than three
    seconds when there is room for middle frames; whatever it raises is
    swallowed by the [except] clause. *)
Definition try_scene_detection (video : Video) (first_time : Q)
           (max_frames : Z) : M unit :=
  let middle_frames := (max_frames - 2)%Z in
  if Py.lt 3 (duration video) && (0 <? middle_frames)%Z then
    try_except (scene_detection video first_time middle_frames)
               (fun _ => ret tt)
  else ret tt.

(** Lines 281-287: the end anchor, unless an existing timestamp is within
    one second of it. *)
Definition add_last_frame (video : Video) : M unit :=
  let last_time := last_time_of (duration video) in
  s <- get_state ;;
  if negb (Py.any (fun t => Py.lt (Py.abs (last_time - t)) 1) (timestamps s))
  then append_frame_at video last_time
  else ret tt.

(** Lines 289-294: the frames and the timestamps, sorted by timestamp. *)
Definition sorted_result : M (list Frame * list Q) :=
  s <- get_state ;;
  let frames_and_times :=
    Py.sorted_by snd (combine (frames s) (timestamps s)) in
  ret (map fst frames_and_times, map snd frames_and_times).

Definition extract_strategic_frames (video : Video) (max_frames : Z)
  : M (list Frame * list Q) :=
  let d := duration video in
  if Qle_bool d 0 then ret ([], [])
  else
    let first_time := first_time_of d in
    append_frame_at video first_time ;;;
    try_scene_detection video first_time max_frames ;;;
    uniform_fallback video first_time max_frames ;;;
    add_last_frame video ;;;
    sorted_result.

(** A call starts with empty local lists. *)
Definition initial (files : list nat) : State := mkState [] [] [] files.

Definition run (video : Video) (max_frames : Z) (files : list nat)
  : Outcome (list Frame * list Q) * State :=
  extract_strategic_frames video max_frames (initial files).

End Sampler.

Arguments mkCapture {CapFrame} _ _.
Arguments cap_fps {CapFrame} _.
Arguments cap_frames {CapFrame} _.
Arguments mkVideo {Frame CapFrame} _ _ _.
Arguments duration {Frame CapFrame} _.
Arguments get_frame {Frame CapFrame} _ _.
Arguments write_videofile {Frame CapFrame} _ _.
Arguments mkState {Frame} _ _ _ _.
Arguments frames {Frame} _.
Arguments timestamps {Frame} _.
Arguments decode_log {Frame} _.
Arguments temp_files {Frame} _.
Arguments ret {Frame A} _ _.
Arguments bind {Frame A B} _ _ _.
Arguments raise {Frame A} _ _.
Arguments try_except {Frame A} _ _ _.
Arguments get_state {Frame} _.
Arguments lift {Frame A} _ _.
Arguments for_each {Frame A} _ _ _.
Arguments video_get_frame {Frame CapFrame} _ _ _.
Arguments frames_append {Frame} _ _.
Arguments timestamps_append {Frame} _ _.
Arguments append_frame_at {Frame CapFrame} _ _ _.
Arguments NamedTemporaryFile {Frame} _.
Arguments os_remove {Frame} _ _.
Arguments write_and_open {Frame CapFrame} _ _ _.
Arguments mean_diff {CapFrame} _ _ _.
Arguments mkScan {CapFrame} _ _ _.
Arguments prev_frame {CapFrame} _.
Arguments scene_timestamps {CapFrame} _.
Arguments frame_count {CapFrame} _.
Arguments scan_init {CapFrame}.
Arguments scan_step {CapFrame} _ _ _ _ _ _ _ _.
Arguments scan_loop {CapFrame} _ _ _ _ _ _ _ _.
Arguments accept_scene {Frame CapFrame} _ _ _ _.
Arguments scene_detection {Frame CapFrame} _ _ _ _ _.
Arguments uniform_loop {Frame CapFrame} _ _ _ _ _ _.
Arguments uniform_fallback {Frame CapFrame} _ _ _ _.
Arguments try_scene_detection {Frame CapFrame} _ _ _ _ _.
Arguments add_last_frame {Frame CapFrame} _ _.
Arguments sorted_result {Frame} _.
Arguments extract_strategic_frames {Frame CapFrame} _ _ _ _.
Arguments initial {Frame} _.
Arguments run {Frame CapFrame} _ _ _ _.

(** ** Vocabulary of the properties *)

(** Two timestamps at least one second apart. *)
Definition far (a b : Q) : Prop := 1 <= Qabs (a - b).

(** Every two entries of the list, at different positions, are at least one
    second apart. *)
Definition spaced (l : list Q) : Prop := ForallOrdPairs far l.

(** Strictly increasing timestamps. *)
Definition increasing (l : list Q) : Prop := StronglySorted Qlt l.

(** Every decode request is answered with a frame. *)
Definition decodes_all {Frame CapFrame : Type} (video : Video Frame CapFrame)
  : Prop := forall t, get_frame video t <> None.

(** The minimum spacing as the specification words it: the window
    [[firstTime, duration]], capped at 60 seconds, over twice the number of
    scenes, floored at one second. *)
Definition claimed_min_scene_spacing (d : Q) (max_frames : Z) : Q :=
  Qmax 1 (Qmin (d - first_time_of d) 60 / inject_Z ((max_frames - 2) * 2)).

(** ** Concrete clips used in the examples *)

(** Grayscale captures: a frame is its list of intensities. *)
Definition gray_id (f : list Z) : option (list Z) := Some f.

(** A clip of the given duration whose decoder returns the requested
    timestamp as the frame, and whose re-encoding yields [cap]. *)
Definition clip (d : Q) (cap : option (Capture (list Z)))
  : Video Q (list Z) :=
  mkVideo d (fun t => Some t) (fun _ => cap).

(** A clip on which every decode request fails. *)
Definition undecodable_clip (d : Q) : Video Q (list Z) :=
  mkVideo d (fun _ => None) (fun _ => None).

Definition black : list Z := [0%Z; 0%Z].
Definition white : list Z := [255%Z; 255%Z].

(** A capture at one frame per second that alternates between dark and
    bright pictures. *)
Definition flicker : Capture (list Z) :=
  mkCapture 1 [black; black; white; white; black; black; white; black;
               white; white; black].

(** A capture the scan cannot time: its frame rate reads zero. *)
Definition stalled : Capture (list Z) := mkCapture 0 [black; white].

(** *** Vocabulary of the scan *)

Section ScanVocabulary.

Context {CapFrame : Type} (gray : CapFrame -> option (list Z)).
Variables (d fps first_time min_scene_length : Q) (middle_frames : Z).

(** The loop variables with which the scan reaches frame number [k] of the
    capture (frames are numbered from 0). *)
Definition scan_before (fs : list CapFrame) (k : nat) : Outcome (Scan CapFrame) :=
  scan_loop gray d fps first_time min_scene_length middle_frames
            (firstn k fs) scan_init.

(** The timestamp of frame number [k]. *)
Definition time_of_frame (k : nat) : Q := frame_time_of fps (Z.of_nat k).

(** A frame at [time] passes the two [continue] tests of the loop: it is
    not before the start anchor, and not closer than [min_scene_length] to
    the last candidate, if there is one. *)
Definition examined (scenes : list Q) (time : Q) : Prop :=
  first_time <= time /\
  (scenes = [] \/ min_scene_length <= time - Py.last scenes).

Definition examinedb (scenes : list Q) (time : Q) : bool :=
  negb (Py.lt time first_time) &&
  negb (negb (Nat.eqb (length scenes) 0) &&
        Py.lt (time - Py.last scenes) min_scene_length).

(** The frame that frame number [k] is compared with: the most recent
    earlier frame that passed the two tests. *)
Fixpoint reference_frame (fs : list CapFrame) (k : nat) : option CapFrame :=
  match k with
  | O => None
  | S j =>
      match scan_before fs j, nth_error fs j with
      | Ok st, Some f =>
          if examinedb (scene_timestamps st) (time_of_frame j) then Some f
          else reference_frame fs j
      | _, _ => reference_frame fs j
      end
  end.

(** The scan emits a candidate at frame number [k]: reading that frame
    appends its timestamp to the candidates. *)
Definition emitted_at (fs : list CapFrame) (k : nat) : Prop :=
  exists st st',
    scan_before fs k = Ok st /\
    scan_before fs (S k) = Ok st' /\
    scene_timestamps st' =
      scene_timestamps st ++ [original_time_of d (time_of_frame k)].

(** The condition of the specification: the difference to the immediately
    preceding frame exceeds the threshold, and the timestamp is at least
    [min_scene_length] after the previous candidate, or after the window
    start when there is none. *)
Definition claimed_cut (fs : list CapFrame) (k : nat) : Prop :=
  exists st prev frame diff,
    scan_before fs k = Ok st /\
    (0 < k)%nat /\ nth_error fs (k - 1) = Some prev /\
    nth_error fs k = Some frame /\
    mean_diff gray prev frame = Ok diff /\ threshold < diff /\
    min_scene_length <=
      time_of_frame k - match scene_timestamps st with
                        | [] => first_time
                        | _ :: _ => Py.last (scene_timestamps st)
                        end.

(** The condition the loop implements. *)
Definition cut_condition (fs : list CapFrame) (k : nat) : Prop :=
  exists st ref frame diff,
    scan_before fs k = Ok st /\
    nth_error fs k = Some frame /\
    (Py.len (scene_timestamps st) < middle_frames)%Z /\
    examined (scene_timestamps st) (time_of_frame k) /\
    reference_frame fs k = Some ref /\
    mean_diff gray ref frame = Ok diff /\ threshold < diff.

End ScanVocabulary.

(** A capture at two frames per second: dark, dark, bright, dark, dark. *)
Definition blink : list (list Z) := [black; black; white; black; black].

(** Where an accepted interior timestamp (scene or uniform) lies: at least
    one second after the start anchor and at least one second before the
    end of the video. *)
Definition interior (d ft t : Q) : Prop := ft + 1 <= t /\ t <= d - 1.

(** The order in which the scan emits candidates: a later candidate is not
    smaller, and it is at least one second larger unless it lies in the
    last second of the video. *)
Definition follows (d a b : Q) : Prop := a <= b /\ (b <= d - 1 -> a + 1 <= b).

(** Neighbouring candidates of the scan lie at least [spacing] apart; the
    one exception is a candidate of a video longer than a minute that was
    capped at the duration. *)
Definition scan_spaced (d spacing : Q) (l : list Q) : Prop :=
  forall l1 a b l2,
    l = l1 ++ a :: b :: l2 -> spacing <= b - a \/ (60 < d /\ b == d).

(** What the scan maintains about the candidates it has emitted. *)
Definition scenes_ok (d ft : Q) (l : list Q) : Prop :=
  StronglySorted (follows d) l /\
  Forall (fun x => ft <= x /\ (60 < d -> x <= d)) l.

(** Every entry of [l] has an equal entry in [s]. *)
Definition covers (s l : list Q) : Prop :=
  forall t, In t l -> exists t', In t' s /\ t == t'.

(** The local lists between the phases of a call on a video of duration
    [d]: the start anchor, then the interior timestamps [rest], at most [n]
    of them and pairwise far apart; one frame per timestamp; the decoder was
    first asked for the start anchor. *)
Definition mid_rest {Frame : Type} (d : Q) (n : nat) (rest : list Q)
           (s : State Frame) : Prop :=
  timestamps s = first_time_of d :: rest /\
  Forall (interior d (first_time_of d)) rest /\
  spaced rest /\
  (length rest <= n)%nat /\
  length (frames s) = length (timestamps s) /\
  exists log, decode_log s = first_time_of d :: log.

Definition mid_state {Frame : Type} (d : Q) (n : nat) (s : State Frame)
  : Prop :=
  exists rest, mid_rest d n rest s.

(** Whether the end anchor was kept: it is appended when it is far from
    every timestamp chosen before it, and dropped when one of them is within
    one second. *)
Definition end_anchor (d : Q) (rest tail : list Q) : Prop :=
  (tail = [last_time_of d] /\
   Forall (far (last_time_of d)) (first_time_of d :: rest)) \/
  (tail = [] /\
   exists t, In t (first_time_of d :: rest) /\ ~ far (last_time_of d) t).

(** The local lists when the call returns: start anchor, interior
    timestamps, and the end anchor if it was kept. *)
Definition final_rest {Frame : Type} (d : Q) (n : nat) (rest tail : list Q)
           (s : State Frame) : Prop :=
  timestamps s = first_time_of d :: rest ++ tail /\
  Forall (interior d (first_time_of d)) rest /\
  spaced rest /\
  (length rest <= n)%nat /\
  length (frames s) = length (timestamps s) /\
  end_anchor d rest tail.

(** Scene detection raises before it reaches [os.remove]: re-encoding
    fails, or the scan of the capture raises. *)
Definition detection_raises {Frame CapFrame : Type}
           (gray : CapFrame -> option (list Z))
           (video : Video Frame CapFrame) (max_frames : Z) : Prop :=
  let d := duration video in
  match write_videofile video (Py.lt 60 d) with
  | None => True
  | Some cap =>
      exists e,
        scan_loop gray d (cap_fps cap) (first_time_of d)
                  (min_scene_length_of d (max_frames - 2)) (max_frames - 2)
                  (cap_frames cap) scan_init = Raise e
  end.

(** An exception that reports a decode request the video cannot answer. *)
Definition decode_failure {Frame CapFrame : Type}
           (video : Video Frame CapFrame) (e : Exn) : Prop :=
  exists t, e = DecodeError t /\ get_frame video t = None.

(** * The caller [process_video] and the functions it calls *)

(** ** More Python built-ins: dictionaries and strings *)

Module PyDict.

(** A [dict] with string keys, in insertion order. *)
Definition t (V : Type) : Type := list (string * V).

(** [d[k]], [None] standing for [KeyError]. *)
Fixpoint get {V : Type} (d : t V) (k : string) : option V :=
  match d with
  | [] => None
  | (k', v) :: d' => if String.eqb k' k then Some v else get d' k
  end.

(** [k in d]. *)
Definition has {V : Type} (d : t V) (k : string) : bool :=
  match get d k with
  | Some _ => true
  | None => false
  end.

(** [d[k] = v]: an existing key keeps its place. *)
Fixpoint set {V : Type} (d : t V) (k : string) (v : V) : t V :=
  match d with
  | [] => [(k, v)]
  | (k', v') :: d' =>
      if String.eqb k' k then (k', v) :: d' else (k', v') :: set d' k v
  end.

(** [d.get(k, default)]. *)
Definition get_default {V : Type} (d : t V) (k : string) (default : V) : V :=
  match get d k with
  | Some v => v
  | None => default
  end.

End PyDict.

Module PyStr.

(** [c.isspace()] for the characters below 256. *)
Definition is_space (c : ascii) : bool :=
  let n := nat_of_ascii c in
  ((9 <=? n) && (n <=? 13) || (28 <=? n) && (n <=? 32)
   || (n =? 133) || (n =? 160))%nat.

(** [s.lstrip()]. *)
Fixpoint lstrip (s : string) : string :=
  match s with
  | EmptyString => EmptyString
  | String c s' => if is_space c then lstrip s' else s
  end.

Definition reverse (s : string) : string :=
  string_of_list_ascii (rev (list_ascii_of_string s)).

(** [s.strip()]. *)
Definition strip (s : string) : string := reverse (lstrip (reverse (lstrip s))).

(** The truth value of a string: it is not empty. *)
Definition truthy (s : string) : bool := negb (String.eqb s EmptyString).

(** [sep.join(l)]. *)
Definition join (sep : string) (l : list string) : string := String.concat sep l.

End PyStr.

(** [int(x)] on a finite float: truncation towards zero. *)
Definition py_int (x : Q) : Z := Z.quot (Qnum x) (Zpos (Qden x)).

(** The result of a call whose exception is identified by its text, the
    [str(e)] that error messages are built from. *)
Inductive Res (A : Type) : Type :=
| Val (a : A)
| Throw (msg : string).
Arguments Val {A} a.
Arguments Throw {A} msg.

Definition res_bind {A B : Type} (r : Res A) (k : A -> Res B) : Res B :=
  match r with
  | Val a => k a
  | Throw msg => Throw msg
  end.

(** [[f(x) for x in l]], stopping at the first exception. *)
Fixpoint res_map {A B : Type} (f : A -> Res B) (l : list A) : Res (list B) :=
  match l with
  | [] => Val []
  | x :: l' =>
      res_bind (f x) (fun y =>
      res_bind (res_map f l') (fun ys => Val (y :: ys)))
  end.

(** ** Audio ([models/speech_model.py], [extract_and_transcribe_audio]) *)

(** A numpy array of samples: one-dimensional, or two-dimensional with one
    row per sample and one column per channel. *)
Inductive NdArray : Type :=
| Mono (samples : list Q)
| Multi (channels : nat) (rows : list (list Q)).

(** [len(a)]. *)
Definition nd_len (a : NdArray) : nat :=
  match a with
  | Mono samples => length samples
  | Multi _ rows => length rows
  end.

(** [np.mean] of one row. *)
Definition row_mean (row : list Q) : Q :=
  fold_right Qplus 0 row / inject_Z (Z.of_nat (length row)).

(** Lines 346-348 of [video_processor.py]: stereo is averaged to mono. *)
Definition to_mono (a : NdArray) : NdArray :=
  match a with
  | Mono samples => Mono samples
  | Multi channels rows =>
      if (1 <? channels)%nat then Mono (map row_mean rows)
      else Multi channels rows
  end.

Definition too_short_message : string := "Audio too short to transcribe.".

Definition sample_transcription : string :=
  "This is a sample transcription of what would be generated from the uploaded audio. In a production environment, this would be the actual speech content from the audio file, transcribed using a model like OpenAI's Whisper or another speech recognition system.".

(** [models/speech_model.py], lines 3-24. *)
Definition transcribe_audio (audio_array : NdArray) (sample_rate : Q) : string :=
  if Py.lt (inject_Z (Z.of_nat (nd_len audio_array))) sample_rate
  then too_short_message
  else sample_transcription.

(** A MoviePy audio clip: [to_soundarray()] may raise. *)
Record AudioTrack : Type := mkAudioTrack {
  to_soundarray : Res NdArray;
  audio_fps : Q
}.

Definition no_audio_message : string := "No audio track found in video.".

(** [video_processor.py], lines 326-357, on [video.audio]. *)
Definition extract_and_transcribe_audio (audio : option AudioTrack) : string :=
  match audio with
  | None => no_audio_message
  | Some track =>
      match to_soundarray track with
      | Throw msg => ("Error transcribing audio: " ++ msg)%string
      | Val audio_array =>
          let sample_rate := audio_fps track in
          transcribe_audio (to_mono audio_array) sample_rate
      end
  end.

(** ** Frame analysis and the caller *)

Section Caller.

(** PIL images, encoded JPEG buffers and detected objects are opaque. *)
Variables Frame CapFrame Image Buffer Obj : Type.
Variable cvtColor_gray : CapFrame -> option (list Z).

(** An entry of [results['key_frames']]: a dictionary whose keys [time],
    [frame_number] and [description] are always set, while [objects] and
    [image] may be missing. *)
Record FrameData : Type := mkFrameData {
  fd_time : Q;
  fd_frame_number : Z;
  fd_description : string;
  fd_objects : option (list Obj);
  fd_image : option Buffer
}.

(** An entry of Gemini's [frame_analyses]. *)
Record FrameAnalysis : Type := mkFrameAnalysis {
  fa_frame_number : Z;
  fa_timestamp : Q;
  fa_description : string
}.

(** What [analyze_video_content] returns: a dictionary with the single key
    [error], or one with [overall_analysis], [frame_analyses] and
    [detected_objects]. *)
Inductive VideoAnalysis : Type :=
| AnalysisError (msg : string)
| Analysis (overall_analysis : string) (frame_analyses : list FrameAnalysis)
           (detected_objects : list Obj).

(** The [video_info] dictionary. *)
Record VideoInfo : Type := mkVideoInfo {
  vi_duration : Q;
  vi_fps : Q;
  vi_width : Z;
  vi_height : Z;
  vi_frame_timestamps : option (list Q)
}.

(** An opened [VideoFileClip]. *)
Record Clip : Type := mkClip {
  clip_video : Video Frame CapFrame;
  clip_fps : Q;
  clip_size : Z * Z;
  clip_audio : option AudioTrack
}.

(** The collaborators of [process_video]; each may raise where its result
    is a [Res]. *)
Record Env : Type := mkEnv {
  exn_text : Exn -> string;                      (* str(e) *)
  open_clip : nat -> Res Clip;                   (* VideoFileClip(temp_path) *)
  gemini_available : bool;                       (* gemini.is_available() *)
  to_pil : Frame -> Res Image;                   (* Image.fromarray(cv2.cvtColor(..)) *)
  analyze_video_frame : Image -> Res string;
  generate_overall : VideoInfo -> list Image -> Res string;
  extract_objects_from_analysis : string -> list Obj;
  imencode : Frame -> Res (option Buffer);       (* cv2.imencode('.jpg', frame) *)
  analyze_image : Image -> Res string;
  detect_objects : Image -> Res (list Obj);
  summarize_text : string -> Res string
}.

Variable env : Env.

(** *** [basic_frame_analysis] (lines 296-324) *)

Fixpoint basic_frame_loop (i : Z) (pairs : list (Frame * Q))
         (key_frames : list FrameData) : Res (list FrameData) :=
  match pairs with
  | [] => Val key_frames
  | (frame, time) :: rest =>
      res_bind (to_pil env frame) (fun pil_image =>
      res_bind (analyze_image env pil_image) (fun description =>
      res_bind (detect_objects env pil_image) (fun objects =>
      res_bind (imencode env frame) (fun encoded =>
      let frame_data :=
        mkFrameData time (i + 1) description (Some objects) encoded in
      basic_frame_loop (i + 1) rest (key_frames ++ [frame_data])))))
  end.

Definition basic_frame_analysis (frames : list Frame) (timestamps : list Q)
  : Res (list FrameData) :=
  basic_frame_loop 0 (combine frames timestamps) [].

(** *** [GeminiIntegration.analyze_video_content] (lines 408-472) *)

(** Lines 428-435, over [enumerate(frames[:5])]. *)
Fixpoint analyze_frames (info : VideoInfo) (i : nat) (frames : list Image)
         (frame_analyses : list FrameAnalysis) : Res (list FrameAnalysis) :=
  match frames with
  | [] => Val frame_analyses
  | frame :: rest =>
      res_bind
        (match vi_frame_timestamps info with
         | Some l =>
             match nth_error l i with
             | Some t => Val t
             | None => Throw "list index out of range"
             end
         | None => Val (inject_Z (Z.of_nat i))
         end) (fun timestamp =>
      res_bind (analyze_video_frame env frame) (fun description =>
      analyze_frames info (S i) rest
        (frame_analyses ++
         [mkFrameAnalysis (Z.of_nat i + 1) timestamp description])))
  end.

(** Lines 449-453: first, middle and last frame. *)
Definition representative_frames (frames : list Image) : list Image :=
  if (3 <=? length frames)%nat then
    match frames, nth_error frames (length frames / 2), rev frames with
    | first :: _, Some middle, last :: _ => [first; middle; last]
    | _, _, _ => frames
    end
  else frames.

Definition analyze_video_content (frames : list Image) (info : VideoInfo)
  : VideoAnalysis :=
  if negb (gemini_available env) then
    AnalysisError
      "Gemini integration not available. Please provide a Google API key."
  else
    match frames with
    | [] => AnalysisError "No frames provided for analysis."
    | _ :: _ =>
        match
          res_bind (analyze_frames info 0 (firstn 5 frames) [])
            (fun frame_analyses =>
          res_bind (generate_overall env info (representative_frames frames))
            (fun overall_analysis =>
          Val (Analysis overall_analysis frame_analyses
                 (extract_objects_from_analysis env overall_analysis))))
        with
        | Val r => r
        | Throw msg =>
            AnalysisError ("Error analyzing video with Gemini: " ++ msg)%string
        end
    end.

(** *** [process_video] (lines 10-136) *)

(** The values stored in the [results] dictionary. *)
Inductive Value : Type :=
| VStr (s : string)
| VNum (x : Q)
| VInt (n : Z)
| VFrames (l : list FrameData)
| VObjects (l : list Obj).

Definition Results : Type := PyDict.t Value.

Definition Options : Type := PyDict.t bool.

(** The part of the machine [process_video] acts on: the temporary files on
    disk and the number of clips that are open. *)
Record World : Type := mkWorld {
  disk : list nat;
  open_clips : nat
}.

Definition P (A : Type) : Type := World -> Res A * World.

Definition pret {A : Type} (a : A) : P A := fun w => (Val a, w).

Definition pbind {A B : Type} (m : P A) (k : A -> P B) : P B :=
  fun w => match m w with
           | (Val a, w') => k a w'
           | (Throw msg, w') => (Throw msg, w')
           end.

Definition plift {A : Type} (r : Res A) : P A := fun w => (r, w).

Notation "x <-- m ;; k" := (pbind m (fun x => k))
  (at level 61, m at next level, right associativity).

(** [VideoFileClip(temp_path)]. *)
Definition open_video (temp_path : nat) : P Clip :=
  fun w => match open_clip env temp_path with
           | Val clip => (Val clip, mkWorld (disk w) (S (open_clips w)))
           | Throw msg => (Throw msg, w)
           end.

(** [video.close()]. *)
Definition close_video : P unit :=
  fun w => (Val tt, mkWorld (disk w) (Nat.pred (open_clips w))).

(** [extract_strategic_frames(video, options)], with its default
    [max_frames = 7], on the files that are on disk. *)
Definition call_sampler (video : Video Frame CapFrame)
  : P (list Frame * list Q) :=
  fun w => match run cvtColor_gray video 7 (disk w) with
           | (Ok r, s) => (Val r, mkWorld (temp_files s) (open_clips w))
           | (Raise e, s) =>
               (Throw (exn_text env e), mkWorld (temp_files s) (open_clips w))
           end.

(** [results['key_frames'].append(frame_data)]. *)
Definition append_key_frame (results : Results) (frame_data : FrameData)
  : Res Results :=
  match PyDict.get results "key_frames" with
  | Some (VFrames l) =>
      Val (PyDict.set results "key_frames" (VFrames (l ++ [frame_data])))
  | Some _ => Throw "object has no attribute 'append'"
  | None => Throw "'key_frames'"
  end.

(** Lines 81-94, over [enumerate(analysis_results['frame_analyses'])]. *)
Fixpoint gemini_key_frames (extracted_frames : list Frame)
         (frame_timestamps : list Q) (i : nat)
         (frame_analyses : list FrameAnalysis) (results : Results)
  : Res Results :=
  match frame_analyses with
  | [] => Val results
  | frame_analysis :: rest =>
      match nth_error extracted_frames i with
      | None =>
          gemini_key_frames extracted_frames frame_timestamps (S i) rest
                            results
      | Some frame =>
          res_bind (imencode env frame) (fun encoded =>
          match encoded with
          | None =>
              gemini_key_frames extracted_frames frame_timestamps (S i) rest
                                results
          | Some buffer =>
              res_bind
                (match nth_error frame_timestamps i with
                 | Some t => Val t
                 | None => Throw "list index out of range"
                 end) (fun time =>
              let frame_data :=
                mkFrameData time (fa_frame_number frame_analysis)
                            (fa_description frame_analysis) None
                            (Some buffer) in
              res_bind (append_key_frame results frame_data) (fun results =>
              gemini_key_frames extracted_frames frame_timestamps (S i) rest
                                results))
          end)
      end
  end.

(** Lines 52-101: the frames. *)
Definition analyze_frames_block (video : Video Frame CapFrame)
           (fps : Q) (width height : Z) (results : Results) : P Results :=
  r <-- call_sampler video ;;
  let '(extracted_frames, frame_timestamps) := r in
  if gemini_available env then
    let video_info :=
      mkVideoInfo (duration video) fps width height (Some frame_timestamps) in
    pil_frames <-- plift (res_map (to_pil env) extracted_frames) ;;
    let analysis_results := analyze_video_content pil_frames video_info in
    let results :=
      match analysis_results with
      | Analysis overall_analysis _ _ =>
          PyDict.set results "summary" (VStr overall_analysis)
      | AnalysisError _ => results
      end in
    results <--
      plift (match analysis_results with
             | Analysis _ frame_analyses _ =>
                 gemini_key_frames extracted_frames frame_timestamps 0
                                   frame_analyses results
             | AnalysisError _ => Val results
             end) ;;
    pret (match analysis_results with
          | Analysis _ _ detected_objects =>
              PyDict.set results "objects_detected" (VObjects detected_objects)
          | AnalysisError _ => results
          end)
  else
    key_frames <--
      plift (basic_frame_analysis extracted_frames frame_timestamps) ;;
    pret (PyDict.set results "key_frames" (VFrames key_frames)).

(** Lines 108-116: the summary. *)
Definition summary_block (options : Options) (results : Results)
  : Res Results :=
  if negb (PyDict.has results "summary")
     && PyDict.get_default options "generate_video_summary" true then
    res_bind
      (match PyDict.get results "key_frames" with
       | Some (VFrames l) => Val (map fd_description l)
       | Some _ => Throw "object is not iterable"
       | None => Throw "'key_frames'"
       end) (fun frame_descriptions =>
    res_bind
      (match PyDict.get results "transcript" with
       | Some (VStr t) => Val t
       | Some _ => Throw "can only concatenate str"
       | None => Throw "'transcript'"
       end) (fun transcript =>
    let content_to_summarize :=
      (PyStr.join " " frame_descriptions ++ " " ++ transcript)%string in
    if PyStr.truthy (PyStr.strip content_to_summarize) then
      res_bind (summarize_text env content_to_summarize) (fun summary =>
      Val (PyDict.set results "summary" (VStr summary)))
    else Val results))
  else Val results.

(** Lines 29-121: the body of the [try] block. *)
Definition process_video_try (temp_path : nat) (options : Options)
  : P Results :=
  clip <-- open_video temp_path ;;
  let video := clip_video clip in
  let duration := duration video in
  let fps := clip_fps clip in
  let '(width, height) := clip_size clip in
  let results : Results :=
    [("file_type", VStr "video");
     ("duration", VNum duration);
     ("fps", VNum fps);
     ("width", VInt width);
     ("height", VInt height);
     ("frame_count", VInt (py_int (duration * fps)));
     ("key_frames", VFrames []);
     ("transcript", VStr "");
     ("summary", VStr "");
     ("objects_detected", VObjects [])]%string in
  results <--
    (if PyDict.get_default options "analyze_video_frames" true
     then analyze_frames_block video fps width height results
     else pret results) ;;
  let results :=
    if PyDict.get_default options "extract_audio" true
       && PyDict.get_default options "transcribe_audio" true
    then PyDict.set results "transcript"
                    (VStr (extract_and_transcribe_audio (clip_audio clip)))
    else results in
  results <-- plift (summary_block options results) ;;
  _ <-- close_video ;;
  pret results.

(** [if os.path.exists(temp_path): os.remove(temp_path)]. *)
Definition remove_if_exists (path : nat) (w : World) : World :=
  mkWorld (filter (fun p => negb (Nat.eqb p path)) (disk w)) (open_clips w).

(** The whole function: the upload is written to a temporary file that
    stays on disk ([delete=False]); the [except] clause removes it and
    returns an error dictionary; the [finally] clause removes it on every
    path. *)
Definition process_video (options : Options) (w : World) : Results * World :=
  let temp_path := fresh_path (disk w) in
  let w1 := mkWorld (disk w ++ [temp_path]) (open_clips w) in
  match process_video_try temp_path options w1 with
  | (Val results, w2) => (results, remove_if_exists temp_path w2)
  | (Throw msg, w2) =>
      ([("file_type", VStr "video");
        ("error", VStr ("Error processing video: " ++ msg))]%string,
       remove_if_exists temp_path (remove_if_exists temp_path w2))
  end.

End Caller.

Arguments mkFrameData {Buffer Obj} _ _ _ _ _.
Arguments fd_time {Buffer Obj} _.
Arguments fd_frame_number {Buffer Obj} _.
Arguments fd_description {Buffer Obj} _.
Arguments fd_objects {Buffer Obj} _.
Arguments fd_image {Buffer Obj} _.
Arguments AnalysisError {Obj} _.
Arguments Analysis {Obj} _ _ _.
Arguments mkClip {Frame CapFrame} _ _ _ _.
Arguments clip_video {Frame CapFrame} _.
Arguments clip_fps {Frame CapFrame} _.
Arguments clip_size {Frame CapFrame} _.
Arguments clip_audio {Frame CapFrame} _.
Arguments mkEnv {Frame CapFrame Image Buffer Obj} _ _ _ _ _ _ _ _ _ _ _.
Arguments exn_text {Frame CapFrame Image Buffer Obj} _ _.
Arguments open_clip {Frame CapFrame Image Buffer Obj} _ _.
Arguments gemini_available {Frame CapFrame Image Buffer Obj} _.
Arguments to_pil {Frame CapFrame Image Buffer Obj} _ _.
Arguments analyze_video_frame {Frame CapFrame Image Buffer Obj} _ _.
Arguments generate_overall {Frame CapFrame Image Buffer Obj} _ _ _.
Arguments extract_objects_from_analysis {Frame CapFrame Image Buffer Obj} _ _.
Arguments imencode {Frame CapFrame Image Buffer Obj} _ _.
Arguments analyze_image {Frame CapFrame Image Buffer Obj} _ _.
Arguments detect_objects {Frame CapFrame Image Buffer Obj} _ _.
Arguments summarize_text {Frame CapFrame Image Buffer Obj} _ _.
Arguments basic_frame_loop {Frame CapFrame Image Buffer Obj} _ _ _ _.
Arguments basic_frame_analysis {Frame CapFrame Image Buffer Obj} _ _ _.
Arguments analyze_frames {Frame CapFrame Image Buffer Obj} _ _ _ _ _.
Arguments representative_frames {Image} _.
Arguments analyze_video_content {Frame CapFrame Image Buffer Obj} _ _ _.
Arguments VStr {Buffer Obj} _.
Arguments VNum {Buffer Obj} _.
Arguments VInt {Buffer Obj} _.
Arguments VFrames {Buffer Obj} _.
Arguments VObjects {Buffer Obj} _.
Arguments open_video {Frame CapFrame Image Buffer Obj} _ _ _.
Arguments call_sampler {Frame CapFrame Image Buffer Obj} _ _ _ _.
Arguments append_key_frame {Buffer Obj} _ _.
Arguments gemini_key_frames {Frame CapFrame Image Buffer Obj} _ _ _ _ _ _.
Arguments analyze_frames_block {Frame CapFrame Image Buffer Obj} _ _ _ _ _ _ _ _.
Arguments summary_block {Frame CapFrame Image Buffer Obj} _ _ _.
Arguments process_video_try {Frame CapFrame Image Buffer Obj} _ _ _ _ _.
Arguments process_video {Frame CapFrame Image Buffer Obj} _ _ _ _.

(** *** Vocabulary for the caller *)

(** The keys of the dictionary that [process_video] builds at lines 39-50. *)
Definition result_keys : list string :=
  ["file_type"; "duration"; "fps"; "width"; "height"; "frame_count";
   "key_frames"; "transcript"; "summary"; "objects_detected"]%string.

(** The same collaborators with another [summarize_text]. *)
Definition with_summarizer {Frame CapFrame Image Buffer Obj : Type}
           (env : Env Frame CapFrame Image Buffer Obj)
           (f : string -> Res string) : Env Frame CapFrame Image Buffer Obj :=
  mkEnv (exn_text env) (open_clip env) (gemini_available env) (to_pil env)
        (analyze_video_frame env) (generate_overall env)
        (extract_objects_from_analysis env) (imencode env)
        (analyze_image env) (detect_objects env) f.

(** [l1] is [l2] with some entries left out. *)
Inductive subseq {A : Type} : list A -> list A -> Prop :=
| subseq_nil : subseq [] []
| subseq_skip x l1 l2 : subseq l1 l2 -> subseq l1 (x :: l2)
| subseq_take x l1 l2 : subseq l1 l2 -> subseq (x :: l1) (x :: l2).

(** The dictionary that the [except] clause of [process_video] returns
    (lines 128-131). *)
Definition error_result {Buffer Obj : Type} (msg : string)
  : Results Buffer Obj :=
  [("file_type", VStr "video");
   ("error", VStr ("Error processing video: " ++ msg))]%string.

(** The key frames stored in a result. *)
Definition key_frames_of {Buffer Obj : Type} (results : Results Buffer Obj)
  : list (FrameData Buffer Obj) :=
  match PyDict.get results "key_frames" with
  | Some (VFrames l) => l
  | _ => []
  end.

(** Key frames as a reader of the result finds them: in strictly
    increasing order of time and of frame number, the numbers between 1 and
    [n], hence at most [n] of them. *)
Definition ordered_key_frames {Buffer Obj : Type} (n : Z)
           (kfs : list (FrameData Buffer Obj)) : Prop :=
  StronglySorted Qlt (map fd_time kfs) /\
  StronglySorted Z.lt (map fd_frame_number kfs) /\
  Forall (fun m => (1 <= m <= n)%Z) (map fd_frame_number kfs).

(** Collaborators for the examples: frames are their timestamps, every
    analysis answers with a fixed text, every frame encodes. *)
Definition demo_env (cap : option (Capture (list Z))) (d : Q) (gemini : bool)
  : Env Q (list Z) Q Q string :=
  mkEnv (fun _ => "decode failed"%string)
        (fun _ => Val (mkClip (clip d cap) 25 (640, 480)%Z None))
        gemini
        (fun frame => Val frame)
        (fun _ => Val "a frame"%string)
        (fun _ _ => Val "a video"%string)
        (fun _ => [])
        (fun frame => Val (Some frame))
        (fun _ => Val "an image"%string)
        (fun _ => Val [])
        (fun _ => Val "a summary"%string).

(** The same, on a clip that cannot be decoded. *)
Definition broken_env : Env Q (list Z) Q Q string :=
  mkEnv (fun _ => "decode failed"%string)
        (fun _ => Val (mkClip (undecodable_clip 10) 25 (640, 480)%Z None))
        false
        (fun frame => Val frame)
        (fun _ => Val "a frame"%string)
        (fun _ _ => Val "a video"%string)
        (fun _ => [])
        (fun frame => Val (Some frame))
        (fun _ => Val "an image"%string)
        (fun _ => Val [])
        (fun _ => Val "a summary"%string).

(** ** Facts about the Python built-ins *)

Module PyFacts.

Lemma lt_true (a b : Q) : Py.lt a b = true <-> a < b.
Proof.
  unfold Py.lt. rewrite negb_true_iff.
  split; intro H.
  - apply Qnot_le_lt. intro Hle.
    apply Qle_bool_iff in Hle. congruence.
  - destruct (Qle_bool b a) eqn:E; [| reflexivity].
    apply Qle_bool_iff in E. lra.
Qed.

Lemma lt_false (a b : Q) : Py.lt a b = false <-> b <= a.
Proof.
  unfold Py.lt. rewrite negb_false_iff. apply Qle_bool_iff.
Qed.

Lemma lt_cases (a b : Q) :
  (Py.lt a b = true /\ a < b) \/ (Py.lt a b = false /\ b <= a).
Proof.
  destruct (Py.lt a b) eqn:E.
  - left. split; [reflexivity | now apply lt_true].
  - right. split; [reflexivity | now apply lt_false].
Qed.

Lemma min_cases (a b : Q) :
  (b < a /\ Py.min a b = b) \/ (a <= b /\ Py.min a b = a).
Proof.
  unfold Py.min.
  destruct (lt_cases b a) as [[-> H] | [-> H]]; auto.
Qed.

Lemma max_cases (a b : Q) :
  (a < b /\ Py.max a b = b) \/ (b <= a /\ Py.max a b = a).
Proof.
  unfold Py.max.
  destruct (lt_cases a b) as [[-> H] | [-> H]]; auto.
Qed.

Lemma min_Qmin (a b : Q) : Py.min a b == Qmin a b.
Proof.
  destruct (min_cases a b) as [[H ->] | [H ->]].
  - symmetry. apply Q.min_r. lra.
  - symmetry. apply Q.min_l. lra.
Qed.

Lemma max_Qmax (a b : Q) : Py.max a b == Qmax a b.
Proof.
  destruct (max_cases a b) as [[H ->] | [H ->]].
  - symmetry. apply Q.max_r. lra.
  - symmetry. apply Q.max_l. lra.
Qed.

Lemma any_false {A : Type} (p : A -> bool) (l : list A) :
  Py.any p l = false <-> Forall (fun x => p x = false) l.
Proof.
  unfold Py.any. induction l as [| x l IH]; simpl.
  - split; [constructor | reflexivity].
  - rewrite orb_false_iff, IH. split.
    + intros [H1 H2]. now constructor.
    + intro H. inversion H; subst. now split.
Qed.

Lemma any_true {A : Type} (p : A -> bool) (l : list A) :
  Py.any p l = true <-> exists x, In x l /\ p x = true.
Proof. unfold Py.any. apply existsb_exists. Qed.

(** [abs(a - b) < 1.0] fails exactly when the two are far apart. *)
Lemma near_false (a b : Q) :
  Py.lt (Py.abs (a - b)) 1 = false <-> far a b.
Proof. unfold far, Py.abs. apply lt_false. Qed.

End PyFacts.

(** ** Facts about spacing and order *)

Lemma far_sym (a b : Q) : far a b -> far b a.
Proof.
  unfold far. intro H.
  assert (E : b - a == - (a - b)) by ring.
  rewrite E, Qabs_opp. exact H.
Qed.

Lemma far_cases (a b : Q) : far a b <-> a + 1 <= b \/ b + 1 <= a.
Proof.
  unfold far. split.
  - intro H. destruct (Qlt_le_dec (a - b) 0) as [Hn | Hp].
    + rewrite Qabs_neg in H by lra. left. lra.
    + rewrite Qabs_pos in H by lra. right. lra.
  - intros [H | H].
    + rewrite Qabs_neg by lra. lra.
    + rewrite Qabs_pos by lra. lra.
Qed.

Lemma far_compat (a a' b b' : Q) : a == a' -> b == b' -> far a b -> far a' b'.
Proof.
  intros Ha Hb H. apply far_cases. apply far_cases in H. lra.
Qed.

(** ** Scenario: a two-second clip *)

(** C6.  A clip of 2 seconds sampled with [max_frames = 7], every decode
    succeeding: the guard of scene detection is false, the uniform fallback
    looks at five candidates, each of them within one second of the start
    anchor, and changes nothing; the call returns exactly the start anchor
    0.2 and the end anchor 1.8, having decoded only these two. *)
Theorem two_second_clip_returns_the_two_anchors
  {Frame CapFrame : Type} (gray : CapFrame -> option (list Z))
  (decode : Q -> Frame) (reencode : bool -> option (Capture CapFrame))
  (files : list nat) :
  let video := mkVideo 2 (fun t => Some (decode t)) reencode in
  let ft := first_time_of 2 in
  let lt := last_time_of 2 in
  let after_start := mkState [decode ft] [ft] [ft] files in
  ft == 1 # 5 /\ lt == 9 # 5 /\
  Py.lt 3 (duration video) && (0 <? 7 - 2)%Z = false /\
  Py.range1 (7 - 1 - Py.len (frames after_start)) = [1; 2; 3; 4; 5]%Z /\
  Forall (fun i =>
            Py.lt (Py.abs (Py.min (ft + inject_Z i * (2 / inject_Z (5 + 2)))
                                  (2 - 1) - ft)) 1 = true)
         [1; 2; 3; 4; 5]%Z /\
  uniform_fallback video ft 7 after_start = (Ok tt, after_start) /\
  run gray video 7 files =
    (Ok ([decode ft; decode lt], [ft; lt]),
     mkState [decode ft; decode lt] [ft; lt] [ft; lt] files).
Proof.
  intros video ft lt after_start.
  repeat split; try reflexivity.
  repeat constructor.
Qed.

Lemma follows_trans (d a b c : Q) : follows d a b -> follows d b c -> follows d a c.
Proof. unfold follows. intros [H1 H2] [H3 H4]. split; [lra | intro H; specialize (H4 H); lra]. Qed.

Lemma follows_le (d a b : Q) : follows d a b -> a <= b.
Proof. now intros [H _]. Qed.

(** ** Lists: snoc, removal and insertion *)

Lemma strongly_sorted_snoc {A : Type} (R : A -> A -> Prop) (l : list A) (x : A) :
  StronglySorted R l -> Forall (fun a => R a x) l -> StronglySorted R (l ++ [x]).
Proof.
  induction 1 as [| a l Hs IH Ha]; intro Hx; simpl.
  - repeat constructor.
  - inversion Hx; subst. constructor.
    + now apply IH.
    + apply Forall_app. split; [assumption | now repeat constructor].
Qed.

Lemma strongly_sorted_app_inv {A : Type} (R : A -> A -> Prop) (l1 l2 : list A) :
  StronglySorted R (l1 ++ l2) ->
  StronglySorted R l1 /\ StronglySorted R l2 /\
  Forall (fun a => Forall (R a) l2) l1.
Proof.
  induction l1 as [| a l1 IH]; simpl; intro H.
  - repeat split; [constructor | assumption | constructor].
  - inversion H as [| ? ? Hs Ha]; subst.
    destruct (IH Hs) as (H1 & H2 & H3).
    apply Forall_app in Ha. destruct Ha as [Ha1 Ha2].
    repeat split; [now constructor | assumption | now constructor].
Qed.

Lemma strongly_sorted_app {A : Type} (R : A -> A -> Prop) (l1 l2 : list A) :
  StronglySorted R l1 -> StronglySorted R l2 ->
  Forall (fun a => Forall (R a) l2) l1 ->
  StronglySorted R (l1 ++ l2).
Proof.
  induction 1 as [| a l1 Hs IH Ha]; simpl; intros H2 H3.
  - assumption.
  - inversion H3; subst. constructor.
    + now apply IH.
    + apply Forall_app. now split.
Qed.

Lemma strongly_sorted_remove {A : Type} (R : A -> A -> Prop) (l1 l2 : list A) (x : A) :
  StronglySorted R (l1 ++ x :: l2) -> StronglySorted R (l1 ++ l2).
Proof.
  intro H. apply strongly_sorted_app_inv in H. destruct H as (H1 & H2 & H3).
  inversion H2; subst.
  apply strongly_sorted_app; try assumption.
  eapply Forall_impl; [| exact H3].
  intros a Ha. now inversion Ha.
Qed.

Lemma strongly_sorted_firstn {A : Type} (R : A -> A -> Prop) (n : nat) (l : list A) :
  StronglySorted R l -> StronglySorted R (firstn n l).
Proof.
  intro H. rewrite <- (firstn_skipn n l) in H.
  now apply strongly_sorted_app_inv in H.
Qed.

Lemma strongly_sorted_last (R : Q -> Q -> Prop) (l : list Q) (x : Q) :
  (forall a b c, R a b -> R b c -> R a c) ->
  StronglySorted R l -> l <> [] -> R (Py.last l) x ->
  Forall (fun a => R a x) l.
Proof.
  intros Htrans Hs. induction Hs as [| a l Hs IH Ha]; intros Hne Hx.
  - congruence.
  - destruct l as [| b l].
    + simpl in Hx. repeat constructor. exact Hx.
    + assert (Hl : Py.last (a :: b :: l) = Py.last (b :: l)) by reflexivity.
      rewrite Hl in Hx.
      assert (Hb : Forall (fun a0 => R a0 x) (b :: l))
        by (apply IH; [discriminate | exact Hx]).
      constructor; [| exact Hb].
      inversion Ha; subst. inversion Hb; subst.
      eapply Htrans; eassumption.
Qed.

Lemma spaced_snoc (l : list Q) (x : Q) :
  spaced l -> Forall (fun a => far a x) l -> spaced (l ++ [x]).
Proof.
  unfold spaced. induction 1 as [| a l Ha Hl IH]; intro Hx; simpl.
  - repeat constructor.
  - inversion Hx; subst. constructor.
    + apply Forall_app. split; [assumption | now repeat constructor].
    + now apply IH.
Qed.

Lemma strongly_sorted_weaken {A : Type} (R S : A -> A -> Prop) (l : list A) :
  (forall a b, R a b -> S a b) -> StronglySorted R l -> StronglySorted S l.
Proof.
  intro HRS. induction 1 as [| a l Hs IH Ha]; constructor.
  - exact IH.
  - eapply Forall_impl; [| exact Ha]. intros b. apply HRS.
Qed.

Lemma Forall_take {A : Type} (P : A -> Prop) (n : nat) (l : list A) :
  Forall P l -> Forall P (firstn n l).
Proof.
  intro H. rewrite <- (firstn_skipn n l) in H.
  now apply Forall_app in H.
Qed.

(** ** [sorted] *)

Lemma insert_by_map {A : Type} (key : A -> Q) (x : A) (l : list A) :
  map key (Py.insert_by key x l) = Py.insert_by (fun q => q) (key x) (map key l).
Proof.
  induction l as [| y l IH]; simpl; [reflexivity |].
  destruct (Qle_bool (key x) (key y)); simpl; [reflexivity | now rewrite IH].
Qed.

Lemma sorted_by_map {A : Type} (key : A -> Q) (l : list A) :
  map key (Py.sorted_by key l) = Py.sorted (map key l).
Proof.
  unfold Py.sorted, Py.sorted_by.
  induction l as [| x l IH]; simpl; [reflexivity |].
  now rewrite insert_by_map, IH.
Qed.

Lemma insert_by_length {A : Type} (key : A -> Q) (x : A) (l : list A) :
  length (Py.insert_by key x l) = S (length l).
Proof.
  induction l as [| y l IH]; simpl; [reflexivity |].
  destruct (Qle_bool (key x) (key y)); simpl; [reflexivity | now rewrite IH].
Qed.

Lemma sorted_by_length {A : Type} (key : A -> Q) (l : list A) :
  length (Py.sorted_by key l) = length l.
Proof.
  unfold Py.sorted_by.
  induction l as [| x l IH]; simpl; [reflexivity |].
  now rewrite insert_by_length, IH.
Qed.

Lemma insert_Forall (P : Q -> Prop) (x : Q) (l : list Q) :
  P x -> Forall P l -> Forall P (Py.insert_by (fun q => q) x l).
Proof.
  intros Hx Hl. induction Hl as [| y l Hy Hl IH]; simpl.
  - now repeat constructor.
  - destruct (Qle_bool x y); repeat constructor; assumption.
Qed.

Lemma sorted_Forall (P : Q -> Prop) (l : list Q) :
  Forall P l -> Forall P (Py.sorted l).
Proof.
  unfold Py.sorted, Py.sorted_by.
  induction 1 as [| x l Hx Hl IH]; simpl; [constructor |].
  now apply insert_Forall.
Qed.



Lemma insert_ascending (x : Q) (l : list Q) :
  StronglySorted Qle l -> StronglySorted Qle (Py.insert_by (fun q => q) x l).
Proof.
  induction 1 as [| y l Hs IH Hy]; simpl.
  - repeat constructor.
  - destruct (Qle_bool x y) eqn:E.
    + apply Qle_bool_iff in E. constructor.
      * now constructor.
      * constructor; [exact E |].
        eapply Forall_impl; [| exact Hy]. intros z Hz. lra.
    + assert (y <= x).
      { destruct (Qlt_le_dec x y) as [Hlt | Hle]; [| exact Hle].
        assert (Hxy : x <= y) by lra.
        apply Qle_bool_iff in Hxy. congruence. }
      constructor; [exact IH |].
      now apply insert_Forall.
Qed.

Lemma sorted_ascending (l : list Q) : StronglySorted Qle (Py.sorted l).
Proof.
  unfold Py.sorted, Py.sorted_by.
  induction l as [| x l IH]; simpl; [constructor |].
  now apply insert_ascending.
Qed.

Lemma insert_spaced (x : Q) (l : list Q) :
  spaced (x :: l) -> spaced (Py.insert_by (fun q => q) x l).
Proof.
  unfold spaced. induction l as [| y l IH]; simpl; intro H.
  - exact H.
  - destruct (Qle_bool x y); [exact H |].
    inversion H as [| ? ? Hx Hyl]; subst.
    inversion Hx as [| ? ? Hxy Hxl]; subst.
    inversion Hyl as [| ? ? Hy Hl]; subst.
    constructor.
    + apply insert_Forall; [now apply far_sym | exact Hy].
    + apply IH. now constructor.
Qed.

Lemma sorted_spaced (l : list Q) : spaced l -> spaced (Py.sorted l).
Proof.
  unfold Py.sorted, Py.sorted_by, spaced.
  induction 1 as [| x l Hx Hl IH]; simpl; [constructor |].
  apply insert_spaced. constructor; [| exact IH].
  now apply sorted_Forall.
Qed.

(** An ascending list whose entries are pairwise far apart climbs by at
    least one second at every step. *)
Lemma ascending_spaced_climbs (l : list Q) :
  StronglySorted Qle l -> spaced l ->
  StronglySorted (fun a b => a + 1 <= b) l.
Proof.
  unfold spaced. induction 1 as [| x l Hs IH Hx]; intro Hsp.
  - constructor.
  - inversion Hsp as [| ? ? Hfar Hl]; subst.
    constructor; [now apply IH |].
    rewrite Forall_forall in *. intros y Hy.
    specialize (Hx y Hy). specialize (Hfar y Hy).
    apply far_cases in Hfar. lra.
Qed.

Lemma sorted_head (a : Q) (l : list Q) :
  Forall (fun x => a <= x) l -> Py.sorted (a :: l) = a :: Py.sorted l.
Proof.
  intro H. apply sorted_Forall in H.
  unfold Py.sorted, Py.sorted_by in *. simpl.
  destruct (fold_right (Py.insert_by (fun q => q)) [] l) as [| y m]; simpl.
  - reflexivity.
  - inversion H as [| ? ? Hy _]; subst.
    apply Qle_bool_iff in Hy. now rewrite Hy.
Qed.

Lemma insert_before_last (a z : Q) (m : list Q) :
  a < z -> Forall (fun x => x < z) m ->
  Py.insert_by (fun q => q) a (m ++ [z]) = Py.insert_by (fun q => q) a m ++ [z].
Proof.
  intros Ha. induction 1 as [| y m Hy Hm IH]; simpl.
  - assert (E : Qle_bool a z = true) by (apply Qle_bool_iff; lra).
    now rewrite E.
  - destruct (Qle_bool a y); simpl; [reflexivity | now rewrite IH].
Qed.

Lemma sorted_last (z : Q) (l : list Q) :
  Forall (fun x => x < z) l -> Py.sorted (l ++ [z]) = Py.sorted l ++ [z].
Proof.
  unfold Py.sorted, Py.sorted_by.
  induction 1 as [| a l Ha Hl IH]; simpl; [reflexivity |].
  rewrite IH. apply insert_before_last; [exact Ha |].
  now apply (sorted_Forall (fun x => x < z)).
Qed.


(** A list that the scan order already sorts is left alone by [sorted]. *)
Lemma sorted_fixed (l : list Q) : StronglySorted Qle l -> Py.sorted l = l.
Proof.
  induction 1 as [| a l Hs IH Ha].
  - reflexivity.
  - rewrite sorted_head by exact Ha. now rewrite IH.
Qed.

(** ** [set] *)

Lemma mem_true (x : Q) (s : list Q) :
  Py.mem x s = true -> exists t', In t' s /\ x == t'.
Proof.
  unfold Py.mem. intro H. apply existsb_exists in H.
  destruct H as (t' & Hin & E). exists t'. split; [exact Hin |].
  now apply Qeq_bool_iff.
Qed.

Lemma set_fold_sorted (R : Q -> Q -> Prop) (l acc : list Q) :
  StronglySorted R (acc ++ l) ->
  StronglySorted R (fold_left (fun s x => Py.set_add x s) l acc).
Proof.
  revert acc. induction l as [| x l IH]; intros acc H; simpl.
  - now rewrite app_nil_r in H.
  - apply IH. unfold Py.set_add. destruct (Py.mem x acc).
    + eapply strongly_sorted_remove. exact H.
    + now rewrite <- app_assoc.
Qed.

Lemma set_fold_Forall (P : Q -> Prop) (l acc : list Q) :
  Forall P (acc ++ l) ->
  Forall P (fold_left (fun s x => Py.set_add x s) l acc).
Proof.
  revert acc. induction l as [| x l IH]; intros acc H; simpl.
  - now rewrite app_nil_r in H.
  - apply IH. unfold Py.set_add.
    apply Forall_app in H. destruct H as [Ha Hl].
    inversion Hl; subst.
    destruct (Py.mem x acc).
    + apply Forall_app. now split.
    + rewrite <- app_assoc. apply Forall_app. split; [exact Ha | now constructor].
Qed.

Lemma set_fold_covers (l acc : list Q) :
  covers (fold_left (fun s x => Py.set_add x s) l acc) (acc ++ l).
Proof.
  revert acc. induction l as [| x l IH]; intros acc t Hin; simpl.
  - rewrite app_nil_r in Hin. exists t. split; [exact Hin | reflexivity].
  - unfold Py.set_add at 2. destruct (Py.mem x acc) eqn:E.
    + apply in_app_or in Hin. destruct Hin as [Hin | [<- | Hin]].
      * apply IH. apply in_or_app. now left.
      * apply mem_true in E. destruct E as (t' & Hin' & Heq).
        destruct (IH acc t') as (t'' & H1 & H2);
          [apply in_or_app; now left |].
        exists t''. split; [exact H1 |]. now rewrite Heq.
      * apply IH. apply in_or_app. now right.
    + apply IH. rewrite <- app_assoc. exact Hin.
Qed.

Lemma set_sorted (R : Q -> Q -> Prop) (l : list Q) :
  StronglySorted R l -> StronglySorted R (Py.set l).
Proof. intro H. now apply set_fold_sorted. Qed.

Lemma set_Forall (P : Q -> Prop) (l : list Q) :
  Forall P l -> Forall P (Py.set l).
Proof. intro H. now apply set_fold_Forall. Qed.

Lemma set_covers (l : list Q) : covers (Py.set l) l.
Proof. exact (set_fold_covers l []). Qed.

Lemma set_add_covers (x : Q) (s l : list Q) :
  covers s l -> covers (Py.set_add x s) (l ++ [x]).
Proof.
  intros H t Hin. unfold Py.set_add.
  apply in_app_or in Hin. destruct Hin as [Hin | [<- | []]].
  - destruct (H t Hin) as (t' & H1 & H2). exists t'. split; [| exact H2].
    destruct (Py.mem x s); [exact H1 | apply in_or_app; now left].
  - destruct (Py.mem x s) eqn:E.
    + now apply mem_true.
    + exists x. split; [apply in_or_app; right; now left | reflexivity].
Qed.

(** ** The scan keeps its candidates in order *)

Lemma last_In (l : list Q) : l <> [] -> In (Py.last l) l.
Proof.
  unfold Py.last. induction l as [| a l IH]; intro H; [congruence |].
  destruct l as [| b l]; [now left |].
  right. apply IH. discriminate.
Qed.

Lemma original_time_follows (d e frame_time : Q) :
  (60 < d -> e <= d) -> e + 1 <= frame_time ->
  follows d e (original_time_of d frame_time).
Proof.
  intros Hd He. unfold original_time_of, follows.
  destruct (PyFacts.lt_cases 60 d) as [[-> H60] | [-> H60]].
  - specialize (Hd H60).
    destruct (PyFacts.min_cases frame_time d) as [[H ->] | [H ->]];
      split; intros; lra.
  - split; intros; lra.
Qed.

Lemma original_time_bounds (d ft frame_time : Q) :
  ft <= d -> ft <= frame_time ->
  ft <= original_time_of d frame_time /\
  (60 < d -> original_time_of d frame_time <= d).
Proof.
  intros Hd Hf. unfold original_time_of.
  destruct (PyFacts.lt_cases 60 d) as [[-> H60] | [-> H60]].
  - destruct (PyFacts.min_cases frame_time d) as [[H ->] | [H ->]];
      split; intros; lra.
  - split; intros; lra.
Qed.

Section ScanOrder.

Context {CapFrame : Type} (gray : CapFrame -> option (list Z)).
Variables (d fps ft msl : Q) (mid : Z).
Hypothesis ft_le_d : ft <= d.
Hypothesis msl_ge_1 : 1 <= msl.

Lemma scenes_ok_emit (l : list Q) (frame_time : Q) :
  scenes_ok d ft l ->
  Py.lt frame_time ft = false ->
  negb (Nat.eqb (length l) 0) && Py.lt (frame_time - Py.last l) msl = false ->
  scenes_ok d ft (l ++ [original_time_of d frame_time]).
Proof.
  intros [Hs Hb] Hft Hgap.
  apply PyFacts.lt_false in Hft.
  destruct (original_time_bounds d ft frame_time ft_le_d Hft) as [Ho1 Ho2].
  split.
  - apply strongly_sorted_snoc; [exact Hs |].
    destruct l as [| a l]; [constructor |].
    simpl in Hgap. apply PyFacts.lt_false in Hgap.
    apply strongly_sorted_last.
    + intros x y z. apply follows_trans.
    + exact Hs.
    + discriminate.
    + assert (Hin : In (Py.last (a :: l)) (a :: l)) by (apply last_In; discriminate).
      rewrite Forall_forall in Hb. destruct (Hb _ Hin) as [_ Hle].
      apply original_time_follows; [exact Hle | lra].
  - apply Forall_app. split; [exact Hb |].
    constructor; [| constructor]. split; assumption.
Qed.

Lemma scan_step_scenes_ok (st st' : Scan CapFrame) (frame : CapFrame) (fl : Flow) :
  scenes_ok d ft (scene_timestamps st) ->
  scan_step gray d fps ft msl mid st frame = Ok (st', fl) ->
  scenes_ok d ft (scene_timestamps st').
Proof.
  intros Hok. unfold scan_step.
  destruct (Qeq_bool fps 0); [discriminate |].
  destruct (Py.lt (frame_time_of fps (frame_count st)) ft) eqn:E1.
  { intro H. inversion H; subst. exact Hok. }
  destruct (negb (Nat.eqb (length (scene_timestamps st)) 0) &&
            Py.lt (frame_time_of fps (frame_count st)
                   - Py.last (scene_timestamps st)) msl) eqn:E2.
  { intro H. inversion H; subst. exact Hok. }
  destruct (prev_frame st) as [prev |].
  2: { intro H. inversion H; subst. exact Hok. }
  destruct (mean_diff gray prev frame) as [diff | e]; [| discriminate].
  destruct (Py.lt threshold diff).
  2: { intro H. inversion H; subst. exact Hok. }
  pose proof (scenes_ok_emit _ _ Hok E1 E2) as Hnew.
  destruct (mid <=? _)%Z; intro H; inversion H; subst; exact Hnew.
Qed.

Lemma scan_loop_scenes_ok (fs : list CapFrame) (st st' : Scan CapFrame) :
  scenes_ok d ft (scene_timestamps st) ->
  scan_loop gray d fps ft msl mid fs st = Ok st' ->
  scenes_ok d ft (scene_timestamps st').
Proof.
  revert st. induction fs as [| frame rest IH]; intros st Hok; simpl.
  - intro H. inversion H; subst. exact Hok.
  - destruct (scan_step gray d fps ft msl mid st frame) as [[st1 fl] | e] eqn:E;
      [| discriminate].
    pose proof (scan_step_scenes_ok _ _ _ _ Hok E) as Hok1.
    destruct fl.
    + now apply IH.
    + intro H. inversion H; subst. exact Hok1.
Qed.

End ScanOrder.

(** ** The anchors *)

Lemma first_time_bounds (d : Q) :
  0 < d ->
  0 < first_time_of d /\ first_time_of d <= 1 # 2 /\
  first_time_of d <= d * (1 # 10).
Proof.
  intro Hd. unfold first_time_of.
  destruct (PyFacts.min_cases (1 # 2) (d * (1 # 10))) as [[H ->] | [H ->]];
    repeat split; lra.
Qed.

Lemma last_time_bounds (d : Q) :
  0 < d ->
  d - (1 # 2) <= last_time_of d /\ d * (9 # 10) <= last_time_of d /\
  last_time_of d < d.
Proof.
  intro Hd. unfold last_time_of.
  destruct (PyFacts.max_cases (d - (1 # 2)) (d * (9 # 10))) as [[H ->] | [H ->]];
    repeat split; lra.
Qed.

(** ** The phases of a call *)

Section Phases.

Context {Frame CapFrame : Type} (gray : CapFrame -> option (list Z)).
Variable video : Video Frame CapFrame.
Hypothesis duration_pos : 0 < duration video.

Let d : Q := duration video.
Let ft : Q := first_time_of (duration video).

Lemma append_frame_at_run (t : Q) (s : State Frame) :
  append_frame_at video t s =
  match get_frame video t with
  | Some f => (Ok tt, mkState (frames s ++ [f]) (timestamps s ++ [t])
                              (decode_log s ++ [t]) (temp_files s))
  | None => (Raise (DecodeError t),
             mkState (frames s) (timestamps s) (decode_log s ++ [t])
                     (temp_files s))
  end.
Proof.
  unfold append_frame_at, bind, video_get_frame.
  destruct (get_frame video t); reflexivity.
Qed.

(** Appending one more interior timestamp that is far from the others. *)
Lemma mid_rest_append (n : nat) (rest : list Q) (s : State Frame) (t : Q) (f : Frame) :
  mid_rest d n rest s ->
  interior d ft t -> Forall (fun a => far a t) rest ->
  mid_rest d (S n) (rest ++ [t])
           (mkState (frames s ++ [f]) (timestamps s ++ [t])
                    (decode_log s ++ [t]) (temp_files s)).
Proof.
  intros (Hts & Hint & Hsp & Hlen & Hfr & log & Hlog) Ht Hfar.
  unfold mid_rest; simpl. repeat split.
  - rewrite Hts. reflexivity.
  - apply Forall_app. split; [exact Hint |].
    constructor; [exact Ht | constructor].
  - now apply spaced_snoc.
  - rewrite length_app. simpl. lia.
  - rewrite !length_app. simpl. lia.
  - exists (log ++ [t]). rewrite Hlog. reflexivity.
Qed.

(** A failed decode request leaves the lists as they were. *)
Lemma mid_rest_failed (n : nat) (rest : list Q) (s : State Frame) (t : Q) :
  mid_rest d n rest s ->
  mid_rest d n rest
           (mkState (frames s) (timestamps s) (decode_log s ++ [t])
                    (temp_files s)).
Proof.
  intros (Hts & Hint & Hsp & Hlen & Hfr & log & Hlog).
  unfold mid_rest; simpl. repeat split; try assumption.
  exists (log ++ [t]). rewrite Hlog. reflexivity.
Qed.

Lemma mid_rest_weaken (n m : nat) (rest : list Q) (s : State Frame) :
  (n <= m)%nat -> mid_rest d n rest s -> mid_rest d m rest s.
Proof.
  intros Hnm (Hts & Hint & Hsp & Hlen & Hfr & Hlog).
  unfold mid_rest. repeat split; try assumption. lia.
Qed.

(** The temporary files play no part in the shape of the lists. *)
Lemma mid_rest_files (n : nat) (rest : list Q) (s : State Frame) (files : list nat) :
  mid_rest d n rest s ->
  mid_rest d n rest (mkState (frames s) (timestamps s) (decode_log s) files).
Proof. intro H. exact H. Qed.

(** *** The loop over the detected scenes *)

Lemma accept_scene_loop (L : list Q) :
  forall (n : nat) (rest : list Q) (s : State Frame) r s',
    mid_rest d n rest s ->
    StronglySorted (follows d) L ->
    Forall (fun x => ft <= x) L ->
    Forall (fun t => Forall (follows d t) L) rest ->
    for_each L (accept_scene video ft) s = (r, s') ->
    mid_state d (n + length L) s' /\
    temp_files s' = temp_files s /\
    (forall e, r = Raise e -> decode_failure video e).
Proof.
  induction L as [| x L IH]; intros n rest s r s' Hmid Hsort Hlow Hprev; simpl.
  - intro H. inversion H; subst. repeat split.
    + exists rest. eapply mid_rest_weaken; [| exact Hmid]. lia.
    + discriminate.
  - inversion Hsort as [| ? ? HsortL HxL]; subst.
    inversion Hlow as [| ? ? Hx HlowL]; subst.
    assert (HprevL : Forall (fun t => Forall (follows d t) L) rest).
    { eapply Forall_impl; [| exact Hprev]. intros a Ha. now inversion Ha. }
    assert (Hskip : for_each L (accept_scene video ft) s = (r, s') ->
                    mid_state d (n + S (length L)) s' /\
                    temp_files s' = temp_files s /\
                    (forall e, r = Raise e -> decode_failure video e)).
    { intro H.
      destruct (IH n rest s r s' Hmid HsortL HlowL HprevL H) as ((rest' & H1) & H2 & H3).
      repeat split; try assumption.
      exists rest'. eapply mid_rest_weaken; [| exact H1]. lia. }
    unfold bind, accept_scene at 1.
    destruct (PyFacts.lt_cases (Py.abs (x - ft)) 1) as [[-> _] | [-> Hfar]];
      [exact Hskip |].
    destruct (PyFacts.lt_cases (duration video - x) 1) as [[-> _] | [-> Hend]];
      [exact Hskip |].
    rewrite append_frame_at_run.
    destruct (get_frame video x) as [f |] eqn:Eg.
    + intro H.
      assert (Hxi : interior d ft x).
      { unfold interior. fold d in Hend.
        assert (Hc : far x ft) by exact Hfar.
        apply far_cases in Hc. split; lra. }
      assert (Hfarx : Forall (fun a => far a x) rest).
      { rewrite Forall_forall in *. intros a Ha.
        specialize (Hprev a Ha). inversion Hprev as [| ? ? [_ Hstep] _]; subst.
        apply far_cases. left. apply Hstep. apply Hxi. }
      pose proof (mid_rest_append n rest s x f Hmid Hxi Hfarx) as Hmid'.
      assert (Hprev' : Forall (fun t => Forall (follows d t) L) (rest ++ [x])).
      { apply Forall_app. split; [exact HprevL |].
        constructor; [exact HxL | constructor]. }
      destruct (IH _ _ _ r s' Hmid' HsortL HlowL Hprev' H) as ((rest' & H1) & H2 & H3).
      repeat split; try assumption.
      exists rest'. eapply mid_rest_weaken; [| exact H1]. lia.
    + intro H. inversion H; subst. repeat split.
      * exists rest. apply mid_rest_failed.
        eapply mid_rest_weaken; [| exact Hmid]. lia.
      * intros e He. inversion He; subst. exists x. now split.
Qed.

(** *** Scene detection *)

Lemma take_pos {A : Type} (n : Z) (l : list A) :
  (0 < n)%Z -> Py.take n l = firstn (Z.to_nat n) l.
Proof.
  intro H. unfold Py.take.
  destruct (Z.ltb_spec n 0); [lia | reflexivity].
Qed.

Lemma min_scene_length_ge_1 (x : Q) (mid : Z) : 1 <= min_scene_length_of x mid.
Proof.
  unfold min_scene_length_of.
  destruct (PyFacts.max_cases 1 (subclip_duration x / inject_Z (mid * 2)))
    as [[H ->] | [H ->]]; lra.
Qed.

(** Whatever happens inside scene detection, the lists keep their shape,
    gain at most [middle_frames] timestamps, and the only temporary file
    that can be left behind is the one the call created. *)
Lemma scene_detection_post (mid : Z) (s : State Frame) r s' :
  (0 < mid)%Z ->
  mid_state d 0 s ->
  scene_detection gray video ft mid s = (r, s') ->
  mid_state d (Z.to_nat mid) s'.
Proof.
  intros Hmid (rest & Hs) Hrun.
  assert (Hrest : rest = []).
  { destruct Hs as (_ & _ & _ & Hlen & _). destruct rest; [reflexivity | simpl in Hlen; lia]. }
  subst rest.
  assert (Hany : forall files,
             mid_state d (Z.to_nat mid)
               (mkState (frames s) (timestamps s) (decode_log s) files)).
  { intro files. exists []. apply mid_rest_files.
    eapply mid_rest_weaken; [| exact Hs]. lia. }
  revert Hrun. unfold scene_detection, bind, NamedTemporaryFile, write_and_open.
  destruct (write_videofile video (Py.lt 60 (duration video))) as [cap |];
    simpl.
  2: { intro H. inversion H; subst. apply Hany. }
  unfold lift.
  destruct (scan_loop gray (duration video) (cap_fps cap) ft
              (min_scene_length_of (duration video) mid) mid
              (cap_frames cap) scan_init) as [st | e] eqn:Escan.
  2: { intro H. inversion H; subst. apply Hany. }
  unfold os_remove; simpl.
  assert (Hok : scenes_ok d ft (scene_timestamps st)).
  { eapply scan_loop_scenes_ok; [| | | exact Escan].
    - pose proof (first_time_bounds _ duration_pos). unfold ft, d. lra.
    - apply min_scene_length_ge_1.
    - split; constructor. }
  destruct (scene_timestamps st) as [| t0 scenes] eqn:Esc.
  { intro H. inversion H; subst. apply Hany. }
  rewrite <- Esc in *. clear Esc t0 scenes.
  destruct Hok as [Hsort Hbnd].
  assert (Hset : StronglySorted (follows d) (Py.set (scene_timestamps st)))
    by now apply set_sorted.
  assert (Hasc : StronglySorted Qle (Py.set (scene_timestamps st))).
  { eapply strongly_sorted_weaken; [| exact Hset].
    intros a b. apply follows_le. }
  rewrite (sorted_fixed _ Hasc), (take_pos _ _ Hmid).
  intro Hloop.
  set (s1 := mkState (frames s) (timestamps s) (decode_log s)
               (filter (fun p => negb (Nat.eqb p (fresh_path (temp_files s))))
                       (temp_files s ++ [fresh_path (temp_files s)]))) in *.
  assert (Hs1 : mid_rest d 0 [] s1) by exact Hs.
  destruct (accept_scene_loop
              (firstn (Z.to_nat mid) (Py.set (scene_timestamps st)))
              0%nat [] s1 r s' Hs1) as ((rest' & H1) & _ & _);
    try assumption.
  - now apply strongly_sorted_firstn.
  - apply Forall_take. apply set_Forall.
    eapply Forall_impl; [| exact Hbnd]. now intros a [Ha _].
  - constructor.
  - exists rest'. eapply mid_rest_weaken; [| exact H1].
    simpl. apply firstn_le_length.
Qed.

(** *** The uniform fallback *)

Lemma mid_rest_exact (n : nat) (rest : list Q) (s : State Frame) :
  mid_rest d n rest s -> mid_rest d (length rest) rest s.
Proof.
  intros (Hts & Hint & Hsp & Hlen & Hfr & Hlog).
  unfold mid_rest. repeat split; try assumption. lia.
Qed.

Lemma uniform_loop_post (step : Q) (idxs : list Z) :
  0 <= step ->
  forall (n : nat) (rest : list Q) (s : State Frame) (existing : list Q) r s',
    Forall (fun i => (0 <= i)%Z) idxs ->
    mid_rest d n rest s ->
    covers existing (timestamps s) ->
    uniform_loop video ft step idxs existing s = (r, s') ->
    mid_state d (n + length idxs) s' /\
    temp_files s' = temp_files s /\
    (forall e, r = Raise e -> decode_failure video e).
Proof.
  intro Hstep.
  induction idxs as [| i idxs IH]; intros n rest s existing r s' Hidx Hmid Hcov;
    cbn [uniform_loop].
  - intro H. inversion H; subst. repeat split.
    + exists rest. eapply mid_rest_weaken; [| exact Hmid]. simpl. lia.
    + discriminate.
  - inversion Hidx as [| ? ? Hi Hidx']; subst.
    set (time := Py.min (ft + inject_Z i * step) (duration video - 1)).
    destruct (Py.any (fun t => Py.lt (Py.abs (time - t)) 1) existing) eqn:Eany.
    + intro H.
      destruct (IH n rest s existing r s' Hidx' Hmid Hcov H) as ((rest' & H1) & H2 & H3).
      repeat split; try assumption.
      exists rest'. eapply mid_rest_weaken; [| exact H1]. simpl length. lia.
    + unfold bind. rewrite append_frame_at_run.
      destruct (get_frame video time) as [f |] eqn:Eg.
      * intro H.
        assert (Hfar : forall t, In t (timestamps s) -> far time t).
        { intros t Ht. destruct (Hcov t Ht) as (t' & Hin' & Heq).
          rewrite PyFacts.any_false, Forall_forall in Eany.
          specialize (Eany t' Hin'). apply PyFacts.near_false in Eany.
          eapply far_compat; [reflexivity | symmetry; exact Heq | exact Eany]. }
        destruct Hmid as (Hts & Hmid').
        assert (Hti : interior d ft time).
        { assert (Hf : far time ft) by (apply Hfar; rewrite Hts; now left).
          apply far_cases in Hf.
          assert (Hprod : 0 <= inject_Z i * step).
          { apply Qmult_le_0_compat; [| exact Hstep].
            change 0 with (inject_Z 0). now rewrite <- Zle_Qle. }
          pose proof (first_time_bounds _ duration_pos) as Hb.
          unfold interior, d. fold ft in Hb.
          destruct (PyFacts.min_cases (ft + inject_Z i * step) (duration video - 1))
            as [[Hm Em] | [Hm Em]]; fold time in Em; rewrite Em in *; split; lra. }
        assert (Hfarx : Forall (fun a => far a time) rest).
        { rewrite Forall_forall. intros a Ha. apply far_sym. apply Hfar.
          rewrite Hts. now right. }
        pose proof (mid_rest_append n rest s time f (conj Hts Hmid') Hti Hfarx) as Hmid1.
        assert (Hcov1 : covers (Py.set_add time existing) (timestamps s ++ [time]))
          by now apply set_add_covers.
        destruct (IH _ _ _ _ r s' Hidx' Hmid1 Hcov1 H) as ((rest' & H1) & H2 & H3).
        repeat split; try assumption.
        exists rest'. eapply mid_rest_weaken; [| exact H1]. simpl length. lia.
      * intro H. inversion H; subst. repeat split.
        -- exists rest. apply mid_rest_failed.
           eapply mid_rest_weaken; [| exact Hmid]. simpl length. lia.
        -- intros e He. inversion He; subst. exists time. now split.
Qed.

Lemma range1_length (n : Z) : length (Py.range1 n) = Z.to_nat n.
Proof. unfold Py.range1. now rewrite length_map, length_seq. Qed.

Lemma range1_nonneg (n : Z) : Forall (fun i => (0 <= i)%Z) (Py.range1 n).
Proof.
  unfold Py.range1. rewrite Forall_forall. intros i Hi.
  apply in_map_iff in Hi. destruct Hi as (k & <- & _). lia.
Qed.

Lemma uniform_fallback_post (max_frames : Z) (n : nat) (s : State Frame) r s' :
  mid_state d n s ->
  uniform_fallback video ft max_frames s = (r, s') ->
  mid_state d (Nat.max n (Z.to_nat (max_frames - 2))) s' /\
  temp_files s' = temp_files s /\
  (forall e, r = Raise e -> decode_failure video e).
Proof.
  intros (rest & Hmid). unfold uniform_fallback, bind, get_state.
  assert (Hsame : (r, s') = (Ok tt, s) ->
                  mid_state d (Nat.max n (Z.to_nat (max_frames - 2))) s' /\
                  temp_files s' = temp_files s /\
                  (forall e, r = Raise e -> decode_failure video e)).
  { intro H. inversion H; subst. repeat split.
    - exists rest. eapply mid_rest_weaken; [| exact Hmid]. lia.
    - discriminate. }
  destruct (Z.ltb_spec (Py.len (frames s)) (max_frames - 1)) as [Hlt | Hge];
    [| intro H; apply Hsame; now symmetry].
  destruct (Z.ltb_spec 0 (max_frames - 1 - Py.len (frames s))) as [Hrem | Hrem];
    [| intro H; apply Hsame; now symmetry].
  intro Hloop.
  assert (Hlen : Py.len (frames s) = (1 + Z.of_nat (length rest))%Z).
  { destruct Hmid as (Hts & _ & _ & _ & Hfr & _).
    unfold Py.len. rewrite Hfr, Hts. simpl length. lia. }
  assert (Hstep : 0 <= duration video / inject_Z (max_frames - 1 - Py.len (frames s) + 2)).
  { apply Qmult_le_0_compat; [lra |].
    apply Qinv_le_0_compat. change 0 with (inject_Z 0).
    rewrite <- Zle_Qle. lia. }
  destruct (uniform_loop_post _ _ Hstep _ _ _ _ r s'
              (range1_nonneg _) (mid_rest_exact _ _ _ Hmid)
              (set_covers (timestamps s)) Hloop) as ((rest' & H1) & H2 & H3).
  repeat split; try assumption.
  exists rest'. eapply mid_rest_weaken; [| exact H1].
  rewrite range1_length. lia.
Qed.

(** The [try] block never lets an exception out. *)
Lemma try_scene_detection_post (max_frames : Z) (s : State Frame) r s' :
  mid_state d 0 s ->
  try_scene_detection gray video ft max_frames s = (r, s') ->
  r = Ok tt /\ mid_state d (Z.to_nat (max_frames - 2)) s'.
Proof.
  intros Hmid. unfold try_scene_detection.
  destruct (Py.lt 3 (duration video) && (0 <? max_frames - 2)%Z) eqn:Eguard.
  - apply andb_true_iff in Eguard. destruct Eguard as [_ Hpos].
    apply Z.ltb_lt in Hpos.
    unfold try_except.
    destruct (scene_detection gray video ft (max_frames - 2) s) as [[[] | e] s1] eqn:E;
      intro H; inversion H; subst;
      (split; [reflexivity | eapply scene_detection_post; eassumption]).
  - intro H. inversion H; subst. split; [reflexivity |].
    destruct Hmid as (rest & Hrest). exists rest.
    eapply mid_rest_weaken; [| exact Hrest]. lia.
Qed.

(** *** The end anchor *)

Lemma add_last_frame_post (n : nat) (s : State Frame) r s' :
  mid_state d n s ->
  add_last_frame video s = (r, s') ->
  temp_files s' = temp_files s /\
  (exists log, decode_log s' = ft :: log) /\
  match r with
  | Ok _ => exists rest tail, final_rest d n rest tail s'
  | Raise e => decode_failure video e
  end.
Proof.
  intros (rest & Hmid). unfold add_last_frame, bind, get_state.
  pose proof Hmid as (Hts & Hint & Hsp & Hlen & Hfr & log & Hlog).
  destruct (Py.any (fun t => Py.lt (Py.abs (last_time_of (duration video) - t)) 1)
                   (timestamps s)) eqn:Eany; cbn [negb].
  - intro H. inversion H; subst. repeat split.
    + now exists log.
    + exists rest, []. unfold final_rest. rewrite app_nil_r.
      repeat split; try assumption.
      right. split; [reflexivity |].
      apply PyFacts.any_true in Eany. destruct Eany as (t & Hin & Hnear).
      exists t. split; [now rewrite <- Hts |].
      apply PyFacts.lt_true in Hnear. intro Hfar.
      unfold far, d in Hfar. unfold Py.abs in Hnear. lra.
  - rewrite append_frame_at_run.
    destruct (get_frame video (last_time_of (duration video))) as [f |] eqn:Eg;
      intro H; inversion H; subst; cbn [temp_files decode_log]; repeat split.
    + exists (log ++ [last_time_of (duration video)]). now rewrite Hlog.
    + exists rest, [last_time_of (duration video)].
      unfold final_rest; cbn [timestamps frames]. repeat split; try assumption.
      * now rewrite Hts.
      * rewrite !length_app. simpl. lia.
      * left. split; [reflexivity |].
        rewrite PyFacts.any_false, Hts in Eany.
        eapply Forall_impl; [| exact Eany].
        intros t Ht. now apply PyFacts.near_false.
    + exists (log ++ [last_time_of (duration video)]). now rewrite Hlog.
    + exists (last_time_of (duration video)). now split.
Qed.

(** *** The result *)

Lemma map_snd_combine {A B : Type} (l1 : list A) (l2 : list B) :
  length l1 = length l2 -> map snd (combine l1 l2) = l2.
Proof.
  revert l2. induction l1 as [| a l1 IH]; intros [| b l2] H; simpl in *;
    try discriminate; [reflexivity |].
  f_equal. apply IH. lia.
Qed.

Lemma sorted_result_run (s : State Frame) :
  length (frames s) = length (timestamps s) ->
  exists fr,
    sorted_result s = (Ok (fr, Py.sorted (timestamps s)), s) /\
    length fr = length (timestamps s).
Proof.
  intro Hlen. unfold sorted_result, bind, get_state, ret.
  eexists. split.
  - rewrite sorted_by_map, map_snd_combine by exact Hlen. reflexivity.
  - rewrite length_map, sorted_by_length, length_combine, Hlen. lia.
Qed.

(** *** The whole call *)

Lemma run_post (max_frames : Z) (files : list nat) r s' :
  run gray video max_frames files = (r, s') ->
  match get_frame video ft with
  | None => r = Raise (DecodeError ft) /\ s' = mkState [] [] [ft] files
  | Some f =>
      temp_files s' =
        temp_files (snd (try_scene_detection gray video ft max_frames
                           (mkState [f] [ft] [ft] files))) /\
      (exists log, decode_log s' = ft :: log) /\
      match r with
      | Ok (fr, ts) =>
          (exists rest tail,
              final_rest d (Z.to_nat (max_frames - 2)) rest tail s') /\
          ts = Py.sorted (timestamps s') /\
          length fr = length ts
      | Raise e => decode_failure video e
      end
  end.
Proof.
  unfold run, extract_strategic_frames.
  assert (Hd : Qle_bool (duration video) 0 = false).
  { destruct (Qle_bool (duration video) 0) eqn:E; [| reflexivity].
    apply Qle_bool_iff in E. lra. }
  rewrite Hd. fold ft.
  unfold bind at 1. rewrite append_frame_at_run. unfold initial; simpl.
  destruct (get_frame video ft) as [f |].
  2: { intro H. inversion H. now split. }
  set (s1 := mkState [f] [ft] [ft] files).
  assert (Hs1 : mid_state d 0 s1).
  { exists []. unfold mid_rest, s1; simpl. repeat split; try constructor.
    now exists []. }
  unfold bind at 1.
  destruct (try_scene_detection gray video ft max_frames s1) as [r2 s2] eqn:E2.
  destruct (try_scene_detection_post _ _ _ _ Hs1 E2) as [-> Hs2]. simpl snd.
  unfold bind at 1.
  destruct (uniform_fallback video ft max_frames s2) as [r3 s3] eqn:E3.
  destruct (uniform_fallback_post _ _ _ _ _ Hs2 E3) as (Hs3 & Hf3 & He3).
  rewrite Nat.max_id in Hs3.
  destruct r3 as [[] | e3].
  2: { intro H. inversion H; subst. repeat split; try assumption.
       - destruct Hs3 as (rest & _ & _ & _ & _ & _ & Hlog). exact Hlog.
       - now apply He3. }
  unfold bind at 1.
  destruct (add_last_frame video s3) as [r4 s4] eqn:E4.
  destruct (add_last_frame_post _ _ _ _ Hs3 E4) as (Hf4 & Hlog4 & Hpost).
  destruct r4 as [[] | e4].
  2: { intro H. inversion H; subst. repeat split; try assumption. congruence. }
  destruct Hpost as (rest & tail & Hfin).
  assert (Hlen : length (frames s4) = length (timestamps s4))
    by (destruct Hfin as (_ & _ & _ & _ & Hlen & _); exact Hlen).
  destruct (sorted_result_run s4 Hlen) as (fr & -> & Hfr).
  intro H. inversion H; subst. repeat split; try assumption.
  - congruence.
  - now exists rest, tail.
  - unfold Py.sorted. now rewrite sorted_by_length.
Qed.

End Phases.

(** ** Shape of the returned list *)

Lemma final_rest_spaced {Frame : Type} (d : Q) (n : nat) (rest tail : list Q)
      (s : State Frame) :
  0 < d -> final_rest d n rest tail s -> spaced (timestamps s).
Proof.
  intros Hd (Hts & Hint & Hsp & _ & _ & Hend). rewrite Hts.
  assert (Hft : Forall (far (first_time_of d)) rest).
  { eapply Forall_impl; [| exact Hint].
    intros t [Ht _]. apply far_cases. now left. }
  destruct Hend as [[-> Hfar] | [-> _]].
  - inversion Hfar as [| ? ? Hlf Hlr]; subst.
    constructor.
    + apply Forall_app. split; [exact Hft |].
      constructor; [now apply far_sym | constructor].
    + apply spaced_snoc; [exact Hsp |].
      eapply Forall_impl; [| exact Hlr]. intros t. apply far_sym.
  - rewrite app_nil_r. now constructor.
Qed.

Lemma final_rest_sorted {Frame : Type} (d : Q) (n : nat) (rest tail : list Q)
      (s : State Frame) :
  0 < d -> final_rest d n rest tail s ->
  Py.sorted (timestamps s) = first_time_of d :: Py.sorted rest ++ tail.
Proof.
  intros Hd (Hts & Hint & _ & _ & _ & Hend). rewrite Hts.
  pose proof (first_time_bounds d Hd) as Hf.
  pose proof (last_time_bounds d Hd) as Hl.
  assert (Hlow : Forall (fun x => first_time_of d <= x) rest).
  { eapply Forall_impl; [| exact Hint]. intros t [Ht _]. lra. }
  destruct Hend as [[-> _] | [-> _]].
  - rewrite sorted_head.
    + f_equal. apply sorted_last.
      eapply Forall_impl; [| exact Hint]. intros t [_ Ht]. lra.
    + apply Forall_app. split; [exact Hlow |].
      constructor; [lra | constructor].
  - rewrite !app_nil_r. now apply sorted_head.
Qed.

Lemma length_sorted (l : list Q) : length (Py.sorted l) = length l.
Proof. apply sorted_by_length. Qed.

(** A call on a video without positive duration returns at once. *)
Lemma run_no_duration {Frame CapFrame : Type}
      (gray : CapFrame -> option (list Z)) (video : Video Frame CapFrame)
      (max_frames : Z) (files : list nat) :
  duration video <= 0 ->
  run gray video max_frames files = (Ok ([], []), initial files).
Proof.
  intro H. unfold run, extract_strategic_frames.
  apply Qle_bool_iff in H. now rewrite H.
Qed.

Lemma decode_failure_impossible {Frame CapFrame : Type}
      (video : Video Frame CapFrame) (e : Exn) :
  decodes_all video -> decode_failure video e -> False.
Proof. intros Hall (t & _ & Hnone). exact (Hall t Hnone). Qed.

(** With a decoder that answers every request, a call on a video of
    positive duration returns, and its local lists have the final shape. *)
Lemma run_returns {Frame CapFrame : Type}
      (gray : CapFrame -> option (list Z)) (video : Video Frame CapFrame)
      (max_frames : Z) (files : list nat) :
  0 < duration video -> decodes_all video ->
  exists fr s' rest tail,
    run gray video max_frames files = (Ok (fr, Py.sorted (timestamps s')), s') /\
    final_rest (duration video) (Z.to_nat (max_frames - 2)) rest tail s' /\
    length fr = length (timestamps s').
Proof.
  intros Hd Hall.
  destruct (run gray video max_frames files) as [r s'] eqn:E.
  pose proof (run_post gray video Hd max_frames files r s' E) as Hpost.
  destruct (get_frame video (first_time_of (duration video))) as [f |] eqn:Ef.
  2: { exfalso. exact (Hall _ Ef). }
  destruct Hpost as (_ & _ & Hr).
  destruct r as [[fr ts] | e].
  - destruct Hr as ((rest & tail & Hfin) & -> & Hlen).
    exists fr, s', rest, tail. split; [reflexivity |]. split; [exact Hfin |].
    now rewrite Hlen, length_sorted.
  - exfalso. eapply decode_failure_impossible; eassumption.
Qed.

(** ** Properties of [extract_strategic_frames] *)

(** A call either returns timestamps that climb by at least one second, or
    raises a failed decode request. *)
Lemma run_outcome
  {Frame CapFrame : Type} (gray : CapFrame -> option (list Z))
  (video : Video Frame CapFrame) (max_frames : Z) (files : list nat) :
  match run gray video max_frames files with
  | (Ok (_, ts), _) => StronglySorted (fun a b => a + 1 <= b) ts
  | (Raise e, _) => decode_failure video e
  end.
Proof.
  destruct (Qlt_le_dec 0 (duration video)) as [Hd | Hd].
  - destruct (run gray video max_frames files) as [r s'] eqn:E.
    pose proof (run_post gray video Hd max_frames files r s' E) as Hpost.
    destruct (get_frame video (first_time_of (duration video))) as [f |] eqn:Ef.
    + destruct Hpost as (_ & _ & Hr).
      destruct r as [[fr ts] | e]; [| exact Hr].
      destruct Hr as ((rest & tail & Hfin) & -> & _).
      apply ascending_spaced_climbs; [apply sorted_ascending |].
      apply sorted_spaced. eapply final_rest_spaced; eassumption.
    + destruct Hpost as [-> _]. eexists. split; [reflexivity | exact Ef].
  - rewrite run_no_duration by exact Hd. constructor.
Qed.

(** C3.  Whatever the duration, [max_frames], the decoder and the capture
    are, a call either returns timestamps that are strictly increasing, or
    raises because the decoder could not answer a request. *)
Theorem returned_timestamps_strictly_increase
  {Frame CapFrame : Type} (gray : CapFrame -> option (list Z))
  (video : Video Frame CapFrame) (max_frames : Z) (files : list nat) :
  match run gray video max_frames files with
  | (Ok (_, ts), _) => increasing ts
  | (Raise e, _) => decode_failure video e
  end.
Proof.
  pose proof (run_outcome gray video max_frames files) as H.
  destruct (run gray video max_frames files) as [[[fr ts] | e] s'];
    [| exact H].
  unfold increasing. eapply strongly_sorted_weaken; [| exact H].
  intros a b Hab. simpl in Hab. lra.
Qed.

(** C10.  On a video of positive duration whose decodes all succeed, the
    call returns, and any two entries of the returned list, adjacent or
    not, are at least one second apart, however short the video is. *)
Theorem returned_timestamps_one_second_apart
  {Frame CapFrame : Type} (gray : CapFrame -> option (list Z))
  (video : Video Frame CapFrame) (max_frames : Z) (files : list nat) :
  0 < duration video -> decodes_all video ->
  exists fr ts s',
    run gray video max_frames files = (Ok (fr, ts), s') /\ spaced ts.
Proof.
  intros Hd Hall.
  destruct (run_returns gray video max_frames files Hd Hall)
    as (fr & s' & rest & tail & Hrun & Hfin & _).
  exists fr, (Py.sorted (timestamps s')), s'. split; [exact Hrun |].
  apply sorted_spaced. eapply final_rest_spaced; eassumption.
Qed.

(** The number of frames the code returns.  With every decode succeeding,
    a video of positive duration yields at least one frame and never more
    than [max_frames] once [max_frames] is 2 or more; below 2 the count can
    reach 2.  A video without positive duration yields the empty result. *)
Theorem frame_count_bounded_by_budget_or_two
  {Frame CapFrame : Type} (gray : CapFrame -> option (list Z))
  (video : Video Frame CapFrame) (max_frames : Z) (files : list nat) :
  decodes_all video ->
  (0 < duration video ->
   exists fr ts s',
     run gray video max_frames files = (Ok (fr, ts), s') /\
     (0 < Py.len ts <= Z.max 2 max_frames)%Z /\
     length fr = length ts) /\
  (duration video <= 0 ->
   run gray video max_frames files = (Ok ([], []), initial files)).
Proof.
  intro Hall. split; [| apply run_no_duration].
  intro Hd.
  destruct (run_returns gray video max_frames files Hd Hall)
    as (fr & s' & rest & tail & Hrun & Hfin & Hlen).
  exists fr, (Py.sorted (timestamps s')), s'. split; [exact Hrun |].
  unfold Py.len. rewrite length_sorted. split; [| exact Hlen].
  destruct Hfin as (Hts & _ & _ & Hn & _ & Hend).
  rewrite Hts. simpl length. rewrite length_app.
  destruct Hend as [[-> _] | [-> _]]; simpl length; lia.
Qed.

(** C2.  The documented maximum is exceeded at [max_frames = 1]: the budget
    arithmetic reserves two places for the anchors ([max_frames - 2],
    [max_frames - 1 - len(frames)]) and never checks that there are two.  On
    every video of two seconds or more whose two anchors decode, a call with
    [max_frames <= 1] skips scene detection and the uniform fallback and
    returns both anchors: two frames. *)
Theorem two_anchors_exceed_a_budget_of_one
  {Frame CapFrame : Type} (gray : CapFrame -> option (list Z))
  (video : Video Frame CapFrame) (max_frames : Z) (files : list nat)
  (f l : Frame) :
  (max_frames <= 1)%Z -> 2 <= duration video ->
  let ft := first_time_of (duration video) in
  let lt := last_time_of (duration video) in
  get_frame video ft = Some f -> get_frame video lt = Some l ->
  run gray video max_frames files =
    (Ok ([f; l], [ft; lt]), mkState [f; l] [ft; lt] [ft; lt] files) /\
  (max_frames < Py.len [ft; lt])%Z.
Proof.
  intros Hmf Hd ft lt Hf Hl.
  split; [| unfold Py.len; simpl; lia].
  assert (Hft : ft <= 1 # 2).
  { unfold ft, first_time_of.
    destruct (PyFacts.min_cases (1 # 2) (duration video * (1 # 10)))
      as [[H ->] | [H ->]]; lra. }
  assert (Hlt : duration video - (1 # 2) <= lt).
  { unfold lt, last_time_of.
    destruct (PyFacts.max_cases (duration video - (1 # 2))
                                (duration video * (9 # 10)))
      as [[H ->] | [H ->]]; lra. }
  unfold run, extract_strategic_frames.
  assert (E0 : Qle_bool (duration video) 0 = false).
  { destruct (Qle_bool (duration video) 0) eqn:E; [| reflexivity].
    apply Qle_bool_iff in E. lra. }
  rewrite E0. fold ft.
  unfold bind at 1. rewrite append_frame_at_run, Hf.
  unfold initial; simpl.
  set (s1 := mkState [f] [ft] [ft] files).
  assert (Ht : try_scene_detection gray video ft max_frames s1 = (Ok tt, s1)).
  { unfold try_scene_detection.
    assert (Em : (0 <? max_frames - 2)%Z = false) by (apply Z.ltb_ge; lia).
    rewrite Em, andb_false_r. reflexivity. }
  assert (Hu : uniform_fallback video ft max_frames s1 = (Ok tt, s1)).
  { unfold uniform_fallback, bind, get_state.
    assert (Eb : (Py.len (frames s1) <? max_frames - 1)%Z = false)
      by (apply Z.ltb_ge; unfold Py.len; simpl; lia).
    rewrite Eb. reflexivity. }
  assert (Ha : add_last_frame video s1 =
               (Ok tt, mkState [f; l] [ft; lt] [ft; lt] files)).
  { unfold add_last_frame, bind, get_state. fold lt.
    assert (El : Py.any (fun t => Py.lt (Py.abs (lt - t)) 1) (timestamps s1)
                 = false).
    { unfold Py.any. cbn [timestamps s1 existsb]. rewrite orb_false_r.
      apply PyFacts.lt_false. unfold Py.abs. rewrite Qabs_pos; lra. }
    rewrite El. cbn [negb]. rewrite append_frame_at_run, Hl. reflexivity. }
  unfold bind at 1. rewrite Ht.
  unfold bind at 1. rewrite Hu.
  unfold bind at 1. rewrite Ha.
  unfold sorted_result, bind, get_state, ret.
  cbn [frames timestamps combine Py.sorted_by fold_right Py.insert_by snd].
  assert (Ele : Qle_bool ft lt = true) by (apply Qle_bool_iff; lra).
  rewrite Ele. reflexivity.
Qed.

Lemma two_anchors_exceed_a_budget_of_one_witness :
  (1 <= 1)%Z /\ 2 <= duration (clip 10 None) /\
  run gray_id (clip 10 None) 1 [] =
    (Ok ([first_time_of 10; last_time_of 10],
         [first_time_of 10; last_time_of 10]),
     mkState [first_time_of 10; last_time_of 10]
             [first_time_of 10; last_time_of 10]
             [first_time_of 10; last_time_of 10] []) /\
  (1 < Py.len [first_time_of 10; last_time_of 10])%Z.
Proof.
  assert (Hmf : (1 <= 1)%Z) by lia.
  assert (Hd : 2 <= duration (clip 10 None)) by (intro H; discriminate).
  split; [exact Hmf |]. split; [exact Hd |].
  exact (two_anchors_exceed_a_budget_of_one
           gray_id (clip 10 None) 1 [] _ _ Hmf Hd eq_refl eq_refl).
Defined.


Lemma returned_timestamps_one_second_apart_witness :
  0 < 10 /\ decodes_all (clip 10 (Some flicker)) /\
  exists fr ts s',
    run gray_id (clip 10 (Some flicker)) 7 [] = (Ok (fr, ts), s') /\ spaced ts.
Proof.
  assert (Hd : 0 < duration (clip 10 (Some flicker))) by reflexivity.
  assert (Hall : decodes_all (clip 10 (Some flicker)))
    by (intros t H; discriminate).
  split; [exact Hd |]. split; [exact Hall |].
  exact (returned_timestamps_one_second_apart
           gray_id (clip 10 (Some flicker)) 7 [] Hd Hall).
Defined.

Lemma frame_count_bounded_by_budget_or_two_witness :
  decodes_all (clip 10 (Some flicker)) /\
  (0 < duration (clip 10 (Some flicker)) ->
   exists fr ts s',
     run gray_id (clip 10 (Some flicker)) 7 [] = (Ok (fr, ts), s') /\
     (0 < Py.len ts <= Z.max 2 7)%Z /\
     length fr = length ts).
Proof.
  assert (Hall : decodes_all (clip 10 (Some flicker)))
    by (intros t H; discriminate).
  split; [exact Hall |].
  exact (proj1 (frame_count_bounded_by_budget_or_two
                  gray_id (clip 10 (Some flicker)) 7 [] Hall)).
Defined.



(** ** Failures *)

(** Counterexample to C1: when the decoder fails, the very first request, for the
    start anchor, raises out of the call; nothing is skipped and no empty
    sequence is returned. *)
Lemma undecodable_clip_raises :
  run gray_id (undecodable_clip 10) 7 [] =
  (Raise (DecodeError (first_time_of 10)),
   mkState [] [] [first_time_of 10] []).
Proof. reflexivity. Qed.

(** C1, amended.  The only exceptions that leave a call are failed decode
    requests: whatever scene detection raises is absorbed, so a call whose
    decodes all succeed returns; but a failed decode of the start anchor is
    propagated to the caller, with nothing appended. *)
Theorem only_decode_failures_escape
  {Frame CapFrame : Type} (gray : CapFrame -> option (list Z))
  (video : Video Frame CapFrame) (max_frames : Z) (files : list nat) :
  let ft := first_time_of (duration video) in
  (forall e s', run gray video max_frames files = (Raise e, s') ->
                decode_failure video e) /\
  (decodes_all video ->
   exists res s', run gray video max_frames files = (Ok res, s')) /\
  (0 < duration video -> get_frame video ft = None ->
   run gray video max_frames files =
   (Raise (DecodeError ft), mkState [] [] [ft] files)).
Proof.
  intro ft.
  assert (Hraise : forall e s', run gray video max_frames files = (Raise e, s') ->
                                decode_failure video e).
  { intros e s' E.
    pose proof (run_outcome gray video max_frames files) as H.
    rewrite E in H. exact H. }
  split; [exact Hraise |]. split.
  - intro Hall.
    destruct (run gray video max_frames files) as [[res | e] s'] eqn:E.
    + now exists res, s'.
    + exfalso. eapply decode_failure_impossible; [exact Hall |].
      eapply Hraise. reflexivity.
  - intros Hd Hnone.
    destruct (run gray video max_frames files) as [r s'] eqn:E.
    pose proof (run_post gray video Hd max_frames files r s' E) as Hpost.
    fold ft in Hpost. rewrite Hnone in Hpost.
    destruct Hpost as [-> ->]. reflexivity.
Qed.

Lemma only_decode_failures_escape_witness :
  0 < duration (undecodable_clip 10) /\
  get_frame (undecodable_clip 10) (first_time_of 10) = None /\
  run gray_id (undecodable_clip 10) 7 [] =
  (Raise (DecodeError (first_time_of 10)),
   mkState [] [] [first_time_of 10] []).
Proof.
  assert (Hd : 0 < duration (undecodable_clip 10)) by reflexivity.
  split; [exact Hd |]. split; [reflexivity |].
  exact (proj2 (proj2 (only_decode_failures_escape
                         gray_id (undecodable_clip 10) 7 []))
               Hd eq_refl).
Defined.

(** Counterexample to C8: a budget of zero frames is not rejected, the call decodes
    both anchors of a ten-second clip and returns them; and a negative
    duration is answered with an ordinary empty result. *)
Lemma zero_budget_and_negative_duration_are_served :
  (exists fr ts s',
      run gray_id (clip 10 None) 0 [] = (Ok (fr, ts), s') /\
      length ts = 2%nat /\ length (decode_log s') = 2%nat) /\
  run gray_id (clip (-1) None) 7 [] = (Ok ([], []), initial []).
Proof.
  split; [| reflexivity].
  eexists _, _, _. split; [vm_compute; reflexivity |].
  split; reflexivity.
Qed.

(** C8, amended.  Nothing is rejected.  A duration that is not positive is
    answered with the empty result before any decode request; for a
    positive duration the start anchor is requested from the decoder
    whatever [max_frames] is, and with [max_frames < 1] and a decoder that
    answers, the call returns the start anchor, followed by the end anchor
    unless the two are within one second. *)
Theorem nothing_is_rejected_eagerly
  {Frame CapFrame : Type} (gray : CapFrame -> option (list Z))
  (video : Video Frame CapFrame) (max_frames : Z) (files : list nat) :
  let ft := first_time_of (duration video) in
  let lt := last_time_of (duration video) in
  (duration video <= 0 ->
   run gray video max_frames files = (Ok ([], []), initial files)) /\
  (0 < duration video ->
   exists log,
     decode_log (snd (run gray video max_frames files)) = ft :: log) /\
  (0 < duration video -> (max_frames < 1)%Z -> decodes_all video ->
   exists fr tail s',
     run gray video max_frames files = (Ok (fr, ft :: tail), s') /\
     timestamps s' = ft :: tail /\
     ((tail = [lt] /\ far lt ft) \/ (tail = [] /\ ~ far lt ft))).
Proof.
  intros ft lt. split; [apply run_no_duration |]. split.
  - intro Hd.
    destruct (run gray video max_frames files) as [r s'] eqn:E.
    pose proof (run_post gray video Hd max_frames files r s' E) as Hpost.
    fold ft in Hpost. simpl snd.
    destruct (get_frame video ft).
    + apply Hpost.
    + destruct Hpost as [_ ->]. now exists [].
  - intros Hd Hmf Hall.
    destruct (run_returns gray video max_frames files Hd Hall)
      as (fr & s' & rest & tail & Hrun & Hfin & _).
    pose proof (final_rest_sorted _ _ _ _ _ Hd Hfin) as Hsorted.
    destruct Hfin as (Hts & _ & _ & Hn & _ & Hend).
    assert (rest = []) as ->.
    { replace (Z.to_nat (max_frames - 2)) with 0%nat in Hn by lia.
      destruct rest; [reflexivity | simpl in Hn; lia]. }
    simpl in Hsorted, Hts. rewrite Hsorted in Hrun.
    exists fr, tail, s'. split; [exact Hrun |]. split; [exact Hts |].
    destruct Hend as [[-> Hfar] | [-> (t & Hin & Hnear)]].
    + left. split; [reflexivity |]. now inversion Hfar.
    + right. split; [reflexivity |]. destruct Hin as [<- | []]. exact Hnear.
Qed.

Lemma nothing_is_rejected_eagerly_witness :
  0 < duration (clip 10 None) /\ (0 < 1)%Z /\ decodes_all (clip 10 None) /\
  exists fr tail s',
    run gray_id (clip 10 None) 0 [] =
      (Ok (fr, first_time_of 10 :: tail), s') /\
    timestamps s' = first_time_of 10 :: tail /\
    ((tail = [last_time_of 10] /\ far (last_time_of 10) (first_time_of 10)) \/
     (tail = [] /\ ~ far (last_time_of 10) (first_time_of 10))).
Proof.
  assert (Hd : 0 < duration (clip 10 None)) by reflexivity.
  assert (Hall : decodes_all (clip 10 None)) by (intros t H; discriminate).
  split; [exact Hd |]. split; [lia |]. split; [exact Hall |].
  exact (proj2 (proj2 (nothing_is_rejected_eagerly
                         gray_id (clip 10 None) 0 []))
               Hd eq_refl Hall).
Defined.

(** ** The temporary file *)

Lemma fresh_path_is_fresh (files : list nat) : ~ In (fresh_path files) files.
Proof.
  unfold fresh_path. intro Hin.
  assert (H : Forall (fun k => (k <= list_max files)%nat) files)
    by (apply list_max_le; lia).
  rewrite Forall_forall in H. specialize (H _ Hin). lia.
Qed.

Lemma filter_absent (x : nat) (l : list nat) :
  ~ In x l -> filter (fun p => negb (Nat.eqb p x)) l = l.
Proof.
  induction l as [| p l IH]; simpl; intro H; [reflexivity |].
  destruct (Nat.eqb_spec p x) as [-> | Hne]; simpl.
  - exfalso. apply H. now left.
  - f_equal. apply IH. intro Hin. apply H. now right.
Qed.

Lemma remove_fresh_path (files : list nat) :
  filter (fun p => negb (Nat.eqb p (fresh_path files)))
         (files ++ [fresh_path files]) = files.
Proof.
  rewrite filter_app. simpl. rewrite Nat.eqb_refl. simpl.
  rewrite app_nil_r. apply filter_absent. apply fresh_path_is_fresh.
Qed.

Section TempFile.

Context {Frame CapFrame : Type} (gray : CapFrame -> option (list Z)).
Variable video : Video Frame CapFrame.

Lemma accept_scenes_keep_files (ft : Q) (L : list Q) (s : State Frame) :
  temp_files (snd (for_each L (accept_scene video ft) s)) = temp_files s.
Proof.
  revert s. induction L as [| x L IH]; intro s; simpl; [reflexivity |].
  unfold bind, accept_scene at 1.
  destruct (Py.lt (Py.abs (x - ft)) 1); [apply IH |].
  destruct (Py.lt (duration video - x) 1); [apply IH |].
  rewrite append_frame_at_run.
  destruct (get_frame video x); [| reflexivity].
  rewrite IH. reflexivity.
Qed.

(** On the path where the scan completes, the temporary file is deleted
    before the scenes are decoded. *)
Lemma temp_file_removed_when_scan_completes
      (max_frames : Z) (s : State Frame) (cap : Capture CapFrame)
      (st : Scan CapFrame) :
  let d := duration video in
  write_videofile video (Py.lt 60 d) = Some cap ->
  scan_loop gray d (cap_fps cap) (first_time_of d)
            (min_scene_length_of d (max_frames - 2)) (max_frames - 2)
            (cap_frames cap) scan_init = Ok st ->
  temp_files (snd (try_scene_detection gray video (first_time_of d)
                                       max_frames s)) = temp_files s.
Proof.
  intros d Hw Hscan. unfold try_scene_detection.
  destruct (Py.lt 3 (duration video) && (0 <? max_frames - 2)%Z);
    [| reflexivity].
  unfold try_except, scene_detection, bind, NamedTemporaryFile, write_and_open.
  fold d. rewrite Hw. unfold ret at 1, lift. rewrite Hscan.
  unfold os_remove. cbn [temp_files frames timestamps decode_log].
  rewrite remove_fresh_path.
  destruct (scene_timestamps st) as [| t0 scenes].
  - reflexivity.
  - match goal with
    | |- context [for_each ?L ?b ?s0] =>
        pose proof (accept_scenes_keep_files (first_time_of d) L s0) as Hk;
        destruct (for_each L b s0) as [[[] | e] s2]
    end; exact Hk.
Qed.

(** When scene detection raises, the [except] clause returns with the
    temporary file still on disk. *)
Lemma failed_detection_keeps_temp_file (max_frames : Z) (s : State Frame) :
  let d := duration video in
  Py.lt 3 d && (0 <? max_frames - 2)%Z = true ->
  detection_raises gray video max_frames ->
  try_scene_detection gray video (first_time_of d) max_frames s =
  (Ok tt, mkState (frames s) (timestamps s) (decode_log s)
                  (temp_files s ++ [fresh_path (temp_files s)])).
Proof.
  intros d Hguard Hraise. unfold try_scene_detection. fold d. rewrite Hguard.
  unfold detection_raises in Hraise. fold d in Hraise.
  unfold try_except, scene_detection, bind, NamedTemporaryFile, write_and_open.
  fold d.
  destruct (write_videofile video (Py.lt 60 d)) as [cap |]; [| reflexivity].
  destruct Hraise as [e He]. unfold ret at 1, lift. rewrite He. reflexivity.
Qed.

End TempFile.

(** C9, on the inputs where it fails.  When scene detection is attempted
    and raises before its [os.remove] (re-encoding fails, or the scan
    raises), the call goes on to its fallback and finishes with the
    temporary file it created still on disk: a path that did not exist
    before the call. *)
Theorem temp_file_survives_failed_detection
  {Frame CapFrame : Type} (gray : CapFrame -> option (list Z))
  (video : Video Frame CapFrame) (max_frames : Z) (files : list nat) :
  3 < duration video -> (2 < max_frames)%Z ->
  get_frame video (first_time_of (duration video)) <> None ->
  detection_raises gray video max_frames ->
  temp_files (snd (run gray video max_frames files)) =
    files ++ [fresh_path files] /\
  ~ In (fresh_path files) files.
Proof.
  intros Hd Hmf Hft Hraise. split; [| apply fresh_path_is_fresh].
  assert (Hpos : 0 < duration video) by lra.
  destruct (run gray video max_frames files) as [r s'] eqn:E.
  pose proof (run_post gray video Hpos max_frames files r s' E) as Hpost.
  destruct (get_frame video (first_time_of (duration video))) as [f |];
    [| congruence].
  destruct Hpost as (Hfiles & _). simpl snd. rewrite Hfiles.
  rewrite failed_detection_keeps_temp_file; [reflexivity | | exact Hraise].
  apply andb_true_iff. split.
  - now apply PyFacts.lt_true.
  - apply Z.ltb_lt. lia.
Qed.

Lemma temp_file_survives_failed_detection_witness :
  3 < duration (clip 10 (Some stalled)) /\ (2 < 7)%Z /\
  get_frame (clip 10 (Some stalled)) (first_time_of 10) <> None /\
  detection_raises gray_id (clip 10 (Some stalled)) 7 /\
  temp_files (snd (run gray_id (clip 10 (Some stalled)) 7 [])) = [1%nat].
Proof.
  assert (Hd : 3 < duration (clip 10 (Some stalled))) by reflexivity.
  assert (Hmf : (2 < 7)%Z) by lia.
  assert (Hft : get_frame (clip 10 (Some stalled)) (first_time_of 10) <> None)
    by discriminate.
  assert (Hr : detection_raises gray_id (clip 10 (Some stalled)) 7)
    by (exists ZeroDivisionError; reflexivity).
  split; [exact Hd |]. split; [exact Hmf |]. split; [exact Hft |].
  split; [exact Hr |].
  exact (proj1 (temp_file_survives_failed_detection
                  gray_id (clip 10 (Some stalled)) 7 [] Hd Hmf Hft Hr)).
Defined.

(** ** The spacing handed to the scan *)

Lemma subclip_duration_Qmin (d : Q) : subclip_duration d == Qmin d 60.
Proof.
  unfold subclip_duration.
  destruct (PyFacts.lt_cases 60 d) as [[-> H] | [-> H]].
  - symmetry. apply Q.min_r. lra.
  - symmetry. apply Q.min_l. lra.
Qed.

(** Counterexample to C7: for a twenty-second clip and [max_frames = 7] the scan is
    given a spacing of 2 seconds, the whole duration over ten, where the
    window [[firstTime, duration]] would give 1.95. *)
Lemma spacing_of_twenty_second_clip :
  min_scene_length_of 20 (7 - 2) == 2 /\
  claimed_min_scene_spacing 20 7 == 39 # 20 /\
  ~ min_scene_length_of 20 (7 - 2) == claimed_min_scene_spacing 20 7.
Proof.
  split; [reflexivity |]. split; [reflexivity |].
  intro H. vm_compute in H. discriminate.
Qed.

Lemma py_lt_compat (a b b' : Q) : b == b' -> Py.lt a b = Py.lt a b'.
Proof. intro H. unfold Py.lt. now rewrite H. Qed.

Section ScanSpacing.

Context {CapFrame : Type} (gray : CapFrame -> option (list Z)).
Variables (d fps ft : Q) (mid : Z).

(** The scan depends on the spacing only up to equality of rationals. *)
Lemma scan_step_spacing_compat (msl msl' : Q) (st : Scan CapFrame) (f : CapFrame) :
  msl == msl' ->
  scan_step gray d fps ft msl mid st f = scan_step gray d fps ft msl' mid st f.
Proof.
  intro H. unfold scan_step. now rewrite (py_lt_compat _ msl msl' H).
Qed.

Lemma scan_loop_spacing_compat (msl msl' : Q) (fs : list CapFrame) :
  msl == msl' ->
  forall st, scan_loop gray d fps ft msl mid fs st
             = scan_loop gray d fps ft msl' mid fs st.
Proof.
  intro H. induction fs as [| f rest IH]; intro st; simpl; [reflexivity |].
  rewrite (scan_step_spacing_compat msl msl' st f H).
  destruct (scan_step gray d fps ft msl' mid st f) as [[st1 [|]] | e];
    [apply IH | reflexivity | reflexivity].
Qed.

Variable msl : Q.

Lemma scan_spaced_emit (l : list Q) (frame_time : Q) :
  scan_spaced d msl l ->
  negb (Nat.eqb (length l) 0) && Py.lt (frame_time - Py.last l) msl = false ->
  scan_spaced d msl (l ++ [original_time_of d frame_time]).
Proof.
  intros Hl Hgap l1 a b l2 E.
  induction l2 as [| y l2 _] using rev_ind.
  - change (l1 ++ [a; b]) with (l1 ++ [a] ++ [b]) in E.
    rewrite app_assoc in E. apply app_inj_tail in E. destruct E as [-> <-].
    rewrite length_app, Nat.add_comm in Hgap. simpl in Hgap.
    unfold Py.last in Hgap. rewrite last_last in Hgap.
    apply PyFacts.lt_false in Hgap.
    unfold original_time_of.
    destruct (PyFacts.lt_cases 60 d) as [[-> H60] | [-> H60]]; [| left; lra].
    destruct (PyFacts.min_cases frame_time d) as [[H ->] | [H ->]];
      [right; split; [exact H60 | reflexivity] | left; lra].
  - change (l1 ++ a :: b :: l2 ++ [y]) with (l1 ++ (a :: b :: l2) ++ [y]) in E.
    rewrite app_assoc in E. apply app_inj_tail in E. destruct E as [E _].
    exact (Hl _ _ _ _ E).
Qed.

Lemma scan_step_spaced (st st' : Scan CapFrame) (frame : CapFrame) (fl : Flow) :
  scan_spaced d msl (scene_timestamps st) ->
  scan_step gray d fps ft msl mid st frame = Ok (st', fl) ->
  scan_spaced d msl (scene_timestamps st').
Proof.
  intros Hok. unfold scan_step.
  destruct (Qeq_bool fps 0); [discriminate |].
  destruct (Py.lt (frame_time_of fps (frame_count st)) ft).
  { intro H. inversion H; subst. exact Hok. }
  destruct (negb (Nat.eqb (length (scene_timestamps st)) 0) &&
            Py.lt (frame_time_of fps (frame_count st)
                   - Py.last (scene_timestamps st)) msl) eqn:E2.
  { intro H. inversion H; subst. exact Hok. }
  destruct (prev_frame st) as [prev |].
  2: { intro H. inversion H; subst. exact Hok. }
  destruct (mean_diff gray prev frame) as [diff | e]; [| discriminate].
  destruct (Py.lt threshold diff).
  2: { intro H. inversion H; subst. exact Hok. }
  pose proof (scan_spaced_emit _ _ Hok E2) as Hnew.
  destruct (mid <=? _)%Z; intro H; inversion H; subst; exact Hnew.
Qed.

Lemma scan_loop_spaced (fs : list CapFrame) (st st' : Scan CapFrame) :
  scan_spaced d msl (scene_timestamps st) ->
  scan_loop gray d fps ft msl mid fs st = Ok st' ->
  scan_spaced d msl (scene_timestamps st').
Proof.
  revert st. induction fs as [| frame rest IH]; intros st Hok; simpl.
  - intro H. inversion H; subst. exact Hok.
  - destruct (scan_step gray d fps ft msl mid st frame) as [[st1 fl] | e] eqn:E;
      [| discriminate].
    pose proof (scan_step_spaced _ _ _ _ Hok E) as Hok1.
    destruct fl.
    + now apply IH.
    + intro H. inversion H; subst. exact Hok1.
Qed.

End ScanSpacing.

(** C7, amended.  Scene detection runs its scan with the spacing
    [max(1.0, min(duration, 60) / (2 * (max_frames - 2)))]: the length of
    the re-encoded clip, which starts at 0 and not at the start anchor,
    over twice the number of middle frames.  Once the clip is re-encoded,
    scene detection is the scan of the capture with that spacing followed
    by the removal of the temporary file and the acceptance of the
    candidates; and the candidates that scan reports lie at least that far
    apart. *)
Theorem scene_spacing_from_clip_length
  {Frame CapFrame : Type} (gray : CapFrame -> option (list Z))
  (video : Video Frame CapFrame) (max_frames : Z) (cap : Capture CapFrame)
  (s : State Frame) :
  let d := duration video in
  let ft := first_time_of d in
  let mid := (max_frames - 2)%Z in
  let spacing := Qmax 1 (Qmin d 60 / inject_Z (2 * mid)) in
  write_videofile video (Py.lt 60 d) = Some cap ->
  min_scene_length_of d mid == spacing /\
  scene_detection gray video ft mid s =
    bind NamedTemporaryFile (fun temp_video_path =>
    bind (lift (scan_loop gray d (cap_fps cap) ft spacing mid
                          (cap_frames cap) scan_init)) (fun st =>
    bind (os_remove temp_video_path) (fun _ =>
    match scene_timestamps st with
    | [] => ret tt
    | _ :: _ =>
        for_each (Py.take mid (Py.sorted (Py.set (scene_timestamps st))))
                 (accept_scene video ft)
    end))) s /\
  forall st,
    scan_loop gray d (cap_fps cap) ft spacing mid (cap_frames cap) scan_init
    = Ok st ->
    scan_spaced d spacing (scene_timestamps st).
Proof.
  intros d ft mid spacing Hcap.
  assert (E : min_scene_length_of d mid == spacing).
  { unfold min_scene_length_of, spacing.
    rewrite PyFacts.max_Qmax, subclip_duration_Qmin.
    replace (2 * mid)%Z with (mid * 2)%Z by lia.
    reflexivity. }
  split; [exact E |]. split.
  - unfold scene_detection. fold d.
    unfold bind at 2. unfold write_and_open. rewrite Hcap.
    unfold bind at 1 4. unfold NamedTemporaryFile, ret.
    fold mid.
    rewrite (scan_loop_spacing_compat gray d (cap_fps cap) ft mid _ _
               (cap_frames cap) E scan_init).
    reflexivity.
  - intros st Hscan.
    apply (scan_loop_spaced gray d (cap_fps cap) ft mid spacing
             (cap_frames cap) scan_init st); [| exact Hscan].
    intros l1 a b l2 H. simpl in H.
    destruct l1; discriminate.
Qed.

Lemma scene_spacing_from_clip_length_witness :
  write_videofile (clip 20 (Some flicker)) (Py.lt 60 20) = Some flicker /\
  min_scene_length_of 20 (7 - 2)
  == Qmax 1 (Qmin 20 60 / inject_Z (2 * (7 - 2))) /\
  forall st,
    scan_loop gray_id 20 (cap_fps flicker) (first_time_of 20)
              (Qmax 1 (Qmin 20 60 / inject_Z (2 * (7 - 2)))) (7 - 2)
              (cap_frames flicker) scan_init = Ok st ->
    scan_spaced 20 (Qmax 1 (Qmin 20 60 / inject_Z (2 * (7 - 2))))
                (scene_timestamps st).
Proof.
  assert (Hcap : write_videofile (clip 20 (Some flicker)) (Py.lt 60 20)
                 = Some flicker) by reflexivity.
  split; [exact Hcap |].
  destruct (scene_spacing_from_clip_length
              gray_id (clip 20 (Some flicker)) 7 flicker (initial []) Hcap)
    as (H1 & _ & H3).
  split; [exact H1 | exact H3].
Defined.

(** ** When the scan emits a candidate *)

Lemma firstn_succ {A : Type} (l : list A) (k : nat) (x : A) :
  nth_error l k = Some x -> firstn (S k) l = firstn k l ++ [x].
Proof.
  revert k. induction l as [| a l IH]; intros [| k] H; simpl in *;
    try discriminate.
  - now inversion H.
  - f_equal. now apply IH.
Qed.

Lemma firstn_past {A : Type} (l : list A) (k : nat) :
  nth_error l k = None -> firstn (S k) l = firstn k l.
Proof.
  intro H. apply nth_error_None in H.
  rewrite !firstn_all2 by lia. reflexivity.
Qed.

Section ScanCuts.

Context {CapFrame : Type} (gray : CapFrame -> option (list Z)).
Variables (d fps ft msl : Q) (mid : Z).

Local Abbreviation step := (scan_step gray d fps ft msl mid).
Local Abbreviation loop := (scan_loop gray d fps ft msl mid).
Local Abbreviation time_at := (time_of_frame fps).

Lemma examinedb_true (scenes : list Q) (time : Q) :
  examinedb ft msl scenes time = true <-> examined ft msl scenes time.
Proof.
  unfold examinedb, examined.
  rewrite andb_true_iff, !negb_true_iff, PyFacts.lt_false.
  rewrite andb_false_iff, negb_false_iff, PyFacts.lt_false, Nat.eqb_eq.
  rewrite length_zero_iff_nil. reflexivity.
Qed.

(** One iteration, spelled out by whether the frame passes the two tests. *)
Lemma scan_step_cases (st : Scan CapFrame) (f : CapFrame) :
  Qeq_bool fps 0 = false ->
  let time := frame_time_of fps (frame_count st) in
  let count := (frame_count st + 1)%Z in
  let scenes := scene_timestamps st in
  step st f =
  if examinedb ft msl scenes time then
    match prev_frame st with
    | None => Ok (mkScan (Some f) scenes count, Continue)
    | Some prev =>
        match mean_diff gray prev f with
        | Raise e => Raise e
        | Ok diff =>
            if Py.lt threshold diff then
              if (mid <=? Py.len (scenes ++ [original_time_of d time]))%Z
              then Ok (mkScan (prev_frame st)
                              (scenes ++ [original_time_of d time]) count,
                       Break)
              else Ok (mkScan (Some f)
                              (scenes ++ [original_time_of d time]) count,
                       Continue)
            else Ok (mkScan (Some f) scenes count, Continue)
        end
    end
  else Ok (mkScan (prev_frame st) scenes count, Continue).
Proof.
  intros Hfps time count scenes. unfold scan_step, examinedb.
  rewrite Hfps. fold time count scenes.
  destruct (Py.lt time ft); [reflexivity |].
  destruct (negb (Nat.eqb (length scenes) 0) && Py.lt (time - Py.last scenes) msl);
    reflexivity.
Qed.

Lemma scan_step_raises_without_fps (st : Scan CapFrame) (f : CapFrame) :
  Qeq_bool fps 0 = true -> step st f = Raise ZeroDivisionError.
Proof. intro H. unfold scan_step. now rewrite H. Qed.

(** What every iteration that does not raise does to the loop variables. *)
Lemma scan_step_progress (st st' : Scan CapFrame) (f : CapFrame) (fl : Flow) :
  step st f = Ok (st', fl) ->
  frame_count st' = (frame_count st + 1)%Z /\
  (length (scene_timestamps st) <= length (scene_timestamps st'))%nat /\
  (fl = Break -> (mid <= Py.len (scene_timestamps st'))%Z) /\
  (fl = Continue -> (Py.len (scene_timestamps st) < mid)%Z ->
   (Py.len (scene_timestamps st') < mid)%Z).
Proof.
  destruct (Qeq_bool fps 0) eqn:Hfps.
  { rewrite scan_step_raises_without_fps by exact Hfps. discriminate. }
  rewrite scan_step_cases by exact Hfps. cbv zeta.
  destruct (examinedb ft msl _ _).
  2: { intro H. inversion H; subst; simpl. repeat split; try lia; discriminate. }
  destruct (prev_frame st) as [prev |].
  2: { intro H. inversion H; subst; simpl. repeat split; try lia; discriminate. }
  destruct (mean_diff gray prev f) as [diff | e]; [| discriminate].
  destruct (Py.lt threshold diff).
  2: { intro H. inversion H; subst; simpl. repeat split; try lia; discriminate. }
  destruct (Z.leb_spec mid
              (Py.len (scene_timestamps st ++
                       [original_time_of d (frame_time_of fps (frame_count st))])))
    as [Hfull | Hroom];
    intro H; inversion H; subst; simpl;
    (repeat split; [rewrite length_app; simpl; lia | |]);
    intros; try discriminate; assumption.
Qed.

(** Reading one more frame after a run that did not raise. *)
Lemma scan_loop_snoc (fs : list CapFrame) (f : CapFrame) :
  forall st st',
    (Py.len (scene_timestamps st) < mid)%Z ->
    loop fs st = Ok st' ->
    loop (fs ++ [f]) st =
      (if (mid <=? Py.len (scene_timestamps st'))%Z then Ok st'
       else match step st' f with
            | Ok (st'', _) => Ok st''
            | Raise e => Raise e
            end) /\
    ((Py.len (scene_timestamps st') < mid)%Z ->
     frame_count st' = (frame_count st + Z.of_nat (length fs))%Z).
Proof.
  induction fs as [| frame rest IH]; intros st st' Hroom; simpl.
  - intro H. inversion H; subst. split; [| intros; lia].
    destruct (Z.leb_spec mid (Py.len (scene_timestamps st'))); [lia |].
    destruct (step st' f) as [[st'' []] | e]; reflexivity.
  - destruct (step st frame) as [[st1 fl] | e] eqn:E; [| discriminate].
    destruct (scan_step_progress _ _ _ _ E) as (Hc & _ & Hb & Hk).
    destruct fl.
    + intro H. destruct (IH st1 st' (Hk eq_refl Hroom) H) as [H1 H2].
      split; [exact H1 |]. intro Hr. rewrite (H2 Hr), Hc. lia.
    + intro H. inversion H; subst. specialize (Hb eq_refl).
      split; [| intros; lia].
      destruct (Z.leb_spec mid (Py.len (scene_timestamps st'))); [reflexivity | lia].
Qed.

Lemma scan_loop_snoc_inv (fs : list CapFrame) (f : CapFrame) :
  forall st st', loop (fs ++ [f]) st = Ok st' -> exists st0, loop fs st = Ok st0.
Proof.
  induction fs as [| frame rest IH]; intros st st'; simpl.
  - intros _. now exists st.
  - destruct (step st frame) as [[st1 []] | e]; [apply IH | | discriminate].
    intros _. now exists st1.
Qed.

Lemma scan_loop_raises_without_fps (fs : list CapFrame) (st : Scan CapFrame) :
  Qeq_bool fps 0 = true -> fs <> [] -> loop fs st = Raise ZeroDivisionError.
Proof.
  intros Hfps Hne. destruct fs as [| f fs]; [congruence |].
  simpl. now rewrite scan_step_raises_without_fps.
Qed.

Hypothesis room_for_scenes : (0 < mid)%Z.

Lemma scan_before_snoc (fs : list CapFrame) (k : nat) (f : CapFrame)
      (st : Scan CapFrame) :
  nth_error fs k = Some f ->
  scan_before gray d fps ft msl mid fs k = Ok st ->
  scan_before gray d fps ft msl mid fs (S k) =
    (if (mid <=? Py.len (scene_timestamps st))%Z then Ok st
     else match step st f with
          | Ok (st'', _) => Ok st''
          | Raise e => Raise e
          end).
Proof.
  intros Hf Hst. unfold scan_before in *.
  rewrite (firstn_succ _ _ _ Hf).
  apply scan_loop_snoc; [exact room_for_scenes | exact Hst].
Qed.

(** While there is room for scenes, the loop has counted the frames it
    read and remembers the most recent frame that passed the two tests. *)
Lemma scan_before_state (fs : list CapFrame) (k : nat) :
  forall st,
    (k <= length fs)%nat ->
    scan_before gray d fps ft msl mid fs k = Ok st ->
    (Py.len (scene_timestamps st) < mid)%Z ->
    frame_count st = Z.of_nat k /\
    prev_frame st = reference_frame gray d fps ft msl mid fs k.
Proof.
  induction k as [| k IH]; intros st Hk Hst Hroom.
  - unfold scan_before in Hst. simpl in Hst. inversion Hst; subst.
    split; reflexivity.
  - destruct (nth_error fs k) as [f |] eqn:Ef.
    2: { apply nth_error_None in Ef. lia. }
    pose proof Hst as Hst'.
    unfold scan_before in Hst'. rewrite (firstn_succ _ _ _ Ef) in Hst'.
    destruct (scan_loop_snoc_inv _ _ _ _ Hst') as [st0 Hst0].
    fold (scan_before gray d fps ft msl mid fs k) in Hst0.
    rewrite (scan_before_snoc _ _ _ _ Ef Hst0) in Hst.
    destruct (Z.leb_spec mid (Py.len (scene_timestamps st0))) as [Hfull | Hroom0].
    { inversion Hst; subst. lia. }
    destruct (IH st0 ltac:(lia) Hst0 Hroom0) as [Hcount Hprev].
    cbn [reference_frame]. rewrite Hst0, Ef.
    destruct (Qeq_bool fps 0) eqn:Hfps.
    { rewrite scan_step_raises_without_fps in Hst by exact Hfps. discriminate. }
    rewrite scan_step_cases in Hst by exact Hfps. cbv zeta in Hst.
    rewrite Hcount in Hst. fold (time_at k) in Hst.
    destruct (examinedb ft msl (scene_timestamps st0) (time_at k)).
    2: { inversion Hst; subst; simpl. split; [lia | exact Hprev]. }
    destruct (prev_frame st0) as [prev |].
    2: { inversion Hst; subst; simpl. split; [lia | reflexivity]. }
    destruct (mean_diff gray prev f) as [diff | e]; [| discriminate].
    destruct (Py.lt threshold diff).
    2: { inversion Hst; subst; simpl. split; [lia | reflexivity]. }
    destruct (Z.leb_spec mid
                (Py.len (scene_timestamps st0 ++ [original_time_of d (time_at k)])))
      as [Hfull | Hroom1];
      inversion Hst; subst; simpl in *; [lia |].
    split; [lia | reflexivity].
Qed.

(** C5, amended.  During a scan with room for at least one scene, a
    candidate is emitted at a frame exactly when fewer than [middle_frames]
    candidates have been emitted, the frame passes the two tests (not
    before the start anchor; at least [min_scene_length] after the last
    candidate if there is one, with no spacing required from the window
    start), and its mean absolute difference to the most recent earlier
    frame that passed the two tests exceeds the threshold. *)
Theorem candidate_emitted_iff_cut_condition (fs : list CapFrame) (k : nat) :
  emitted_at gray d fps ft msl mid fs k <->
  cut_condition gray d fps ft msl mid fs k.
Proof.
  destruct (nth_error fs k) as [f |] eqn:Ef.
  2: { split.
       - intros (st & st' & H1 & H2 & H3). exfalso.
         unfold scan_before in *. rewrite (firstn_past _ _ Ef), H1 in H2.
         inversion H2; subst.
         apply (f_equal (@length Q)) in H3. rewrite length_app in H3.
         simpl in H3. lia.
       - intros (st & ref & frame & diff & _ & H & _). congruence. }
  assert (Hk : (k <= length fs)%nat).
  { assert (k < length fs)%nat by (apply nth_error_Some; congruence). lia. }
  destruct (Qeq_bool fps 0) eqn:Hfps.
  { assert (Hraise : scan_before gray d fps ft msl mid fs (S k)
                     = Raise ZeroDivisionError).
    { unfold scan_before. apply scan_loop_raises_without_fps; [exact Hfps |].
      rewrite (firstn_succ _ _ _ Ef). now destruct (firstn k fs). }
    split.
    - intros (st & st' & _ & H2 & _). congruence.
    - intros (st & ref & frame & diff & H1 & _ & Hroom & _ & Href & _).
      exfalso. destruct k as [| k]; [discriminate |].
      unfold scan_before in H1.
      rewrite scan_loop_raises_without_fps in H1; [discriminate | exact Hfps |].
      destruct fs; [discriminate | discriminate]. }
  split.
  - intros (st & st' & H1 & H2 & H3).
    rewrite (scan_before_snoc _ _ _ _ Ef H1) in H2.
    destruct (Z.leb_spec mid (Py.len (scene_timestamps st))) as [Hfull | Hroom].
    { exfalso. inversion H2; subst.
      apply (f_equal (@length Q)) in H3. rewrite length_app in H3.
      simpl in H3. lia. }
    destruct (scan_before_state fs k st Hk H1 Hroom) as [Hcount Hprev].
    rewrite scan_step_cases in H2 by exact Hfps. cbv zeta in H2.
    rewrite Hcount in H2. fold (time_at k) in H2.
    assert (Hgrow : forall p c, Ok (mkScan p (scene_timestamps st) c) = Ok st' -> False).
    { intros p c H. inversion H; subst. simpl in H3.
      apply (f_equal (@length Q)) in H3. rewrite length_app in H3.
      simpl in H3. lia. }
    destruct (examinedb ft msl (scene_timestamps st) (time_at k)) eqn:Eex;
      [| exfalso; eapply Hgrow; exact H2].
    destruct (prev_frame st) as [prev |];
      [| exfalso; eapply Hgrow; exact H2].
    destruct (mean_diff gray prev f) as [diff | e] eqn:Ediff; [| discriminate].
    destruct (PyFacts.lt_cases threshold diff) as [[Elt Hlt] | [Elt _]];
      rewrite Elt in H2; [| exfalso; eapply Hgrow; exact H2].
    apply examinedb_true in Eex.
    exists st, prev, f, diff.
    split; [exact H1 |]. split; [exact Ef |]. split; [exact Hroom |].
    split; [exact Eex |]. split; [now symmetry |].
    split; [exact Ediff | exact Hlt].
  - intros (st & ref & frame & diff & H1 & Hf & Hroom & Hex & Href & Hdiff & Hlt).
    rewrite Ef in Hf. inversion Hf; subst frame.
    destruct (scan_before_state fs k st Hk H1 Hroom) as [Hcount Hprev].
    assert (Hsnoc := scan_before_snoc _ _ _ _ Ef H1).
    destruct (Z.leb_spec mid (Py.len (scene_timestamps st))) as [Hfull | _];
      [lia |].
    rewrite scan_step_cases in Hsnoc by exact Hfps. cbv zeta in Hsnoc.
    rewrite Hcount in Hsnoc. fold (time_at k) in Hsnoc.
    apply examinedb_true in Hex. rewrite Hex, Hprev, Href, Hdiff in Hsnoc.
    apply PyFacts.lt_true in Hlt. rewrite Hlt in Hsnoc.
    destruct (mid <=? _)%Z in Hsnoc;
      (eexists st, _; split; [exact H1 | split; [exact Hsnoc | reflexivity]]).
Qed.

End ScanCuts.

Lemma candidate_emitted_iff_cut_condition_witness :
  (0 < 5)%Z /\
  cut_condition gray_id 10 2 (first_time_of 10) (min_scene_length_of 10 5) 5
                blink 4.
Proof.
  assert (Hmid : (0 < 5)%Z) by lia.
  split; [exact Hmid |].
  apply (candidate_emitted_iff_cut_condition
           gray_id 10 2 (first_time_of 10) (min_scene_length_of 10 5) 5
           Hmid blink 4).
  eexists _, _. split; [vm_compute; reflexivity |].
  split; [vm_compute; reflexivity | reflexivity].
Defined.

(** Counterexample to C5, in both directions.  In the scan of a ten-second clip with
    [max_frames = 7] (start anchor 0.5, spacing 1.0, five scenes), on a
    capture at two frames per second that goes dark, dark, bright, dark,
    dark: a candidate is emitted at 1.0, only half a second after the window
    start; and one is emitted at 2.0, although the frame at 2.0 and the
    frame before it are both dark, because the comparison is with the
    bright frame at 1.0.  On a capture of one dark and one bright frame two
    seconds apart, the bright frame meets the specified condition and no
    candidate is emitted, the dark frame having been skipped. *)
Lemma cuts_differ_from_the_specified_condition :
  let ft := first_time_of 10 in
  let msl := min_scene_length_of 10 (7 - 2) in
  (emitted_at gray_id 10 2 ft msl 5 blink 2 /\
   ~ claimed_cut gray_id 10 2 ft msl 5 blink 2) /\
  (emitted_at gray_id 10 2 ft msl 5 blink 4 /\
   ~ claimed_cut gray_id 10 2 ft msl 5 blink 4) /\
  (claimed_cut gray_id 10 (1 # 2) ft msl 5 [black; white] 1 /\
   ~ emitted_at gray_id 10 (1 # 2) ft msl 5 [black; white] 1).
Proof.
  intros ft msl. repeat split.
  - eexists _, _. split; [vm_compute; reflexivity |].
    split; [vm_compute; reflexivity | reflexivity].
  - intros (st & prev & frame & diff & H1 & _ & _ & _ & _ & _ & H7).
    vm_compute in H1. inversion H1; subst st.
    vm_compute in H7. apply H7. reflexivity.
  - eexists _, _. split; [vm_compute; reflexivity |].
    split; [vm_compute; reflexivity | reflexivity].
  - intros (st & prev & frame & diff & _ & _ & H3 & H4 & H5 & H6 & _).
    vm_compute in H3, H4. inversion H3; subst prev. inversion H4; subst frame.
    vm_compute in H5. inversion H5; subst diff.
    vm_compute in H6. discriminate.
  - eexists _, black, white, _.
    split; [vm_compute; reflexivity |]. split; [lia |].
    split; [reflexivity |]. split; [reflexivity |].
    split; [vm_compute; reflexivity |]. split; [reflexivity |].
    vm_compute. discriminate.
  - intros (st & st' & H1 & H2 & H3).
    vm_compute in H1, H2. inversion H1; subst st. inversion H2; subst st'.
    discriminate.
Qed.

(** ** What a call does to its state, in general *)

Section Footprint.

Context {Frame CapFrame : Type} (gray : CapFrame -> option (list Z)).
Variable video : Video Frame CapFrame.

(** A property of the state that appending a decoded frame keeps, and that
    does not look at the temporary files. *)
Variable I : State Frame -> Prop.
Hypothesis I_append : forall s t, I s -> I (snd (append_frame_at video t s)).
Hypothesis I_files :
  forall s files,
    I s -> I (mkState (frames s) (timestamps s) (decode_log s) files).

Lemma accept_scenes_keep (ft : Q) (L : list Q) (s : State Frame) :
  I s -> I (snd (for_each L (accept_scene video ft) s)).
Proof.
  revert s. induction L as [| x L IH]; intros s Hs; simpl; [exact Hs |].
  unfold bind, accept_scene at 1.
  destruct (Py.lt (Py.abs (x - ft)) 1); [now apply IH |].
  destruct (Py.lt (duration video - x) 1); [now apply IH |].
  pose proof (I_append s x Hs) as Hx.
  destruct (append_frame_at video x s) as [[[] | e] s1]; simpl in Hx.
  - now apply IH.
  - exact Hx.
Qed.

Lemma try_scene_detection_keeps (ft : Q) (max_frames : Z) (s : State Frame) :
  I s -> I (snd (try_scene_detection gray video ft max_frames s)).
Proof.
  intro Hs. unfold try_scene_detection.
  destruct (Py.lt 3 (duration video) && (0 <? max_frames - 2)%Z); [| exact Hs].
  unfold try_except, scene_detection, bind, NamedTemporaryFile, write_and_open.
  cbn [temp_files frames timestamps decode_log].
  destruct (write_videofile video (Py.lt 60 (duration video))) as [cap |];
    [| now apply I_files].
  unfold ret at 1, lift.
  destruct (scan_loop gray _ _ _ _ _ _ _) as [st | e]; [| now apply I_files].
  unfold os_remove. cbn [temp_files frames timestamps decode_log].
  match goal with
  | |- context [filter ?p ?l] =>
      pose proof (I_files s (filter p l) Hs) as Hs1
  end.
  destruct (scene_timestamps st) as [| t0 scenes]; [exact Hs1 |].
  match goal with
  | |- context [for_each ?L ?b ?s0] =>
      pose proof (accept_scenes_keep ft L s0 Hs1) as Hk;
      destruct (for_each L b s0) as [[[] | e] s2]
  end; exact Hk.
Qed.

Lemma uniform_loop_keeps (ft step : Q) (idxs : list Z) :
  forall existing s,
    I s -> I (snd (uniform_loop video ft step idxs existing s)).
Proof.
  induction idxs as [| i idxs IH]; intros existing s Hs; cbn [uniform_loop];
    [exact Hs |].
  destruct (Py.any _ existing); [now apply IH |].
  unfold bind.
  match goal with
  | |- context [append_frame_at video ?t s] =>
      pose proof (I_append s t Hs) as Hx;
      destruct (append_frame_at video t s) as [[[] | e] s1]
  end; simpl in Hx; [now apply IH | exact Hx].
Qed.

Lemma uniform_fallback_keeps (ft : Q) (max_frames : Z) (s : State Frame) :
  I s -> I (snd (uniform_fallback video ft max_frames s)).
Proof.
  intro Hs. unfold uniform_fallback, bind, get_state.
  destruct (Py.len (frames s) <? max_frames - 1)%Z; [| exact Hs].
  destruct (0 <? max_frames - 1 - Py.len (frames s))%Z; [| exact Hs].
  now apply uniform_loop_keeps.
Qed.

Lemma add_last_frame_keeps (s : State Frame) :
  I s -> I (snd (add_last_frame video s)).
Proof.
  intro Hs. unfold add_last_frame, bind, get_state.
  destruct (negb _); [now apply I_append | exact Hs].
Qed.

(** The state of a call only changes by appending decoded frames and by
    creating and deleting temporary files. *)
Lemma run_keeps (max_frames : Z) (files : list nat) :
  I (initial files) -> I (snd (run gray video max_frames files)).
Proof.
  intro H0. unfold run, extract_strategic_frames.
  destruct (Qle_bool (duration video) 0); [exact H0 |].
  unfold bind at 1.
  pose proof (I_append _ (first_time_of (duration video)) H0) as H1.
  destruct (append_frame_at video _ (initial files)) as [[[] | e] s1];
    simpl in H1; [| exact H1].
  unfold bind at 1.
  pose proof (try_scene_detection_keeps (first_time_of (duration video))
                max_frames s1 H1) as H2.
  destruct (try_scene_detection gray video _ max_frames s1) as [[[] | e] s2];
    simpl in H2; [| exact H2].
  unfold bind at 1.
  pose proof (uniform_fallback_keeps (first_time_of (duration video))
                max_frames s2 H2) as H3.
  destruct (uniform_fallback video _ max_frames s2) as [[[] | e] s3];
    simpl in H3; [| exact H3].
  unfold bind at 1.
  pose proof (add_last_frame_keeps s3 H3) as H4.
  destruct (add_last_frame video s3) as [[[] | e] s4]; simpl in H4;
    exact H4.
Qed.

End Footprint.

(** ** Further properties of [extract_strategic_frames] *)

Lemma insert_by_Forall {A : Type} (key : A -> Q) (P : A -> Prop) (x : A) (l : list A) :
  P x -> Forall P l -> Forall P (Py.insert_by key x l).
Proof.
  intros Hx Hl. induction Hl as [| y l Hy Hl IH]; simpl.
  - constructor; [exact Hx | constructor].
  - destruct (Qle_bool (key x) (key y)).
    + constructor; [exact Hx |]. constructor; assumption.
    + constructor; assumption.
Qed.

Lemma sorted_by_Forall {A : Type} (key : A -> Q) (P : A -> Prop) (l : list A) :
  Forall P l -> Forall P (Py.sorted_by key l).
Proof.
  unfold Py.sorted_by. induction 1 as [| x l Hx Hl IH]; simpl; [constructor |].
  now apply insert_by_Forall.
Qed.

Lemma Forall2_combine {A B : Type} (R : A -> B -> Prop) (l1 : list A) (l2 : list B) :
  Forall2 R l1 l2 -> Forall (fun p => R (fst p) (snd p)) (combine l1 l2).
Proof. induction 1; simpl; constructor; assumption. Qed.

Lemma Forall_pairs_Forall2 {A B : Type} (R : A -> B -> Prop) (l : list (A * B)) :
  Forall (fun p => R (fst p) (snd p)) l -> Forall2 R (map fst l) (map snd l).
Proof. induction 1; simpl; constructor; assumption. Qed.

(** What a call returns is read off its final lists. *)
Lemma run_result {Frame CapFrame : Type}
      (gray : CapFrame -> option (list Z)) (video : Video Frame CapFrame)
      (max_frames : Z) (files : list nat) fr ts s' :
  run gray video max_frames files = (Ok (fr, ts), s') ->
  let pairs := Py.sorted_by snd (combine (frames s') (timestamps s')) in
  fr = map fst pairs /\ ts = map snd pairs.
Proof.
  unfold run, extract_strategic_frames.
  destruct (Qle_bool (duration video) 0).
  { intro H. inversion H; subst. split; reflexivity. }
  unfold bind at 1.
  destruct (append_frame_at video _ (initial files)) as [[[] | e] s1];
    [| discriminate].
  unfold bind at 1.
  destruct (try_scene_detection gray video _ max_frames s1) as [[[] | e] s2];
    [| discriminate].
  unfold bind at 1.
  destruct (uniform_fallback video _ max_frames s2) as [[[] | e] s3];
    [| discriminate].
  unfold bind at 1.
  destruct (add_last_frame video s3) as [[[] | e] s4]; [| discriminate].
  unfold sorted_result, bind, get_state, ret.
  intro H. inversion H; subst. split; reflexivity.
Qed.

(** Every returned frame is the decoder's answer for the timestamp returned
    at the same position: sorting keeps frames and timestamps paired. *)
Theorem returned_frames_match_timestamps
  {Frame CapFrame : Type} (gray : CapFrame -> option (list Z))
  (video : Video Frame CapFrame) (max_frames : Z) (files : list nat)
  (fr : list Frame) (ts : list Q) (s' : State Frame) :
  run gray video max_frames files = (Ok (fr, ts), s') ->
  Forall2 (fun f t => get_frame video t = Some f) fr ts.
Proof.
  intro Hrun.
  pose proof (run_keeps gray video
                (fun s => Forall2 (fun f t => get_frame video t = Some f)
                                  (frames s) (timestamps s))) as Hkeep.
  specialize (Hkeep
    ltac:(intros s t Hs; rewrite append_frame_at_run;
          destruct (get_frame video t) eqn:E; simpl; [| exact Hs];
          apply Forall2_app; [exact Hs | constructor; [exact E | constructor]])
    ltac:(intros s fl Hs; exact Hs)
    max_frames files ltac:(constructor)).
  rewrite Hrun in Hkeep. simpl in Hkeep.
  destruct (run_result _ _ _ _ _ _ _ Hrun) as [-> ->].
  apply Forall_pairs_Forall2 with (R := fun f t => get_frame video t = Some f).
  apply sorted_by_Forall.
  exact (Forall2_combine (fun f t => get_frame video t = Some f) _ _ Hkeep).
Qed.

Lemma returned_frames_match_timestamps_witness :
  exists fr ts s',
    run gray_id (clip 10 (Some flicker)) 7 [] = (Ok (fr, ts), s') /\
    Forall2 (fun f t => get_frame (clip 10 (Some flicker)) t = Some f) fr ts.
Proof.
  destruct (run gray_id (clip 10 (Some flicker)) 7 [])
    as [[[fr ts] | e] s'] eqn:E; [| vm_compute in E; discriminate].
  exists fr, ts, s'. split; [reflexivity |].
  exact (returned_frames_match_timestamps
           gray_id (clip 10 (Some flicker)) 7 [] fr ts s' E).
Defined.

(** With a decoder that answers every request, the decoder is asked exactly
    for the timestamps that are returned, once each, and not at all when the
    duration is not positive. *)
Theorem one_decode_per_returned_frame
  {Frame CapFrame : Type} (gray : CapFrame -> option (list Z))
  (video : Video Frame CapFrame) (max_frames : Z) (files : list nat) :
  decodes_all video ->
  exists fr ts s',
    run gray video max_frames files = (Ok (fr, ts), s') /\
    Py.sorted (decode_log s') = ts /\
    (duration video <= 0 -> decode_log s' = []).
Proof.
  intro Hall.
  pose proof (run_keeps gray video
                (fun s => decode_log s = timestamps s)) as Hkeep.
  specialize (Hkeep
    ltac:(intros s t Hs; rewrite append_frame_at_run;
          destruct (get_frame video t) eqn:E; simpl;
          [now rewrite Hs | exfalso; exact (Hall t E)])
    ltac:(intros s fl Hs; exact Hs)
    max_frames files ltac:(reflexivity)).
  destruct (Qlt_le_dec 0 (duration video)) as [Hd | Hd].
  - destruct (run_returns gray video max_frames files Hd Hall)
      as (fr & s' & rest & tail & Hrun & _ & _).
    rewrite Hrun in Hkeep. simpl in Hkeep.
    exists fr, (Py.sorted (timestamps s')), s'.
    split; [exact Hrun |]. split; [now rewrite Hkeep | intro; lra].
  - exists [], [], (initial files).
    split; [now apply run_no_duration |]. split; reflexivity.
Qed.

Lemma one_decode_per_returned_frame_witness :
  decodes_all (clip 10 (Some flicker)) /\
  exists fr ts s',
    run gray_id (clip 10 (Some flicker)) 7 [] = (Ok (fr, ts), s') /\
    Py.sorted (decode_log s') = ts /\
    (duration (clip 10 (Some flicker)) <= 0 -> decode_log s' = []).
Proof.
  assert (Hall : decodes_all (clip 10 (Some flicker)))
    by (intros t H; discriminate).
  split; [exact Hall |].
  exact (one_decode_per_returned_frame
           gray_id (clip 10 (Some flicker)) 7 [] Hall).
Defined.

(** Every returned timestamp lies strictly inside the video, for durations
    between a millisecond and 10^9 seconds.  The bounds keep the duration
    in the range where the subtractions [duration - 1] and [duration - 0.5]
    of the code, made in double precision, do not absorb one of their
    operands. *)
Theorem returned_timestamps_inside_the_video
  {Frame CapFrame : Type} (gray : CapFrame -> option (list Z))
  (video : Video Frame CapFrame) (max_frames : Z) (files : list nat)
  (fr : list Frame) (ts : list Q) (s' : State Frame) :
  1 # 1000 <= duration video -> duration video <= 1000000000 ->
  run gray video max_frames files = (Ok (fr, ts), s') ->
  Forall (fun t => 0 < t /\ t < duration video) ts.
Proof.
  intros Hlo Hhi Hrun.
  destruct (Qlt_le_dec 0 (duration video)) as [Hd | Hd].
  - pose proof (run_post gray video Hd max_frames files _ _ Hrun) as Hpost.
    destruct (get_frame video (first_time_of (duration video))) as [f |];
      [| destruct Hpost as [Hr _]; discriminate].
    destruct Hpost as (_ & _ & (rest & tail & Hfin) & -> & _).
    apply sorted_Forall.
    destruct Hfin as (-> & Hint & _ & _ & _ & Hend).
    pose proof (first_time_bounds _ Hd) as Hf.
    pose proof (last_time_bounds _ Hd) as Hl.
    constructor; [lra |].
    apply Forall_app. split.
    + eapply Forall_impl; [| exact Hint]. intros t [H1 H2]. lra.
    + destruct Hend as [[-> _] | [-> _]]; [| constructor].
      constructor; [lra | constructor].
  - rewrite run_no_duration in Hrun by exact Hd.
    inversion Hrun; subst. constructor.
Qed.

Lemma returned_timestamps_inside_the_video_witness :
  1 # 1000 <= duration (clip 10 (Some flicker)) /\
  duration (clip 10 (Some flicker)) <= 1000000000 /\
  exists fr ts s',
    run gray_id (clip 10 (Some flicker)) 7 [] = (Ok (fr, ts), s') /\
    Forall (fun t => 0 < t /\ t < 10) ts.
Proof.
  assert (Hlo : 1 # 1000 <= duration (clip 10 (Some flicker)))
    by (intro H; discriminate).
  assert (Hhi : duration (clip 10 (Some flicker)) <= 1000000000)
    by (intro H; discriminate).
  split; [exact Hlo |]. split; [exact Hhi |].
  destruct (run gray_id (clip 10 (Some flicker)) 7 [])
    as [[[fr ts] | e] s'] eqn:E; [| vm_compute in E; discriminate].
  exists fr, ts, s'. split; [reflexivity |].
  exact (returned_timestamps_inside_the_video
           gray_id (clip 10 (Some flicker)) 7 [] fr ts s' Hlo Hhi E).
Defined.

Lemma uniform_loop_all_skipped {Frame CapFrame : Type}
      (video : Video Frame CapFrame) (ft step : Q) (existing : list Q)
      (idxs : list Z) (s : State Frame) :
  Forall (fun i =>
            Py.any (fun t =>
                      Py.lt (Py.abs (Py.min (ft + inject_Z i * step)
                                            (duration video - 1) - t)) 1)
                   existing = true) idxs ->
  uniform_loop video ft step idxs existing s = (Ok tt, s).
Proof.
  induction 1 as [| i idxs Hi _ IH]; cbn [uniform_loop]; [reflexivity |].
  now rewrite Hi.
Qed.

(** A video of at least a millisecond and shorter than 1.25 seconds yields
    exactly one frame, the start anchor, whatever [max_frames] is: every
    uniform candidate and the end anchor fall within one second of it.  (The
    lower bound keeps [duration - 1] distinguishable from [-1] in the double
    arithmetic of the code.) *)
Theorem very_short_video_yields_the_start_anchor
  {Frame CapFrame : Type} (gray : CapFrame -> option (list Z))
  (video : Video Frame CapFrame) (max_frames : Z) (files : list nat)
  (f : Frame) :
  1 # 1000 <= duration video -> duration video < 5 # 4 ->
  get_frame video (first_time_of (duration video)) = Some f ->
  let ft := first_time_of (duration video) in
  run gray video max_frames files =
  (Ok ([f], [ft]), mkState [f] [ft] [ft] files).
Proof.
  intros Hlo Hshort Hget ft.
  assert (Hd : 0 < duration video) by lra.
  assert (Hft : ft == duration video * (1 # 10) /\ 0 < ft).
  { unfold ft, first_time_of.
    destruct (PyFacts.min_cases (1 # 2) (duration video * (1 # 10)))
      as [[H ->] | [H ->]]; split; lra. }
  destruct Hft as [Hft Hft0].
  assert (Hnear : forall x, ft - 1 < x -> x < ft + 1 ->
                            Py.lt (Py.abs (x - ft)) 1 = true).
  { intros x H1 H2. apply PyFacts.lt_true. unfold Py.abs.
    apply Qabs_Qlt_condition. split; lra. }
  unfold run, extract_strategic_frames.
  assert (E0 : Qle_bool (duration video) 0 = false).
  { destruct (Qle_bool (duration video) 0) eqn:E; [| reflexivity].
    apply Qle_bool_iff in E. lra. }
  rewrite E0. fold ft. fold ft in Hget.
  unfold bind at 1. rewrite append_frame_at_run, Hget.
  unfold initial; simpl.
  set (s1 := mkState [f] [ft] [ft] files).
  assert (Ht : try_scene_detection gray video ft max_frames s1 = (Ok tt, s1)).
  { unfold try_scene_detection.
    assert (E3 : Py.lt 3 (duration video) = false)
      by (apply PyFacts.lt_false; lra).
    rewrite E3. reflexivity. }
  assert (Hu : uniform_fallback video ft max_frames s1 = (Ok tt, s1)).
  { unfold uniform_fallback, bind, get_state.
    destruct (Py.len (frames s1) <? max_frames - 1)%Z; [| reflexivity].
    destruct (Z.ltb_spec 0 (max_frames - 1 - Py.len (frames s1))) as [Hrem | Hrem];
      [| reflexivity].
    apply uniform_loop_all_skipped.
    pose proof (range1_nonneg (max_frames - 1 - Py.len (frames s1))) as Hnn.
    eapply Forall_impl; [| exact Hnn].
    intros i Hi. cbn [timestamps s1 Py.set fold_left Py.set_add Py.mem existsb app].
    unfold Py.any. cbn [existsb]. rewrite orb_false_r.
    assert (Hprod : 0 <= inject_Z i *
                         (duration video /
                          inject_Z (max_frames - 1 - Py.len (frames s1) + 2))).
    { apply Qmult_le_0_compat.
      - change 0 with (inject_Z 0). now rewrite <- Zle_Qle.
      - apply Qmult_le_0_compat; [lra |].
        apply Qinv_le_0_compat. change 0 with (inject_Z 0).
        rewrite <- Zle_Qle. lia. }
    apply Hnear;
      match goal with
      | |- context [Py.min ?a ?b] =>
          destruct (PyFacts.min_cases a b) as [[Hm ->] | [Hm ->]]
      end; lra. }
  assert (Hl : add_last_frame video s1 = (Ok tt, s1)).
  { unfold add_last_frame, bind, get_state.
    assert (El : Py.any (fun t => Py.lt (Py.abs (last_time_of (duration video) - t)) 1)
                      (timestamps s1) = true).
  { unfold Py.any. cbn [timestamps s1 existsb]. rewrite orb_false_r.
    apply Hnear; unfold last_time_of;
      destruct (PyFacts.max_cases (duration video - (1 # 2))
                                  (duration video * (9 # 10)))
        as [[Hm ->] | [Hm ->]]; lra. }
    rewrite El. reflexivity. }
  unfold bind at 1. rewrite Ht.
  unfold bind at 1. rewrite Hu.
  unfold bind at 1. rewrite Hl.
  reflexivity.
Qed.

Lemma very_short_video_yields_the_start_anchor_witness :
  1 # 1000 <= duration (clip 1 (Some flicker)) /\
  duration (clip 1 (Some flicker)) < 5 # 4 /\
  run gray_id (clip 1 (Some flicker)) 7 [] =
  (Ok ([first_time_of 1], [first_time_of 1]),
   mkState [first_time_of 1] [first_time_of 1] [first_time_of 1] []).
Proof.
  assert (Hd : 1 # 1000 <= duration (clip 1 (Some flicker)))
    by (intro H; discriminate).
  assert (Hs : duration (clip 1 (Some flicker)) < 5 # 4) by reflexivity.
  split; [exact Hd |]. split; [exact Hs |].
  exact (very_short_video_yields_the_start_anchor
           gray_id (clip 1 (Some flicker)) 7 [] _ Hd Hs eq_refl).
Defined.

(** A call leaves the temporary files exactly as it found them whenever
    scene detection is not reached (no positive duration, failed start
    anchor, three seconds or less, no room for middle frames) or its scan
    completes: it never deletes a file that existed before, and the only
    file it can leave behind is the one of a detection that raised. *)
Theorem temp_files_untouched_unless_detection_raises
  {Frame CapFrame : Type} (gray : CapFrame -> option (list Z))
  (video : Video Frame CapFrame) (max_frames : Z) (files : list nat) :
  let d := duration video in
  let ft := first_time_of d in
  (d <= 0 \/ get_frame video ft = None \/
   Py.lt 3 d && (0 <? max_frames - 2)%Z = false \/
   exists cap st,
     write_videofile video (Py.lt 60 d) = Some cap /\
     scan_loop gray d (cap_fps cap) ft
               (min_scene_length_of d (max_frames - 2)) (max_frames - 2)
               (cap_frames cap) scan_init = Ok st) ->
  temp_files (snd (run gray video max_frames files)) = files.
Proof.
  intros d ft Hcase.
  destruct (Qlt_le_dec 0 d) as [Hd | Hd].
  2: { unfold d in Hd. now rewrite run_no_duration. }
  destruct (run gray video max_frames files) as [r s'] eqn:E.
  pose proof (run_post gray video Hd max_frames files r s' E) as Hpost.
  fold d ft in Hpost. simpl snd.
  destruct (get_frame video ft) as [f |] eqn:Ef.
  2: { destruct Hpost as [_ ->]. reflexivity. }
  destruct Hpost as (-> & _).
  destruct Hcase as [Hneg | [Hnone | [Hguard | (cap & st & Hw & Hscan)]]].
  - lra.
  - discriminate.
  - unfold try_scene_detection. fold d. now rewrite Hguard.
  - unfold d, ft in *.
    now rewrite (temp_file_removed_when_scan_completes
                   gray video max_frames _ cap st Hw Hscan).
Qed.

Lemma temp_files_untouched_unless_detection_raises_witness :
  (exists cap st,
      write_videofile (clip 10 (Some flicker)) (Py.lt 60 10) = Some cap /\
      scan_loop gray_id 10 (cap_fps cap) (first_time_of 10)
                (min_scene_length_of 10 (7 - 2)) (7 - 2)
                (cap_frames cap) scan_init = Ok st) /\
  temp_files (snd (run gray_id (clip 10 (Some flicker)) 7 [4%nat; 2%nat])) =
  [4%nat; 2%nat].
Proof.
  assert (H : exists cap st,
             write_videofile (clip 10 (Some flicker)) (Py.lt 60 10) = Some cap /\
             scan_loop gray_id 10 (cap_fps cap) (first_time_of 10)
                       (min_scene_length_of 10 (7 - 2)) (7 - 2)
                       (cap_frames cap) scan_init = Ok st).
  { exists flicker. eexists. split; [reflexivity | vm_compute; reflexivity]. }
  split; [exact H |].
  exact (temp_files_untouched_unless_detection_raises
           gray_id (clip 10 (Some flicker)) 7 [4%nat; 2%nat]
           (or_intror (or_intror (or_intror H)))).
Defined.

(** ** Bounds on the scan *)

Section ScanBounds.

Context {CapFrame : Type} (gray : CapFrame -> option (list Z)).
Variables (d fps ft msl : Q) (mid : Z).

Lemma scan_step_one_more (st st' : Scan CapFrame) (f : CapFrame) (fl : Flow) :
  scan_step gray d fps ft msl mid st f = Ok (st', fl) ->
  (length (scene_timestamps st') <= S (length (scene_timestamps st)))%nat.
Proof.
  unfold scan_step.
  destruct (Qeq_bool fps 0); [discriminate |].
  destruct (Py.lt _ ft); [intro H; inversion H; subst; simpl; lia |].
  destruct (negb _ && _); [intro H; inversion H; subst; simpl; lia |].
  destruct (prev_frame st) as [prev |];
    [| intro H; inversion H; subst; simpl; lia].
  destruct (mean_diff gray prev f) as [diff | e]; [| discriminate].
  destruct (Py.lt threshold diff);
    [| intro H; inversion H; subst; simpl; lia].
  destruct (mid <=? _)%Z; intro H; inversion H; subst; simpl;
    rewrite length_app; simpl; lia.
Qed.

Lemma scan_loop_bounded (fs : list CapFrame) :
  forall st st',
    (Py.len (scene_timestamps st) < mid)%Z ->
    scan_loop gray d fps ft msl mid fs st = Ok st' ->
    (Py.len (scene_timestamps st') <= mid)%Z /\
    (frame_count st <= frame_count st' <=
     frame_count st + Z.of_nat (length fs))%Z.
Proof.
  induction fs as [| f fs IH]; intros st st' Hroom; simpl.
  - intro H. inversion H; subst. lia.
  - destruct (scan_step gray d fps ft msl mid st f) as [[st1 fl] | e] eqn:E;
      [| discriminate].
    destruct (scan_step_progress _ _ _ _ _ _ _ _ _ _ E) as (Hc & _ & _ & Hk).
    pose proof (scan_step_one_more _ _ _ _ E) as Hone.
    destruct fl.
    + intro H. destruct (IH st1 st' (Hk eq_refl Hroom) H) as [H1 H2].
      split; [exact H1 | lia].
    + intro H. inversion H; subst. unfold Py.len in *. lia.
Qed.

(** The scan reports at most [middle_frames] candidates, none before the
    start anchor, in ascending order, and reads no more frames than the
    capture delivers. *)
Theorem scan_reports_at_most_middle_frames
  (fs : list CapFrame) (st : Scan CapFrame) :
  (0 < mid)%Z -> ft <= d -> 1 <= msl ->
  scan_loop gray d fps ft msl mid fs scan_init = Ok st ->
  (Py.len (scene_timestamps st) <= mid)%Z /\
  Forall (fun t => ft <= t) (scene_timestamps st) /\
  StronglySorted Qle (scene_timestamps st) /\
  (0 <= frame_count st <= Z.of_nat (length fs))%Z.
Proof.
  intros Hmid Hft Hmsl Hscan.
  destruct (scan_loop_bounded fs scan_init st Hmid Hscan) as [Hlen Hcount].
  destruct (scan_loop_scenes_ok gray d fps ft msl mid Hft Hmsl fs scan_init st)
    as [Hsort Hbnd]; [split; constructor | exact Hscan |].
  split; [exact Hlen |]. split.
  - eapply Forall_impl; [| exact Hbnd]. now intros t [Ht _].
  - split; [| simpl in Hcount; lia].
    eapply strongly_sorted_weaken; [| exact Hsort].
    intros a b. apply follows_le.
Qed.

End ScanBounds.

Lemma scan_reports_at_most_middle_frames_witness :
  (0 < 2)%Z /\ first_time_of 10 <= 10 /\ 1 <= min_scene_length_of 10 2 /\
  exists st,
    scan_loop gray_id 10 (cap_fps flicker) (first_time_of 10)
              (min_scene_length_of 10 2) 2 (cap_frames flicker) scan_init
    = Ok st /\
    (Py.len (scene_timestamps st) <= 2)%Z /\
    Forall (fun t => first_time_of 10 <= t) (scene_timestamps st) /\
    StronglySorted Qle (scene_timestamps st) /\
    (0 <= frame_count st <= Z.of_nat (length (cap_frames flicker)))%Z.
Proof.
  assert (H1 : (0 < 2)%Z) by lia.
  assert (H2 : first_time_of 10 <= 10) by (vm_compute; discriminate).
  assert (H3 : 1 <= min_scene_length_of 10 2) by (vm_compute; discriminate).
  split; [exact H1 |]. split; [exact H2 |]. split; [exact H3 |].
  destruct (scan_loop gray_id 10 (cap_fps flicker) (first_time_of 10)
              (min_scene_length_of 10 2) 2 (cap_frames flicker) scan_init)
    as [st | e] eqn:E; [| vm_compute in E; discriminate].
  exists st. split; [reflexivity |].
  exact (scan_reports_at_most_middle_frames
           gray_id 10 (cap_fps flicker) (first_time_of 10)
           (min_scene_length_of 10 2) 2 (cap_frames flicker) st H1 H2 H3 E).
Defined.

(** * Properties of the caller and of what it calls *)

(** ** Audio *)

Lemma to_mono_keeps_length (a : NdArray) : nd_len (to_mono a) = nd_len a.
Proof.
  destruct a as [samples | channels rows]; simpl; [reflexivity |].
  destruct (1 <? channels)%nat; simpl; [apply length_map | reflexivity].
Qed.

(** The transcript of a video depends on its audio track only through the
    number of samples and the sample rate: no track gives the sentinel, a
    failing [to_soundarray] gives an error text, fewer samples than one
    second gives "Audio too short to transcribe.", whether the track is
    mono or has several channels. *)
Theorem transcript_decided_by_sample_count (audio : option AudioTrack) :
  extract_and_transcribe_audio audio =
  match audio with
  | None => no_audio_message
  | Some track =>
      match to_soundarray track with
      | Throw msg => ("Error transcribing audio: " ++ msg)%string
      | Val a =>
          if Qle_bool (audio_fps track) (inject_Z (Z.of_nat (nd_len a)))
          then sample_transcription
          else too_short_message
      end
  end.
Proof.
  destruct audio as [track |]; [| reflexivity].
  unfold extract_and_transcribe_audio.
  destruct (to_soundarray track) as [a | msg]; [| reflexivity].
  unfold transcribe_audio, Py.lt. rewrite to_mono_keeps_length.
  destruct (Qle_bool _ _); reflexivity.
Qed.

(** ** Frame analysis *)

Lemma nth_error_combine {A B : Type} (l1 : list A) (l2 : list B) (k : nat) a b :
  nth_error (combine l1 l2) k = Some (a, b) ->
  nth_error l1 k = Some a /\ nth_error l2 k = Some b.
Proof.
  revert l2 k. induction l1 as [| x l1 IH]; intros [| y l2] [| k]; simpl;
    try discriminate.
  - intro H. inversion H; subst. split; reflexivity.
  - apply IH.
Qed.

Section FrameAnalysis.

Context {Frame CapFrame Image Buffer Obj : Type}.
Variable env : Env Frame CapFrame Image Buffer Obj.

Lemma basic_frame_loop_spec (pairs : list (Frame * Q)) :
  forall i acc kfs,
    basic_frame_loop env i pairs acc = Val kfs ->
    exists new,
      kfs = acc ++ new /\ length new = length pairs /\
      forall k fd,
        nth_error new k = Some fd ->
        fd_frame_number fd = (i + Z.of_nat k + 1)%Z /\
        fd_objects fd <> None /\
        exists frame,
          nth_error pairs k = Some (frame, fd_time fd) /\
          imencode env frame = Val (fd_image fd).
Proof.
  induction pairs as [| [frame time] rest IH]; intros i acc kfs; simpl.
  - intro H. inversion H; subst. exists []. rewrite app_nil_r.
    split; [reflexivity |]. split; [reflexivity |].
    intros [| k] fd; discriminate.
  - destruct (to_pil env frame) as [pil |]; simpl; [| discriminate].
    destruct (analyze_image env pil) as [description |]; simpl; [| discriminate].
    destruct (detect_objects env pil) as [objects |]; simpl; [| discriminate].
    destruct (imencode env frame) as [encoded |] eqn:Eenc; simpl; [| discriminate].
    intro H. destruct (IH _ _ _ H) as (new & -> & Hlen & Hnew).
    eexists (_ :: new). rewrite <- app_assoc. split; [reflexivity |].
    split; [simpl; now rewrite Hlen |].
    intros [| k] fd Hk; simpl in Hk.
    + inversion Hk; subst; simpl. split; [lia |]. split; [discriminate |].
      exists frame. split; [reflexivity | exact Eenc].
    + destruct (Hnew k fd Hk) as (Hn & Ho & Hf).
      split; [lia |]. split; [exact Ho | exact Hf].
Qed.

(** When [basic_frame_analysis] returns, it returns one entry per pair of
    frame and timestamp, in order: entry number [k] (from 0) carries the
    frame number [k + 1], the timestamp at position [k], the detected
    objects, and the JPEG of frame [k] when encoding succeeded. *)
Theorem basic_analysis_numbers_frames_in_order
  (frames : list Frame) (timestamps : list Q)
  (kfs : list (FrameData Buffer Obj)) :
  basic_frame_analysis env frames timestamps = Val kfs ->
  length kfs = Nat.min (length frames) (length timestamps) /\
  forall k fd,
    nth_error kfs k = Some fd ->
    fd_frame_number fd = (Z.of_nat k + 1)%Z /\
    nth_error timestamps k = Some (fd_time fd) /\
    fd_objects fd <> None /\
    exists frame,
      nth_error frames k = Some frame /\
      imencode env frame = Val (fd_image fd).
Proof.
  unfold basic_frame_analysis. intro H.
  destruct (basic_frame_loop_spec _ _ _ _ H) as (new & -> & Hlen & Hnew).
  simpl. split; [now rewrite Hlen, length_combine |].
  intros k fd Hk. destruct (Hnew k fd Hk) as (Hn & Ho & frame & Hp & He).
  apply nth_error_combine in Hp. destruct Hp as [Hf Ht].
  split; [lia |]. split; [exact Ht |]. split; [exact Ho |].
  exists frame. split; assumption.
Qed.

(** [basic_frame_analysis] raises exactly when converting, describing,
    detecting or encoding raises for one of the frames it reaches. *)
Lemma basic_frame_loop_total (pairs : list (Frame * Q)) :
  Forall (fun p =>
            exists pil description objects encoded,
              to_pil env (fst p) = Val pil /\
              analyze_image env pil = Val description /\
              detect_objects env pil = Val objects /\
              imencode env (fst p) = Val encoded) pairs ->
  forall i acc, exists kfs, basic_frame_loop env i pairs acc = Val kfs.
Proof.
  induction 1 as [| [frame time] rest (pil & de & ob & en & H1 & H2 & H3 & H4) _ IH];
    intros i acc; simpl.
  - now exists acc.
  - simpl in *. rewrite H1; simpl. rewrite H2; simpl. rewrite H3; simpl.
    rewrite H4; simpl. apply IH.
Qed.

End FrameAnalysis.

(** ** Gemini's video analysis *)

Lemma representative_frames_length {Image : Type} (frames : list Image) :
  length (representative_frames frames) = Nat.min 3 (length frames).
Proof.
  unfold representative_frames.
  destruct (Nat.leb_spec 3 (length frames)) as [H | H]; [| lia].
  destruct frames as [| first rest]; [simpl in H; lia |].
  destruct (nth_error (first :: rest) (length (first :: rest) / 2))
    as [middle |] eqn:Em.
  2: { apply nth_error_None in Em.
       assert (length (first :: rest) / 2 < length (first :: rest))%nat
         by (apply Nat.div_lt; lia).
       lia. }
  destruct (rev (first :: rest)) as [| last r] eqn:Er.
  - apply (f_equal (@length Image)) in Er. rewrite length_rev in Er.
    simpl in Er. lia.
  - cbn [length] in *. lia.
Qed.

Section VideoAnalysis.

Context {Frame CapFrame Image Buffer Obj : Type}.
Variable env : Env Frame CapFrame Image Buffer Obj.

Lemma analyze_frames_spec (info : VideoInfo) (frames : list Image) :
  forall i acc fas,
    analyze_frames env info i frames acc = Val fas ->
    exists new,
      fas = acc ++ new /\ length new = length frames /\
      forall k fa,
        nth_error new k = Some fa ->
        fa_frame_number fa = (Z.of_nat (i + k) + 1)%Z /\
        (forall l, vi_frame_timestamps info = Some l ->
                   nth_error l (i + k) = Some (fa_timestamp fa)) /\
        exists frame,
          nth_error frames k = Some frame /\
          analyze_video_frame env frame = Val (fa_description fa).
Proof.
  induction frames as [| frame rest IH]; intros i acc fas; simpl.
  - intro H. inversion H; subst. exists []. rewrite app_nil_r.
    split; [reflexivity |]. split; [reflexivity |].
    intros [| k] fa; discriminate.
  - destruct (match vi_frame_timestamps info with
              | Some l => match nth_error l i with
                          | Some t => Val t
                          | None => Throw "list index out of range"
                          end
              | None => Val (inject_Z (Z.of_nat i))
              end) as [timestamp |] eqn:Et; simpl; [| discriminate].
    destruct (analyze_video_frame env frame) as [description |] eqn:Ed; simpl;
      [| discriminate].
    intro H. destruct (IH _ _ _ H) as (new & -> & Hlen & Hnew).
    eexists (_ :: new). rewrite <- app_assoc. split; [reflexivity |].
    split; [simpl; now rewrite Hlen |].
    intros [| k] fa Hk; simpl in Hk.
    + inversion Hk; subst; simpl. rewrite Nat.add_0_r.
      split; [reflexivity |]. split.
      * intros l Hl. rewrite Hl in Et.
        destruct (nth_error l i); inversion Et; reflexivity.
      * exists frame. split; [reflexivity | exact Ed].
    + destruct (Hnew k fa Hk) as (Hn & Ht & Hf).
      replace (i + S k)%nat with (S i + k)%nat by lia.
      split; [exact Hn |]. split; [exact Ht | exact Hf].
Qed.

(** A successful video analysis describes at most five frames, the first
    five, numbered from 1 and each with the timestamp at its position; the
    overall analysis is asked for at most three frames, and the detected
    objects are read off its answer.  Without frames, or without Gemini,
    the answer is an error. *)
Theorem video_analysis_covers_the_first_five_frames
  (frames : list Image) (info : VideoInfo)
  (overall : string) (fas : list FrameAnalysis) (objs : list Obj) :
  analyze_video_content env frames info = Analysis overall fas objs ->
  gemini_available env = true /\ frames <> [] /\
  length fas = Nat.min 5 (length frames) /\
  (forall k fa,
      nth_error fas k = Some fa ->
      fa_frame_number fa = (Z.of_nat k + 1)%Z /\
      (forall l, vi_frame_timestamps info = Some l ->
                 nth_error l k = Some (fa_timestamp fa)) /\
      exists frame,
        nth_error frames k = Some frame /\
        analyze_video_frame env frame = Val (fa_description fa)) /\
  generate_overall env info (representative_frames frames) = Val overall /\
  (length (representative_frames frames) <= 3)%nat /\
  objs = extract_objects_from_analysis env overall.
Proof.
  unfold analyze_video_content.
  destruct (gemini_available env); cbn [negb]; [| discriminate].
  destruct frames as [| f0 rest]; [discriminate |].
  cbv beta iota.
  remember (f0 :: rest) as frames eqn:Ef.
  destruct (analyze_frames env info 0 (firstn 5 frames) []) as [fas0 |] eqn:Ea;
    cbn [res_bind]; [| discriminate].
  destruct (generate_overall env info (representative_frames frames))
    as [o |] eqn:Eo; cbn [res_bind]; [| discriminate].
  intro H. inversion H; subst overall fas objs.
  destruct (analyze_frames_spec _ _ _ _ _ Ea) as (new & -> & Hlen & Hnew).
  simpl. split; [reflexivity |]. split; [rewrite Ef; discriminate |].
  split; [rewrite Hlen; apply length_firstn |].
  split.
  - intros k fa Hk. destruct (Hnew k fa Hk) as (Hn & Ht & frame & Hf & Hd).
    simpl in Hn, Ht. split; [exact Hn |]. split; [exact Ht |].
    exists frame. split; [| exact Hd].
    assert (Hk5 : (k < 5)%nat).
    { assert (Hkl : (k < length new)%nat)
        by (apply nth_error_Some; congruence).
      rewrite Hlen, length_firstn in Hkl. lia. }
    rewrite nth_error_firstn in Hf.
    destruct (Nat.ltb_spec k 5); [exact Hf | lia].
  - split; [reflexivity |]. split; [| reflexivity].
    rewrite representative_frames_length. lia.
Qed.

End VideoAnalysis.

(** ** Dictionaries *)

Module PyDictFacts.

Lemma has_In {V : Type} (d : PyDict.t V) (k : string) :
  PyDict.has d k = true <-> In k (map fst d).
Proof.
  unfold PyDict.has. induction d as [| [k' v] d IH]; simpl.
  - split; [discriminate | contradiction].
  - destruct (String.eqb_spec k' k) as [-> | Hne].
    + split; [now left | reflexivity].
    + rewrite IH. split; [now right | intros [H | H]; [congruence | exact H]].
Qed.

(** Assigning to a key that is present keeps the keys and their order. *)
Lemma set_keys {V : Type} (d : PyDict.t V) (k : string) (v : V) :
  In k (map fst d) -> map fst (PyDict.set d k v) = map fst d.
Proof.
  induction d as [| [k' v'] d IH]; simpl; [contradiction |].
  intros [-> | Hin].
  - now rewrite String.eqb_refl.
  - destruct (String.eqb k' k); simpl; [reflexivity | now rewrite IH].
Qed.

Lemma get_set_same {V : Type} (d : PyDict.t V) (k : string) (v : V) :
  PyDict.get (PyDict.set d k v) k = Some v.
Proof.
  induction d as [| [k' v'] d IH]; simpl.
  - now rewrite String.eqb_refl.
  - destruct (String.eqb k' k) eqn:E; simpl; rewrite E; [reflexivity | exact IH].
Qed.

Lemma get_set_other {V : Type} (d : PyDict.t V) (k k' : string) (v : V) :
  k <> k' -> PyDict.get (PyDict.set d k v) k' = PyDict.get d k'.
Proof.
  intro Hne. induction d as [| [k0 v0] d IH]; simpl.
  - destruct (String.eqb_spec k k'); [congruence | reflexivity].
  - destruct (String.eqb_spec k0 k) as [-> | H0]; simpl.
    + destruct (String.eqb_spec k k'); [congruence | reflexivity].
    + destruct (String.eqb k0 k'); [reflexivity | exact IH].
Qed.

End PyDictFacts.

(** ** Subsequences *)

Lemma subseq_refl {A : Type} (l : list A) : subseq l l.
Proof. induction l; constructor; assumption. Qed.

Lemma subseq_nil_l {A : Type} (l : list A) : subseq [] l.
Proof. induction l; constructor; assumption. Qed.

Lemma subseq_length {A : Type} (l1 l2 : list A) :
  subseq l1 l2 -> (length l1 <= length l2)%nat.
Proof. induction 1; simpl; lia. Qed.

Lemma subseq_Forall {A : Type} (P : A -> Prop) (l1 l2 : list A) :
  subseq l1 l2 -> Forall P l2 -> Forall P l1.
Proof.
  induction 1 as [| x l1 l2 _ IH | x l1 l2 _ IH]; intro H.
  - constructor.
  - inversion H; subst. now apply IH.
  - inversion H; subst. constructor; [assumption | now apply IH].
Qed.

Lemma subseq_sorted {A : Type} (R : A -> A -> Prop) (l1 l2 : list A) :
  subseq l1 l2 -> StronglySorted R l2 -> StronglySorted R l1.
Proof.
  induction 1 as [| x l1 l2 Hs IH | x l1 l2 Hs IH]; intro H.
  - constructor.
  - inversion H; subst. now apply IH.
  - inversion H; subst. constructor; [now apply IH |].
    eapply subseq_Forall; eassumption.
Qed.

Lemma subseq_app_l {A : Type} (l0 l1 l2 : list A) :
  subseq l1 l2 -> subseq (l0 ++ l1) (l0 ++ l2).
Proof. intro H. induction l0; simpl; [exact H | now constructor]. Qed.

Lemma skipn_nth {A : Type} (l : list A) (i : nat) (x : A) :
  nth_error l i = Some x -> skipn i l = x :: skipn (S i) l.
Proof.
  revert i. induction l as [| a l IH]; intros [| i] H; simpl in *;
    try discriminate.
  - now inversion H.
  - now apply IH.
Qed.

Lemma subseq_skipn_step {A : Type} (l1 l : list A) (i : nat) :
  subseq l1 (skipn (S i) l) -> subseq l1 (skipn i l).
Proof.
  intro H. destruct (nth_error l i) as [x |] eqn:E.
  - rewrite (skipn_nth _ _ _ E). now constructor.
  - apply nth_error_None in E.
    rewrite skipn_all2 in H by lia. rewrite skipn_all2 by lia. exact H.
Qed.

(** ** What [process_video] receives from the sampler *)

Lemma try_scene_detection_files {Frame CapFrame : Type}
      (gray : CapFrame -> option (list Z)) (video : Video Frame CapFrame)
      (max_frames : Z) (s : State Frame) :
  let s' := snd (try_scene_detection gray video
                   (first_time_of (duration video)) max_frames s) in
  temp_files s' = temp_files s \/
  temp_files s' = temp_files s ++ [fresh_path (temp_files s)].
Proof.
  intro s'. subst s'.
  destruct (Py.lt 3 (duration video) && (0 <? max_frames - 2)%Z) eqn:Eg.
  2: { left. unfold try_scene_detection. now rewrite Eg. }
  destruct (write_videofile video (Py.lt 60 (duration video))) as [cap |] eqn:Ew.
  2: { right. rewrite failed_detection_keeps_temp_file; [reflexivity | exact Eg |].
       unfold detection_raises. now rewrite Ew. }
  destruct (scan_loop gray (duration video) (cap_fps cap)
              (first_time_of (duration video))
              (min_scene_length_of (duration video) (max_frames - 2))
              (max_frames - 2) (cap_frames cap) scan_init) as [st | e] eqn:Es.
  - left. now apply (temp_file_removed_when_scan_completes
                       gray video max_frames s cap st).
  - right. rewrite failed_detection_keeps_temp_file; [reflexivity | exact Eg |].
    unfold detection_raises. rewrite Ew. now exists e.
Qed.

(** A call changes the temporary files by at most one new file. *)
Lemma run_files {Frame CapFrame : Type}
      (gray : CapFrame -> option (list Z)) (video : Video Frame CapFrame)
      (max_frames : Z) (files : list nat) :
  let s' := snd (run gray video max_frames files) in
  temp_files s' = files \/ temp_files s' = files ++ [fresh_path files].
Proof.
  intro s'. subst s'.
  destruct (Qlt_le_dec 0 (duration video)) as [Hd | Hd].
  2: { left. now rewrite run_no_duration. }
  destruct (run gray video max_frames files) as [r s'] eqn:E.
  pose proof (run_post gray video Hd max_frames files r s' E) as Hpost.
  simpl snd.
  destruct (get_frame video (first_time_of (duration video))) as [f |].
  - destruct Hpost as (-> & _).
    apply (try_scene_detection_files gray video max_frames
             (mkState [f] [first_time_of (duration video)]
                      [first_time_of (duration video)] files)).
  - destruct Hpost as [_ ->]. now left.
Qed.

(** What a returned list looks like, for the default budget of the
    caller. *)
Lemma run_ok_shape {Frame CapFrame : Type}
      (gray : CapFrame -> option (list Z)) (video : Video Frame CapFrame)
      (max_frames : Z) (files : list nat) fr ts s' :
  run gray video max_frames files = (Ok (fr, ts), s') ->
  length fr = length ts /\
  (Z.of_nat (length ts) <= Z.max 2 max_frames)%Z /\
  StronglySorted Qlt ts.
Proof.
  intro Hrun.
  assert (Hsorted : StronglySorted Qlt ts).
  { pose proof (run_outcome gray video max_frames files) as H.
    rewrite Hrun in H.
    eapply strongly_sorted_weaken; [| exact H].
    intros a b Hab. simpl in Hab. lra. }
  destruct (Qlt_le_dec 0 (duration video)) as [Hd | Hd].
  - pose proof (run_post gray video Hd max_frames files _ _ Hrun) as Hpost.
    destruct (get_frame video (first_time_of (duration video))) as [f |];
      [| destruct Hpost as [Hr _]; discriminate].
    destruct Hpost as (_ & _ & (rest & tail & Hfin) & Hts & Hlen).
    split; [exact Hlen |]. split; [| exact Hsorted].
    rewrite Hts, length_sorted.
    destruct Hfin as (-> & _ & _ & Hn & _ & Hend).
    simpl length. rewrite length_app.
    destruct Hend as [[-> _] | [-> _]]; simpl length; lia.
  - rewrite run_no_duration in Hrun by exact Hd.
    inversion Hrun; subst. simpl. split; [reflexivity |].
    split; [lia | constructor].
Qed.

(** ** Numbering of analysed frames *)

Lemma sorted_numbers_count (n : Z) (l : list Z) :
  StronglySorted Z.lt l ->
  forall lo, Forall (fun m => (lo <= m <= n)%Z) l ->
             (Z.of_nat (length l) <= Z.max 0 (n - lo + 1))%Z.
Proof.
  induction 1 as [| b l Hs IH Hb]; intros lo Hf; simpl length; [lia |].
  inversion Hf as [| ? ? Hbn Hfl]; subst.
  assert (Hnext : Forall (fun m => (b + 1 <= m <= n)%Z) l).
  { rewrite Forall_forall in *. intros m Hm.
    specialize (Hb _ Hm). specialize (Hfl _ Hm). lia. }
  specialize (IH (b + 1)%Z Hnext). lia.
Qed.

Lemma ordered_key_frames_length {Buffer Obj : Type} (n : Z)
      (kfs : list (FrameData Buffer Obj)) :
  ordered_key_frames n kfs -> (Z.of_nat (length kfs) <= Z.max 0 n)%Z.
Proof.
  intros (_ & Hs & Hb).
  pose proof (sorted_numbers_count n _ Hs 1%Z Hb) as H.
  rewrite length_map in H. lia.
Qed.

Section Numbering.

Context {Frame CapFrame Image Buffer Obj : Type}.
Variable env : Env Frame CapFrame Image Buffer Obj.

Lemma basic_frame_loop_order (pairs : list (Frame * Q)) :
  forall i acc kfs,
    basic_frame_loop env i pairs acc = Val kfs ->
    exists new,
      kfs = acc ++ new /\
      map fd_time new = map snd pairs /\
      StronglySorted Z.lt (map fd_frame_number new) /\
      Forall (fun m => (i + 1 <= m <= i + Z.of_nat (length pairs))%Z)
             (map fd_frame_number new).
Proof.
  induction pairs as [| [frame time] rest IH]; intros i acc kfs;
    cbn [basic_frame_loop].
  - intro H. inversion H; subst. exists []. rewrite app_nil_r.
    repeat split; constructor.
  - destruct (to_pil env frame) as [pil |]; cbn [res_bind]; [| discriminate].
    destruct (analyze_image env pil) as [description |]; cbn [res_bind];
      [| discriminate].
    destruct (detect_objects env pil) as [objects |]; cbn [res_bind];
      [| discriminate].
    destruct (imencode env frame) as [encoded |]; cbn [res_bind];
      [| discriminate].
    intro H. destruct (IH _ _ _ H) as (new & -> & Ht & Hs & Hb).
    eexists (_ :: new). rewrite <- app_assoc. split; [reflexivity |].
    cbn [map fd_time fd_frame_number snd length].
    split; [now rewrite Ht |]. split.
    + constructor; [exact Hs |].
      eapply Forall_impl; [| exact Hb]. intros m Hm. simpl in Hm. lia.
    + constructor; [lia |].
      eapply Forall_impl; [| exact Hb]. intros m Hm. simpl in Hm. lia.
Qed.

Lemma analyze_frames_order (info : VideoInfo) (frames : list Image) :
  forall i acc fas,
    analyze_frames env info i frames acc = Val fas ->
    exists new,
      fas = acc ++ new /\ length new = length frames /\
      StronglySorted Z.lt (map fa_frame_number new) /\
      Forall (fun m => (Z.of_nat i + 1 <= m
                        <= Z.of_nat i + Z.of_nat (length frames))%Z)
             (map fa_frame_number new).
Proof.
  induction frames as [| frame rest IH]; intros i acc fas;
    cbn [analyze_frames].
  - intro H. inversion H; subst. exists []. rewrite app_nil_r.
    repeat split; constructor.
  - destruct (match vi_frame_timestamps info with
              | Some l => match nth_error l i with
                          | Some t => Val t
                          | None => Throw "list index out of range"
                          end
              | None => Val (inject_Z (Z.of_nat i))
              end) as [timestamp |]; cbn [res_bind]; [| discriminate].
    destruct (analyze_video_frame env frame) as [description |];
      cbn [res_bind]; [| discriminate].
    intro H. destruct (IH _ _ _ H) as (new & -> & Hl & Hs & Hb).
    eexists (_ :: new). rewrite <- app_assoc. split; [reflexivity |].
    cbn [map fa_frame_number length].
    split; [now rewrite Hl |]. split.
    + constructor; [exact Hs |].
      eapply Forall_impl; [| exact Hb]. intros m Hm. cbv beta in Hm. lia.
    + constructor; [lia |].
      eapply Forall_impl; [| exact Hb]. intros m Hm. cbv beta in Hm. lia.
Qed.

(** The frame analyses of a successful video analysis are numbered in
    increasing order, between 1 and 5. *)
Lemma analysis_numbers (frames : list Image) (info : VideoInfo)
      overall fas (objs : list Obj) :
  analyze_video_content env frames info = Analysis overall fas objs ->
  StronglySorted Z.lt (map fa_frame_number fas) /\
  Forall (fun m => (1 <= m <= 5)%Z) (map fa_frame_number fas).
Proof.
  unfold analyze_video_content.
  destruct (gemini_available env); cbn [negb]; [| discriminate].
  destruct frames as [| f0 rest]; [discriminate |].
  cbv beta iota.
  remember (f0 :: rest) as frames eqn:Ef.
  destruct (analyze_frames env info 0 (firstn 5 frames) []) as [fas0 |] eqn:Ea;
    cbn [res_bind]; [| discriminate].
  destruct (generate_overall env info (representative_frames frames))
    as [o |]; cbn [res_bind]; [| discriminate].
  intro H. inversion H; subst overall fas objs.
  destruct (analyze_frames_order _ _ _ _ _ Ea) as (new & -> & Hl & Hs & Hb).
  simpl app. split; [exact Hs |].
  eapply Forall_impl; [| exact Hb]. intros m Hm.
  pose proof (firstn_le_length 5 frames) as H5. cbv beta in Hm. lia.
Qed.

(** The loop that copies Gemini's frame analyses into the result. *)
Lemma gemini_key_frames_spec (frames : list Frame) (ts : list Q)
      (fas : list FrameAnalysis) :
  forall i (results results' : Results Buffer Obj),
    gemini_key_frames env frames ts i fas results = Val results' ->
    map fst results' = map fst results /\
    (forall k, k <> "key_frames"%string ->
               PyDict.get results' k = PyDict.get results k) /\
    exists new,
      key_frames_of results' = key_frames_of results ++ new /\
      subseq (map fd_time new) (skipn i ts) /\
      subseq (map fd_frame_number new) (map fa_frame_number fas).
Proof.
  induction fas as [| fa rest IH]; intros i results results';
    cbn [gemini_key_frames].
  - intro H. inversion H; subst. split; [reflexivity |].
    split; [reflexivity |]. exists []. rewrite app_nil_r.
    split; [reflexivity |]. split; [apply subseq_nil_l | constructor].
  - assert (Hskip :
      gemini_key_frames env frames ts (S i) rest results = Val results' ->
      map fst results' = map fst results /\
      (forall k, k <> "key_frames"%string ->
                 PyDict.get results' k = PyDict.get results k) /\
      exists new,
        key_frames_of results' = key_frames_of results ++ new /\
        subseq (map fd_time new) (skipn i ts) /\
        subseq (map fd_frame_number new) (map fa_frame_number (fa :: rest))).
    { intro H. destruct (IH _ _ _ H) as (H1 & H2 & new & H3 & H4 & H5).
      split; [exact H1 |]. split; [exact H2 |].
      exists new. split; [exact H3 |].
      split; [now apply subseq_skipn_step | now constructor]. }
    destruct (nth_error frames i) as [frame |]; [| exact Hskip].
    destruct (imencode env frame) as [[buffer |] |]; cbn [res_bind];
      [| exact Hskip | discriminate].
    destruct (nth_error ts i) as [time |] eqn:Et; cbn [res_bind];
      [| discriminate].
    unfold append_key_frame at 1.
    destruct (PyDict.get results "key_frames") as [[| | | l |] |] eqn:Eg;
      cbn [res_bind]; try discriminate.
    intro H. destruct (IH _ _ _ H) as (H1 & H2 & new & H3 & H4 & H5).
    assert (Hin : In "key_frames"%string (map fst results)).
    { apply PyDictFacts.has_In. unfold PyDict.has. now rewrite Eg. }
    split; [now rewrite H1, PyDictFacts.set_keys |].
    split.
    { intros k Hk. rewrite H2 by exact Hk.
      apply PyDictFacts.get_set_other. congruence. }
    eexists (_ :: new). split.
    + rewrite H3. unfold key_frames_of at 1 2.
      rewrite PyDictFacts.get_set_same, Eg, <- app_assoc. reflexivity.
    + cbn [map fd_time fd_frame_number].
      rewrite (skipn_nth _ _ _ Et). split; now constructor.
Qed.

End Numbering.

(** ** [process_video] *)

Section ProcessVideo.

Context {Frame CapFrame Image Buffer Obj : Type}.
Variable gray : CapFrame -> option (list Z).
Variable env : Env Frame CapFrame Image Buffer Obj.

(** What the frames block does to the world is what the sampler does to
    the temporary files. *)
Lemma analyze_frames_block_world
      (video : Video Frame CapFrame) (fps : Q) (width height : Z)
      (results : Results Buffer Obj) (w : World) r w' :
  analyze_frames_block gray env video fps width height results w = (r, w') ->
  open_clips w' = open_clips w /\
  (disk w' = disk w \/ disk w' = disk w ++ [fresh_path (disk w)]).
Proof.
  unfold analyze_frames_block, pbind, call_sampler, plift, pret.
  pose proof (run_files gray video 7 (disk w)) as Hfiles. cbv zeta in Hfiles.
  destruct (run gray video 7 (disk w)) as [[[fr ts] | e] s]; simpl snd in Hfiles.
  2: { intro H. inversion H; subst. now split. }
  destruct (gemini_available env).
  - destruct (res_map (to_pil env) fr) as [pil |].
    2: { intro H. inversion H; subst. now split. }
    destruct (analyze_video_content env pil _) as [msg | o fas objs].
    + intro H. inversion H; subst. now split.
    + destruct (gemini_key_frames env fr ts 0 fas _) as [results2 |];
        intro H; inversion H; subst; now split.
  - destruct (basic_frame_analysis env fr ts) as [kfs |];
      intro H; inversion H; subst; now split.
Qed.

Lemma key_frames_of_set_other (results : Results Buffer Obj) (k : string)
      (v : Value Buffer Obj) :
  k <> "key_frames"%string ->
  key_frames_of (PyDict.set results k v) = key_frames_of results.
Proof.
  intro Hk. unfold key_frames_of.
  now rewrite PyDictFacts.get_set_other.
Qed.

(** What the frames block does to the result when it returns. *)
Lemma analyze_frames_block_result
      (video : Video Frame CapFrame) (fps : Q) (width height : Z)
      (results results' : Results Buffer Obj) (w w' : World) :
  map fst results = result_keys ->
  key_frames_of results = [] ->
  analyze_frames_block gray env video fps width height results w
  = (Val results', w') ->
  map fst results' = result_keys /\
  PyDict.get results' "transcript" = PyDict.get results "transcript" /\
  ordered_key_frames (if gemini_available env then 5 else 7)
                     (key_frames_of results') /\
  (gemini_available env = false ->
   PyDict.get results' "summary" = PyDict.get results "summary").
Proof.
  intros Hkeys Hkf.
  assert (Hin : forall k, In k result_keys -> In k (map fst results))
    by (intros k Hk; now rewrite Hkeys).
  unfold analyze_frames_block, pbind, call_sampler, plift, pret.
  destruct (run gray video 7 (disk w)) as [[[fr ts] | e] s] eqn:Erun;
    [| discriminate].
  destruct (run_ok_shape _ _ _ _ _ _ _ Erun) as (Hlen & Hseven & Hsorted).
  destruct (gemini_available env).
  - destruct (res_map (to_pil env) fr) as [pil |]; [| discriminate].
    destruct (analyze_video_content env pil _) as [msg | o fas objs] eqn:Ea.
    + intro H. inversion H; subst results' w'.
      split; [exact Hkeys |]. split; [reflexivity |].
      split; [| discriminate].
      rewrite Hkf. repeat split; constructor.
    + destruct (gemini_key_frames env fr ts 0 fas _) as [results2 |] eqn:Eg;
        [| discriminate].
      intro H. inversion H; subst results' w'.
      destruct (gemini_key_frames_spec _ _ _ _ _ _ _ Eg)
        as (Hk2 & Hother & new & Hnew & Htimes & Hnums).
      rewrite PyDictFacts.set_keys in Hk2 by (apply Hin; simpl; tauto).
      split.
      { rewrite PyDictFacts.set_keys; [now rewrite Hk2 |].
        rewrite Hk2. apply Hin. simpl. tauto. }
      split.
      { rewrite PyDictFacts.get_set_other by discriminate.
        rewrite Hother by discriminate.
        now rewrite PyDictFacts.get_set_other by discriminate. }
      split; [| discriminate].
      rewrite key_frames_of_set_other by discriminate.
      rewrite Hnew, key_frames_of_set_other, Hkf by discriminate.
      simpl app.
      destruct (analysis_numbers _ _ _ _ _ _ Ea) as [Hfs Hfb].
      split; [| split].
      * eapply subseq_sorted; [exact Htimes | exact Hsorted].
      * eapply subseq_sorted; [exact Hnums | exact Hfs].
      * eapply subseq_Forall; [exact Hnums | exact Hfb].
  - destruct (basic_frame_analysis env fr ts) as [kfs |] eqn:Eb;
      [| discriminate].
    intro H. inversion H; subst results' w'.
    split; [rewrite PyDictFacts.set_keys; [exact Hkeys | apply Hin; simpl; tauto] |].
    split; [now rewrite PyDictFacts.get_set_other by discriminate |].
    split; [| intros _; now rewrite PyDictFacts.get_set_other by discriminate].
    unfold key_frames_of. rewrite PyDictFacts.get_set_same.
    unfold basic_frame_analysis in Eb.
    destruct (basic_frame_loop_order _ _ _ _ _ Eb) as (new & -> & Ht & Hs & Hb).
    simpl app. rewrite map_snd_combine in Ht by exact Hlen.
    split; [now rewrite Ht |]. split; [exact Hs |].
    eapply Forall_impl; [| exact Hb]. intros m Hm. cbv beta in Hm.
    rewrite length_combine in Hm. lia.
Qed.

(** The result dictionary is created with a [summary] key, so the block
    that would call [summarize_text] is never entered. *)
Lemma summary_block_skipped (options : Options) (results : Results Buffer Obj) :
  In "summary"%string (map fst results) ->
  summary_block env options results = Val results.
Proof.
  intro Hin. unfold summary_block.
  apply PyDictFacts.has_In in Hin. now rewrite Hin.
Qed.

(** What the [try] block leaves behind, however it ends. *)
Lemma process_video_try_post (temp_path : nat) (options : Options)
      (w1 w2 : World) r :
  process_video_try gray env temp_path options w1 = (r, w2) ->
  (disk w2 = disk w1 \/ disk w2 = disk w1 ++ [fresh_path (disk w1)]) /\
  match r with
  | Val results =>
      map fst results = result_keys /\
      open_clips w2 = open_clips w1 /\
      ordered_key_frames (if gemini_available env then 5 else 7)
                         (key_frames_of results) /\
      (gemini_available env = false ->
       PyDict.get results "summary" = Some (VStr "")) /\
      exists clip,
        open_clip env temp_path = Val clip /\
        PyDict.get results "transcript" =
        Some (VStr (if PyDict.get_default options "extract_audio" true
                       && PyDict.get_default options "transcribe_audio" true
                    then extract_and_transcribe_audio (clip_audio clip)
                    else ""))
  | Throw msg =>
      (open_clip env temp_path = Throw msg /\ w2 = w1) \/
      (exists clip, open_clip env temp_path = Val clip /\
                    open_clips w2 = S (open_clips w1))
  end.
Proof.
  unfold process_video_try, pbind at 1, open_video.
  destruct (open_clip env temp_path) as [clip | msg0] eqn:Eopen.
  2: { intro H. inversion H; subst. split; [now left |]. left. now split. }
  destruct (clip_size clip) as [width height].
  set (w1' := mkWorld (disk w1) (S (open_clips w1))).
  match goal with
  | |- context [pbind _ _ w1'] => idtac
  end.
  set (results0 :=
         [("file_type"%string, VStr "video");
          ("duration"%string, VNum (duration (clip_video clip)));
          ("fps"%string, VNum (clip_fps clip));
          ("width"%string, VInt width);
          ("height"%string, VInt height);
          ("frame_count"%string,
           VInt (py_int (duration (clip_video clip) * clip_fps clip)));
          ("key_frames"%string, VFrames []);
          ("transcript"%string, VStr "");
          ("summary"%string, VStr "");
          ("objects_detected"%string, VObjects [])] : Results Buffer Obj).
  assert (Hblock :
    forall r1 w1'',
      (if PyDict.get_default options "analyze_video_frames" true
       then analyze_frames_block gray env (clip_video clip) (clip_fps clip)
                                 width height results0
       else pret results0) w1' = (r1, w1'') ->
      open_clips w1'' = S (open_clips w1) /\
      (disk w1'' = disk w1 \/ disk w1'' = disk w1 ++ [fresh_path (disk w1)]) /\
      forall results1,
        r1 = Val results1 ->
        map fst results1 = result_keys /\
        PyDict.get results1 "transcript" = Some (VStr "") /\
        ordered_key_frames (if gemini_available env then 5 else 7)
                           (key_frames_of results1) /\
        (gemini_available env = false ->
         PyDict.get results1 "summary" = Some (VStr ""))).
  { intros r1 w1''.
    destruct (PyDict.get_default options "analyze_video_frames" true).
    - intro Hb.
      destruct (analyze_frames_block_world _ _ _ _ _ _ _ _ Hb) as [Ho Hd].
      split; [exact Ho |]. split; [exact Hd |].
      intros results1 ->.
      destruct (analyze_frames_block_result _ _ _ _ results0 _ _ _
                  eq_refl eq_refl Hb) as (Hk & Ht & Hord & Hsum).
      split; [exact Hk |]. split; [exact Ht |]. split; [exact Hord |].
      exact Hsum.
    - intro Hb. inversion Hb; subst. split; [reflexivity |].
      split; [now left |]. intros results1 Hr. inversion Hr; subst.
      split; [reflexivity |]. split; [reflexivity |].
      split; [| reflexivity].
      destruct (gemini_available env); repeat split; constructor. }
  unfold pbind at 1.
  destruct ((if PyDict.get_default options "analyze_video_frames" true
             then analyze_frames_block gray env (clip_video clip)
                                       (clip_fps clip) width height results0
             else pret results0) w1') as [r1 w1''] eqn:Eb.
  destruct (Hblock _ _ eq_refl) as (Ho & Hd & Hres). clear Hblock.
  destruct r1 as [results1 | msg1].
  2: { intro H. inversion H; subst. split; [exact Hd |].
       right. exists clip. now split. }
  destruct (Hres results1 eq_refl) as (Hk & Ht & Hord & Hsum).
  assert (Hin : forall k, In k result_keys -> In k (map fst results1))
    by (intros k Hkk; now rewrite Hk).
  set (results2 :=
         if PyDict.get_default options "extract_audio" true
            && PyDict.get_default options "transcribe_audio" true
         then PyDict.set results1 "transcript"
                (VStr (extract_and_transcribe_audio (clip_audio clip)))
         else results1).
  assert (Hk2 : map fst results2 = result_keys).
  { unfold results2. destruct (_ && _); [| exact Hk].
    rewrite PyDictFacts.set_keys; [exact Hk | apply Hin; simpl; tauto]. }
  unfold pbind at 1, plift.
  rewrite summary_block_skipped
    by (rewrite Hk2; simpl; tauto).
  unfold pbind, close_video, pret.
  intro H. inversion H; subst. simpl disk. simpl open_clips.
  split; [exact Hd |]. split; [exact Hk2 |].
  split; [rewrite Ho; reflexivity |].
  unfold results2.
  destruct (PyDict.get_default options "extract_audio" true
            && PyDict.get_default options "transcribe_audio" true).
  - split; [now rewrite key_frames_of_set_other by discriminate |].
    split.
    + intro Hg. rewrite PyDictFacts.get_set_other by discriminate.
      now apply Hsum.
    + exists clip. split; [reflexivity |].
      apply PyDictFacts.get_set_same.
  - split; [exact Hord |]. split; [exact Hsum |].
    exists clip. split; [reflexivity | exact Ht].
Qed.

End ProcessVideo.

Lemma remove_if_exists_twice (path : nat) (w : World) :
  remove_if_exists path (remove_if_exists path w) = remove_if_exists path w.
Proof.
  unfold remove_if_exists; simpl. f_equal.
  induction (disk w) as [| p l IH]; simpl; [reflexivity |].
  destruct (Nat.eqb p path) eqn:E; simpl; [exact IH |].
  rewrite E. simpl. now rewrite IH.
Qed.

Lemma fresh_of_extended (files : list nat) :
  fresh_path (files ++ [fresh_path files]) <> fresh_path files.
Proof.
  intro H.
  apply (fresh_path_is_fresh (files ++ [fresh_path files])).
  rewrite H. apply in_or_app. right. now left.
Qed.

(** The disk after the [finally] clause, from the disk after the [try]
    block. *)
Lemma upload_removed (files : list nat) (w2 : World) :
  disk w2 = files ++ [fresh_path files] \/
  disk w2 = (files ++ [fresh_path files])
            ++ [fresh_path (files ++ [fresh_path files])] ->
  let d' := disk (remove_if_exists (fresh_path files) w2) in
  ~ In (fresh_path files) d' /\
  (d' = files \/ d' = files ++ [fresh_path (files ++ [fresh_path files])]).
Proof.
  intros [H | H] d'; subst d'; unfold remove_if_exists; simpl; rewrite H.
  - rewrite remove_fresh_path. split; [apply fresh_path_is_fresh | now left].
  - rewrite filter_app, remove_fresh_path. cbn [filter].
    destruct (Nat.eqb_spec (fresh_path (files ++ [fresh_path files]))
                           (fresh_path files)) as [E | E].
    + exfalso. exact (fresh_of_extended files E).
    + cbn [negb]. split; [| right; reflexivity].
      intro Hin. apply in_app_or in Hin. destruct Hin as [Hin | [Hin | []]].
      * exact (fresh_path_is_fresh files Hin).
      * exact (E Hin).
Qed.

(** Whatever happens, and whatever the options are, [process_video]
    deletes the temporary copy of the upload that it created, deletes
    nothing else, and leaves behind at most one other file: the one of a
    scene detection that raised. *)
Theorem process_video_removes_its_upload
  {Frame CapFrame Image Buffer Obj : Type}
  (gray : CapFrame -> option (list Z))
  (env : Env Frame CapFrame Image Buffer Obj)
  (options : Options) (w : World) :
  let w' := snd (process_video gray env options w) in
  let upload := fresh_path (disk w) in
  ~ In upload (disk w') /\
  (disk w' = disk w \/
   disk w' = disk w ++ [fresh_path (disk w ++ [upload])]).
Proof.
  intros w' upload. subst w' upload. unfold process_video.
  destruct (process_video_try gray env (fresh_path (disk w)) options
              (mkWorld (disk w ++ [fresh_path (disk w)]) (open_clips w)))
    as [r w2] eqn:E.
  destruct (process_video_try_post _ _ _ _ _ _ _ E) as [Hd _].
  simpl disk in Hd.
  destruct r as [results | msg]; simpl snd.
  - now apply upload_removed.
  - rewrite remove_if_exists_twice. now apply upload_removed.
Qed.

(** The key frames of every result are in strictly increasing order of
    time and of frame number, numbered within 1..5 when Gemini analysed the
    video and within 1..7 otherwise; so there are at most five, respectively
    seven, of them. *)
Theorem process_video_key_frames_are_ordered
  {Frame CapFrame Image Buffer Obj : Type}
  (gray : CapFrame -> option (list Z))
  (env : Env Frame CapFrame Image Buffer Obj)
  (options : Options) (w : World) :
  let kfs := key_frames_of (fst (process_video gray env options w)) in
  let n := (if gemini_available env then 5 else 7)%Z in
  ordered_key_frames n kfs /\ (Z.of_nat (length kfs) <= n)%Z.
Proof.
  intros kfs n.
  assert (H : ordered_key_frames n kfs).
  { subst kfs n. unfold process_video.
    destruct (process_video_try gray env (fresh_path (disk w)) options
                (mkWorld (disk w ++ [fresh_path (disk w)]) (open_clips w)))
      as [r w2] eqn:E.
    destruct (process_video_try_post _ _ _ _ _ _ _ E) as [_ Hr].
    destruct r as [results | msg]; simpl fst.
    - apply Hr.
    - unfold key_frames_of. cbn. repeat split; constructor. }
  split; [exact H |].
  pose proof (ordered_key_frames_length n kfs H) as Hl.
  subst n. destruct (gemini_available env); lia.
Qed.

(** [process_video] returns one of two dictionaries.  If the clip cannot be
    opened, it is the error dictionary with the text of that exception and
    the world is as before the call.  Otherwise it is either the full
    result with its ten keys, the clip closed again, or the error
    dictionary, and then the clip that was opened is never closed. *)
Theorem process_video_result_shape
  {Frame CapFrame Image Buffer Obj : Type}
  (gray : CapFrame -> option (list Z))
  (env : Env Frame CapFrame Image Buffer Obj)
  (options : Options) (w : World) :
  let r := process_video gray env options w in
  match open_clip env (fresh_path (disk w)) with
  | Throw msg =>
      fst r = error_result msg /\
      disk (snd r) = disk w /\ open_clips (snd r) = open_clips w
  | Val _ =>
      (map fst (fst r) = result_keys /\ open_clips (snd r) = open_clips w) \/
      (exists msg, fst r = error_result msg /\
                   open_clips (snd r) = S (open_clips w))
  end.
Proof.
  intro r. subst r. unfold process_video.
  destruct (process_video_try gray env (fresh_path (disk w)) options
              (mkWorld (disk w ++ [fresh_path (disk w)]) (open_clips w)))
    as [r w2] eqn:E.
  destruct (process_video_try_post _ _ _ _ _ _ _ E) as [_ Hr].
  destruct r as [results | msg]; cbn [fst snd].
  - destruct Hr as (Hkeys & Hopen & _ & _ & clip & Hclip & _).
    rewrite Hclip. left. split; [exact Hkeys | exact Hopen].
  - destruct Hr as [[Hclip ->] | (clip & Hclip & Hopen)]; rewrite Hclip.
    + split; [reflexivity |]. split; [| reflexivity].
      unfold remove_if_exists. cbn [disk].
      rewrite remove_fresh_path. apply filter_absent, fresh_path_is_fresh.
    + right. exists msg. split; [reflexivity | exact Hopen].
Qed.

Lemma summary_block_summarizer
  {Frame CapFrame Image Buffer Obj : Type}
  (env : Env Frame CapFrame Image Buffer Obj)
  (f : string -> Res string) (options : Options)
  (results : Results Buffer Obj) (flag : bool) (v : Value Buffer Obj) :
  map fst results = result_keys ->
  summary_block (with_summarizer env f) options
    (if flag then PyDict.set results "transcript" v else results) =
  summary_block env options
    (if flag then PyDict.set results "transcript" v else results).
Proof.
  intro Hkeys.
  assert (Hin : In "summary"%string
                   (map fst (if flag then PyDict.set results "transcript" v
                             else results))).
  { destruct flag.
    - rewrite PyDictFacts.set_keys;
        rewrite Hkeys; unfold result_keys; simpl; tauto.
    - rewrite Hkeys. unfold result_keys. simpl. tauto. }
  now rewrite !summary_block_skipped.
Qed.

Lemma process_video_try_summarizer
  {Frame CapFrame Image Buffer Obj : Type}
  (gray : CapFrame -> option (list Z))
  (env : Env Frame CapFrame Image Buffer Obj)
  (f : string -> Res string)
  (temp_path : nat) (options : Options) (w : World) :
  process_video_try gray (with_summarizer env f) temp_path options w =
  process_video_try gray env temp_path options w.
Proof.
  unfold process_video_try.
  change (open_video (with_summarizer env f) temp_path)
    with (open_video env temp_path).
  unfold pbind.
  destruct (open_video env temp_path w) as [[clip | msg] w1]; [| reflexivity].
  destruct (clip_size clip) as [width height].
  change (analyze_frames_block gray (with_summarizer env f))
    with (analyze_frames_block gray env).
  destruct (PyDict.get_default options "analyze_video_frames" true).
  - match goal with
    | |- context [analyze_frames_block gray env ?v ?a ?b ?c ?res w1] =>
        destruct (analyze_frames_block gray env v a b c res w1)
          as [[results1 | msg] w2] eqn:Eb; [| reflexivity];
        pose proof (fun H1 H2 =>
                      analyze_frames_block_result gray env _ _ _ _ _ _ _ _
                        H1 H2 Eb) as Hres;
        destruct (Hres eq_refl eq_refl) as [Hkeys _]
    end.
    now rewrite (summary_block_summarizer env f options results1 _ _ Hkeys).
  - unfold pret. cbv beta iota.
    match goal with
    | |- context [summary_block (with_summarizer env f) options ?res] =>
        match res with
        | (if ?b then PyDict.set ?r _ ?v else _) =>
            assert (Hs : summary_block (with_summarizer env f) options res =
                         summary_block env options res)
              by exact (summary_block_summarizer env f options r b v eq_refl)
        end
    end.
    now rewrite Hs.
Qed.

(** [process_video] never calls [summarize_text]: the result and the world
    are the same whatever that function would do, for all options, because
    the dictionary has the key 'summary' from the start. *)
Theorem process_video_ignores_the_summarizer
  {Frame CapFrame Image Buffer Obj : Type}
  (gray : CapFrame -> option (list Z))
  (env : Env Frame CapFrame Image Buffer Obj)
  (f : string -> Res string) (options : Options) (w : World) :
  process_video gray (with_summarizer env f) options w =
  process_video gray env options w.
Proof.
  unfold process_video. now rewrite process_video_try_summarizer.
Qed.

(** Without Gemini the 'summary' of a result is always the empty string,
    also when the option 'generate_video_summary' asks for one: the basic
    analysis does not write it and the summary step is skipped. *)
Theorem without_gemini_the_summary_stays_empty
  {Frame CapFrame Image Buffer Obj : Type}
  (gray : CapFrame -> option (list Z))
  (env : Env Frame CapFrame Image Buffer Obj)
  (options : Options) (w : World) :
  gemini_available env = false ->
  let results := fst (process_video gray env options w) in
  PyDict.get results "summary" = Some (VStr "") \/
  exists msg, results = error_result msg.
Proof.
  intros Hg results. subst results. unfold process_video.
  destruct (process_video_try gray env (fresh_path (disk w)) options
              (mkWorld (disk w ++ [fresh_path (disk w)]) (open_clips w)))
    as [r w2] eqn:E.
  destruct (process_video_try_post _ _ _ _ _ _ _ E) as [_ Hr].
  destruct r as [results | msg]; cbn [fst].
  - left. destruct Hr as (_ & _ & _ & Hsum & _). exact (Hsum Hg).
  - right. now exists msg.
Qed.

Lemma without_gemini_the_summary_stays_empty_witness :
  gemini_available (demo_env (Some flicker) 10 false) = false /\
  (PyDict.get
     (fst (process_video gray_id (demo_env (Some flicker) 10 false)
             [("generate_video_summary"%string, true)] (mkWorld [] 0)))
     "summary" = Some (VStr "") \/
   exists msg,
     fst (process_video gray_id (demo_env (Some flicker) 10 false)
            [("generate_video_summary"%string, true)] (mkWorld [] 0))
     = error_result msg).
Proof.
  split; [reflexivity |].
  exact (without_gemini_the_summary_stays_empty
           gray_id (demo_env (Some flicker) 10 false)
           [("generate_video_summary"%string, true)] (mkWorld [] 0) eq_refl).
Defined.

(** A video with a positive duration whose first frame cannot be decoded
    makes [process_video] return the error dictionary with the text of the
    decoder's exception; the upload's temporary file is removed, no other
    file is left, and the opened clip is not closed. *)
Theorem undecodable_video_becomes_an_error_result
  {Frame CapFrame Image Buffer Obj : Type}
  (gray : CapFrame -> option (list Z))
  (env : Env Frame CapFrame Image Buffer Obj)
  (options : Options) (w : World) (clip : Clip Frame CapFrame) :
  open_clip env (fresh_path (disk w)) = Val clip ->
  PyDict.get_default options "analyze_video_frames" true = true ->
  0 < duration (clip_video clip) ->
  get_frame (clip_video clip) (first_time_of (duration (clip_video clip)))
  = None ->
  process_video gray env options w =
  (error_result
     (exn_text env
        (DecodeError (first_time_of (duration (clip_video clip))))),
   mkWorld (disk w) (S (open_clips w))).
Proof.
  intros Hopen Hopt Hd Hnone.
  unfold process_video, process_video_try, pbind, open_video. cbv zeta.
  rewrite Hopen. destruct (clip_size clip) as [width height].
  rewrite Hopt. unfold analyze_frames_block, pbind, call_sampler.
  cbn [disk open_clips].
  destruct (run gray (clip_video clip) 7 (disk w ++ [fresh_path (disk w)]))
    as [r s'] eqn:Er.
  pose proof (run_post gray (clip_video clip) Hd 7 _ r s' Er) as Hpost.
  rewrite Hnone in Hpost. destruct Hpost as [-> ->].
  cbn [temp_files]. unfold error_result, remove_if_exists.
  cbn [disk open_clips]. f_equal. f_equal.
  rewrite remove_fresh_path. apply filter_absent, fresh_path_is_fresh.
Qed.

Lemma undecodable_video_becomes_an_error_result_witness :
  process_video gray_id broken_env [] (mkWorld [] 0) =
  (error_result "decode failed", mkWorld [] 1).
Proof.
  exact (undecodable_video_becomes_an_error_result
           gray_id broken_env [] (mkWorld [] 0)
           (mkClip (undecodable_clip 10) 25 (640, 480)%Z None)
           eq_refl eq_refl eq_refl eq_refl).
Defined.

Lemma basic_analysis_numbers_frames_in_order_witness :
  exists kfs,
    basic_frame_analysis (demo_env None 2 false) [1; 2; 3] [1 # 2; 1]
    = Val kfs /\
    length kfs = 2%nat /\
    forall k fd,
      nth_error kfs k = Some fd ->
      fd_frame_number fd = (Z.of_nat k + 1)%Z /\
      nth_error [1 # 2; 1] k = Some (fd_time fd) /\
      fd_objects fd <> None /\
      exists frame,
        nth_error [1; 2; 3] k = Some frame /\
        imencode (demo_env None 2 false) frame = Val (fd_image fd).
Proof.
  destruct (basic_frame_analysis (demo_env None 2 false) [1; 2; 3] [1 # 2; 1])
    as [kfs | msg] eqn:E; [| vm_compute in E; discriminate].
  exists kfs. split; [reflexivity |].
  exact (basic_analysis_numbers_frames_in_order
           (demo_env None 2 false) [1; 2; 3] [1 # 2; 1] kfs E).
Defined.

Lemma video_analysis_covers_the_first_five_frames_witness :
  exists overall fas objs,
    analyze_video_content (demo_env None 10 true) [1; 2; 3; 4; 5; 6; 7]
      (mkVideoInfo 10 25 640 480 (Some [1; 2; 3; 4; 5; 6; 7]))
    = Analysis overall fas objs /\
    length fas = 5%nat /\
    (length (representative_frames [1; 2; 3; 4; 5; 6; 7]) <= 3)%nat.
Proof.
  destruct (analyze_video_content (demo_env None 10 true)
              [1; 2; 3; 4; 5; 6; 7]
              (mkVideoInfo 10 25 640 480 (Some [1; 2; 3; 4; 5; 6; 7])))
    as [msg | overall fas objs] eqn:E; [vm_compute in E; discriminate |].
  exists overall, fas, objs. split; [reflexivity |].
  destruct (video_analysis_covers_the_first_five_frames
              (demo_env None 10 true) [1; 2; 3; 4; 5; 6; 7]
              (mkVideoInfo 10 25 640 480 (Some [1; 2; 3; 4; 5; 6; 7]))
              overall fas objs E)
    as (_ & _ & Hlen & _ & _ & Hrep & _).
  split; [exact Hlen | exact Hrep].
Defined.

(** In a full result the transcript is the text of
    [extract_and_transcribe_audio] for the opened clip, unless one of the
    options 'extract_audio' and 'transcribe_audio' is off, and then it is
    empty; the frame analysis does not change it. *)
Theorem transcript_comes_from_the_audio_track
  {Frame CapFrame Image Buffer Obj : Type}
  (gray : CapFrame -> option (list Z))
  (env : Env Frame CapFrame Image Buffer Obj)
  (options : Options) (w : World) (clip : Clip Frame CapFrame) :
  open_clip env (fresh_path (disk w)) = Val clip ->
  let results := fst (process_video gray env options w) in
  PyDict.has results "error" = false ->
  PyDict.get results "transcript" =
  Some (VStr (if PyDict.get_default options "extract_audio" true
                 && PyDict.get_default options "transcribe_audio" true
              then extract_and_transcribe_audio (clip_audio clip)
              else "")).
Proof.
  intros Hclip results. subst results. unfold process_video.
  destruct (process_video_try gray env (fresh_path (disk w)) options
              (mkWorld (disk w ++ [fresh_path (disk w)]) (open_clips w)))
    as [r w2] eqn:E.
  destruct (process_video_try_post _ _ _ _ _ _ _ E) as [_ Hr].
  destruct r as [results | msg]; cbn [fst].
  - intros _. destruct Hr as (_ & _ & _ & _ & clip' & Hclip' & Ht).
    rewrite Hclip in Hclip'. inversion Hclip'; subst clip'. exact Ht.
  - intro H. vm_compute in H. discriminate.
Qed.

Lemma transcript_comes_from_the_audio_track_witness :
  PyDict.get
    (fst (process_video gray_id (demo_env (Some flicker) 10 false) []
            (mkWorld [] 0))) "transcript"
  = Some (VStr "No audio track found in video.").
Proof.
  exact (transcript_comes_from_the_audio_track
           gray_id (demo_env (Some flicker) 10 false) [] (mkWorld [] 0)
           (mkClip (clip 10 (Some flicker)) 25 (640, 480)%Z None)
           eq_refl eq_refl).
Defined.
